(** * The CSV-to-candlestick transform of [server.py]

    A shallow embedding of the body of [get_data] (the [try] block that
    normalises the column names of an uploaded table, checks the required
    columns, converts the [Datetime] column to epoch milliseconds, sorts the
    rows and builds the chart records), together with the Python and pandas
    operations it calls.

    Layout: IEEE binary64 values and the Python float operations the code
    uses; Python strings ([lower], [repr], [float(str)]); the DataFrame and
    its column operations; the two pandas services the code relies on
    ([to_datetime] and the argsort behind [sort_values]) as parameters of a
    section, with concrete instances; [get_data]; the theorems. *)

From Stdlib Require Import ZArith QArith Qcanon List String Ascii Bool Lia.
From Stdlib Require Import Permutation Sorted DecimalString.
Import ListNotations.

Local Open Scope string_scope.
Local Open Scope list_scope.
Local Open Scope Z_scope.

(** ** Binary64 floating point

    A Python [float] is a binary64 value.  Finite values carry their exact
    rational value; every operation computes the exact result and rounds it
    to the nearest representable value, ties to even ([b64]).  The sign of
    zero is not tracked. *)

Inductive float64 : Type :=
| FNaN
| FInf (neg : bool)
| FFin (q : Q).

(** [round_half_even n d] is the integer nearest to [n / d] for [0 <= n],
    [0 < d], ties going to the even neighbour. *)
Definition round_half_even (n d : Z) : Z :=
  let q := n / d in
  let r := n mod d in
  match 2 * r ?= d with
  | Lt => q
  | Gt => q + 1
  | Eq => if Z.even q then q else q + 1
  end.

(** [Qlog2 n d] is the floor of the binary logarithm of [n / d], [0 < n]. *)
Definition Qlog2 (n : Z) (d : positive) : Z :=
  let k := Z.log2 n - Z.log2 (Zpos d) in
  let below :=
    if 0 <=? k then n <? 2 ^ k * Zpos d else n * 2 ^ (- k) <? Zpos d in
  if below then k - 1 else k.

(** The value [m * 2^e] as a reduced fraction. *)
Definition dyadic (m e : Z) : Q :=
  if 0 <=? e then inject_Z (m * 2 ^ e)
  else Qred (Qmake m (Z.to_pos (2 ^ (- e)))).

(** Rounding of an exact value to binary64: 53 significant bits, least
    exponent -1074, overflow to infinity at [2^1024]. *)
Definition b64 (q : Q) : float64 :=
  let n := Z.abs (Qnum q) in
  let d := Qden q in
  let neg := Qnum q <? 0 in
  if n =? 0 then FFin 0 else
  let e := Z.max (Qlog2 n d - 52) (-1074) in
  let m :=
    if 0 <=? e then round_half_even n (Zpos d * 2 ^ e)
    else round_half_even (n * 2 ^ (- e)) (Zpos d) in
  if (0 <=? e) && (2 ^ 1024 <=? m * 2 ^ e) then FInf neg
  else FFin (dyadic (if neg then - m else m) e).

Definition f64_of_Z (z : Z) : float64 := b64 (inject_Z z).

(** [bounded B q]: the magnitude of [q] is below [2^B]. *)
Definition bounded (B : Z) (q : Q) : Prop :=
  Z.abs (Qnum q) < 2 ^ B * Zpos (Qden q).

Definition f64_sign (f : float64) : bool :=
  match f with
  | FNaN => false
  | FInf neg => neg
  | FFin q => Qnum q <? 0
  end.

Definition f64_is_zero (f : float64) : bool :=
  match f with FFin q => Qnum q =? 0 | _ => false end.

Definition f64_mul (a b : float64) : float64 :=
  match a, b with
  | FNaN, _ | _, FNaN => FNaN
  | FFin x, FFin y => b64 (x * y)
  | _, _ =>
      if f64_is_zero a || f64_is_zero b then FNaN
      else FInf (xorb (f64_sign a) (f64_sign b))
  end.

(** The division of two doubles, as [value / 1e9] is computed inside
    [Timestamp.timestamp]. *)
Definition f64_div (a b : float64) : float64 :=
  match a, b with
  | FNaN, _ | _, FNaN => FNaN
  | FFin x, FFin y =>
      if Qnum y =? 0
      then (if Qnum x =? 0 then FNaN else FInf (Qnum x <? 0))
      else b64 (x / y)
  | FInf s, FFin y => FInf (xorb s (Qnum y <? 0))
  | FFin _, FInf _ => FFin 0
  | FInf _, FInf _ => FNaN
  end.

(** Truncation towards zero of a rational. *)
Definition Qtrunc (q : Q) : Z := Z.quot (Qnum q) (Zpos (Qden q)).

(** Python's [round(x, 6)] on a float: the exact value is rounded to six
    decimals, ties to even, and the decimal result is converted back to the
    nearest float. *)
Definition py_round6 (f : float64) : float64 :=
  match f with
  | FFin q =>
      let n := Z.abs (Qnum q) * 10 ^ 6 in
      let r := round_half_even n (Zpos (Qden q)) in
      b64 (Qmake (if Qnum q <? 0 then - r else r) (Z.to_pos (10 ^ 6)))
  | _ => f
  end.

Definition f64_is_finite (f : float64) : bool :=
  match f with FFin _ => true | _ => false end.

(** NumPy's order on float64 keys: [a < b], with NaN sorted after every
    number ([a < b || (b != b && a == a)]). *)
Definition f64_lt (a b : float64) : bool :=
  match a, b with
  | FNaN, _ => false
  | _, FNaN => true
  | FInf s, FInf t => s && negb t
  | FInf s, FFin _ => s
  | FFin _, FInf t => negb t
  | FFin x, FFin y =>
      Qnum x * Zpos (Qden y) <? Qnum y * Zpos (Qden x)
  end.

Definition f64_le (a b : float64) : bool := negb (f64_lt b a).

(** ** Python exceptions

    Inside the [try] block every failure is an exception; the handler only
    uses [str(e)].  [Raise msg] carries that text. *)

Inductive result (A : Type) : Type :=
| Ok (a : A)
| Raise (msg : string).

Arguments Ok {A} a.
Arguments Raise {A} msg.

Definition bind {A B : Type} (r : result A) (k : A -> result B) : result B :=
  match r with
  | Ok a => k a
  | Raise msg => Raise msg
  end.

Notation "x <- r ;; k" := (bind r (fun x => k))
  (at level 61, r at next level, right associativity).
Notation "' p <- r ;; k" := (bind r (fun p => k))
  (at level 61, p pattern, r at next level, right associativity).

(** A Python loop or [apply] that evaluates [f] on every element in order
    and stops at the first exception. *)
Fixpoint mapM {A B : Type} (f : A -> result B) (l : list A)
  : result (list B) :=
  match l with
  | [] => Ok []
  | a :: l' =>
      b <- f a ;;
      bs <- mapM f l' ;;
      Ok (b :: bs)
  end.

(** ** Python strings

    A [str] is a sequence of Unicode code points.  A [string] here holds the
    UTF-8 bytes of one, as the CSV file does, and [code_points] reads the
    code points back.  The tables are those of Python 3.11 (Unicode 14.0). *)

Definition code (c : ascii) : Z := Z.of_nat (nat_of_ascii c).
Definition char_of (n : Z) : ascii := ascii_of_nat (Z.to_nat n).

Definition is_upper (c : ascii) : bool := (65 <=? code c) && (code c <=? 90).
Definition is_digit (c : ascii) : bool := (48 <=? code c) && (code c <=? 57).

(** [str.lower()]; letters outside ASCII are left as they are. *)
Definition lower_char (c : ascii) : ascii :=
  if is_upper c then ascii_of_nat (nat_of_ascii c + 32) else c.

Fixpoint lower (s : string) : string :=
  match s with
  | EmptyString => EmptyString
  | String c s' => String (lower_char c) (lower s')
  end.

(** [sep.join(l)] *)
Fixpoint join (sep : string) (l : list string) : string :=
  match l with
  | [] => ""
  | [s] => s
  | s :: l' => (s ++ sep ++ join sep l')%string
  end.

Fixpoint contains_char (c : ascii) (s : string) : bool :=
  match s with
  | EmptyString => false
  | String c' s' => Ascii.eqb c c' || contains_char c s'
  end.

(** *** Code points *)

Definition is_continuation (c : ascii) : bool :=
  (128 <=? code c) && (code c <=? 191).

Definition two_bytes (b0 b1 : ascii) : option Z :=
  if (194 <=? code b0) && (code b0 <=? 223) && is_continuation b1
  then Some ((code b0 - 192) * 64 + (code b1 - 128))
  else None.

Definition three_bytes (b0 b1 b2 : ascii) : option Z :=
  if (224 <=? code b0) && (code b0 <=? 239)
     && is_continuation b1 && is_continuation b2
  then
    let cp := (code b0 - 224) * 4096 + (code b1 - 128) * 64
              + (code b2 - 128) in
    if (2048 <=? cp) && negb ((55296 <=? cp) && (cp <=? 57343))
    then Some cp else None
  else None.

Definition four_bytes (b0 b1 b2 b3 : ascii) : option Z :=
  if (240 <=? code b0) && (code b0 <=? 244)
     && is_continuation b1 && is_continuation b2 && is_continuation b3
  then
    let cp := (code b0 - 240) * 262144 + (code b1 - 128) * 4096
              + (code b2 - 128) * 64 + (code b3 - 128) in
    if (65536 <=? cp) && (cp <=? 1114111) then Some cp else None
  else None.

(** A byte that is not part of a UTF-8 sequence does not occur in text
    that [read_csv] has decoded; it is read as the code point that
    Python's [surrogateescape] gives it. *)
Definition escaped_byte (b : ascii) : Z := 56320 + code b.

Fixpoint code_points (s : list ascii) : list Z :=
  match s with
  | [] => []
  | b0 :: s1 =>
      if code b0 <? 128 then code b0 :: code_points s1
      else
        let single := escaped_byte b0 :: code_points s1 in
        match s1 with
        | [] => single
        | b1 :: s2 =>
            match two_bytes b0 b1 with
            | Some cp => cp :: code_points s2
            | None =>
                match s2 with
                | [] => single
                | b2 :: s3 =>
                    match three_bytes b0 b1 b2 with
                    | Some cp => cp :: code_points s3
                    | None =>
                        match s3 with
                        | [] => single
                        | b3 :: s4 =>
                            match four_bytes b0 b1 b2 b3 with
                            | Some cp => cp :: code_points s4
                            | None => single
                            end
                        end
                    end
                end
            end
        end
  end.

(** The UTF-8 bytes of a code point. *)
Definition utf8 (cp : Z) : string :=
  let tail (n : Z) := char_of (128 + n mod 64) in
  if cp <? 128 then String (char_of cp) ""
  else if cp <? 2048 then
    String (char_of (192 + cp / 64)) (String (tail cp) "")
  else if cp <? 65536 then
    String (char_of (224 + cp / 4096))
           (String (tail (cp / 64)) (String (tail cp) ""))
  else
    String (char_of (240 + cp / 262144))
           (String (tail (cp / 4096))
                   (String (tail (cp / 64)) (String (tail cp) ""))).

(** *** [repr(str)] *)

(** The code points from 128 on for which [str.isprintable()] is false,
    as ranges: controls, formats, separators, surrogates, private use and
    unassigned code points. *)
Definition not_printable : list (Z * Z) :=
  [(128, 160); (173, 173); (888, 889); (896, 899); (907, 907); (909, 909);
   (930, 930); (1328, 1328); (1367, 1368); (1419, 1420); (1424, 1424);
   (1480, 1487); (1515, 1518); (1525, 1541); (1564, 1564); (1757, 1757);
   (1806, 1807); (1867, 1868); (1970, 1983); (2043, 2044); (2094, 2095);
   (2111, 2111); (2140, 2141); (2143, 2143); (2155, 2159); (2191, 2199);
   (2274, 2274); (2436, 2436); (2445, 2446); (2449, 2450); (2473, 2473);
   (2481, 2481); (2483, 2485); (2490, 2491); (2501, 2502); (2505, 2506);
   (2511, 2518); (2520, 2523); (2526, 2526); (2532, 2533); (2559, 2560);
   (2564, 2564); (2571, 2574); (2577, 2578); (2601, 2601); (2609, 2609);
   (2612, 2612); (2615, 2615); (2618, 2619); (2621, 2621); (2627, 2630);
   (2633, 2634); (2638, 2640); (2642, 2648); (2653, 2653); (2655, 2661);
   (2679, 2688); (2692, 2692); (2702, 2702); (2706, 2706); (2729, 2729);
   (2737, 2737); (2740, 2740); (2746, 2747); (2758, 2758); (2762, 2762);
   (2766, 2767); (2769, 2783); (2788, 2789); (2802, 2808); (2816, 2816);
   (2820, 2820); (2829, 2830); (2833, 2834); (2857, 2857); (2865, 2865);
   (2868, 2868); (2874, 2875); (2885, 2886); (2889, 2890); (2894, 2900);
   (2904, 2907); (2910, 2910); (2916, 2917); (2936, 2945); (2948, 2948);
   (2955, 2957); (2961, 2961); (2966, 2968); (2971, 2971); (2973, 2973);
   (2976, 2978); (2981, 2983); (2987, 2989); (3002, 3005); (3011, 3013);
   (3017, 3017); (3022, 3023); (3025, 3030); (3032, 3045); (3067, 3071);
   (3085, 3085); (3089, 3089); (3113, 3113); (3130, 3131); (3141, 3141);
   (3145, 3145); (3150, 3156); (3159, 3159); (3163, 3164); (3166, 3167);
   (3172, 3173); (3184, 3190); (3213, 3213); (3217, 3217); (3241, 3241);
   (3252, 3252); (3258, 3259); (3269, 3269); (3273, 3273); (3278, 3284);
   (3287, 3292); (3295, 3295); (3300, 3301); (3312, 3312); (3315, 3327);
   (3341, 3341); (3345, 3345); (3397, 3397); (3401, 3401); (3408, 3411);
   (3428, 3429); (3456, 3456); (3460, 3460); (3479, 3481); (3506, 3506);
   (3516, 3516); (3518, 3519); (3527, 3529); (3531, 3534); (3541, 3541);
   (3543, 3543); (3552, 3557); (3568, 3569); (3573, 3584); (3643, 3646);
   (3676, 3712); (3715, 3715); (3717, 3717); (3723, 3723); (3748, 3748);
   (3750, 3750); (3774, 3775); (3781, 3781); (3783, 3783); (3790, 3791);
   (3802, 3803); (3808, 3839); (3912, 3912); (3949, 3952); (3992, 3992);
   (4029, 4029); (4045, 4045); (4059, 4095); (4294, 4294); (4296, 4300);
   (4302, 4303); (4681, 4681); (4686, 4687); (4695, 4695); (4697, 4697);
   (4702, 4703); (4745, 4745); (4750, 4751); (4785, 4785); (4790, 4791);
   (4799, 4799); (4801, 4801); (4806, 4807); (4823, 4823); (4881, 4881);
   (4886, 4887); (4955, 4956); (4989, 4991); (5018, 5023); (5110, 5111);
   (5118, 5119); (5760, 5760); (5789, 5791); (5881, 5887); (5910, 5918);
   (5943, 5951); (5972, 5983); (5997, 5997); (6001, 6001); (6004, 6015);
   (6110, 6111); (6122, 6127); (6138, 6143); (6158, 6158); (6170, 6175);
   (6265, 6271); (6315, 6319); (6390, 6399); (6431, 6431); (6444, 6447);
   (6460, 6463); (6465, 6467); (6510, 6511); (6517, 6527); (6572, 6575);
   (6602, 6607); (6619, 6621); (6684, 6685); (6751, 6751); (6781, 6782);
   (6794, 6799); (6810, 6815); (6830, 6831); (6863, 6911); (6989, 6991);
   (7039, 7039); (7156, 7163); (7224, 7226); (7242, 7244); (7305, 7311);
   (7355, 7356); (7368, 7375); (7419, 7423); (7958, 7959); (7966, 7967);
   (8006, 8007); (8014, 8015); (8024, 8024); (8026, 8026); (8028, 8028);
   (8030, 8030); (8062, 8063); (8117, 8117); (8133, 8133); (8148, 8149);
   (8156, 8156); (8176, 8177); (8181, 8181); (8191, 8207); (8232, 8239);
   (8287, 8303); (8306, 8307); (8335, 8335); (8349, 8351); (8385, 8399);
   (8433, 8447); (8588, 8591); (9255, 9279); (9291, 9311); (11124, 11125);
   (11158, 11158); (11508, 11512); (11558, 11558); (11560, 11564); (11566,
   11567); (11624, 11630); (11633, 11646); (11671, 11679); (11687, 11687);
   (11695, 11695); (11703, 11703); (11711, 11711); (11719, 11719); (11727,
   11727); (11735, 11735); (11743, 11743); (11870, 11903); (11930, 11930);
   (12020, 12031); (12246, 12271); (12284, 12288); (12352, 12352); (12439,
   12440); (12544, 12548); (12592, 12592); (12687, 12687); (12772, 12783);
   (12831, 12831); (42125, 42127); (42183, 42191); (42540, 42559); (42744,
   42751); (42955, 42959); (42962, 42962); (42964, 42964); (42970, 42993);
   (43053, 43055); (43066, 43071); (43128, 43135); (43206, 43213); (43226,
   43231); (43348, 43358); (43389, 43391); (43470, 43470); (43482, 43485);
   (43519, 43519); (43575, 43583); (43598, 43599); (43610, 43611); (43715,
   43738); (43767, 43776); (43783, 43784); (43791, 43792); (43799, 43807);
   (43815, 43815); (43823, 43823); (43884, 43887); (44014, 44015); (44026,
   44031); (55204, 55215); (55239, 55242); (55292, 63743); (64110, 64111);
   (64218, 64255); (64263, 64274); (64280, 64284); (64311, 64311); (64317,
   64317); (64319, 64319); (64322, 64322); (64325, 64325); (64451, 64466);
   (64912, 64913); (64968, 64974); (64976, 65007); (65050, 65055); (65107,
   65107); (65127, 65127); (65132, 65135); (65141, 65141); (65277, 65280);
   (65471, 65473); (65480, 65481); (65488, 65489); (65496, 65497); (65501,
   65503); (65511, 65511); (65519, 65531); (65534, 65535); (65548, 65548);
   (65575, 65575); (65595, 65595); (65598, 65598); (65614, 65615); (65630,
   65663); (65787, 65791); (65795, 65798); (65844, 65846); (65935, 65935);
   (65949, 65951); (65953, 65999); (66046, 66175); (66205, 66207); (66257,
   66271); (66300, 66303); (66340, 66348); (66379, 66383); (66427, 66431);
   (66462, 66462); (66500, 66503); (66518, 66559); (66718, 66719); (66730,
   66735); (66772, 66775); (66812, 66815); (66856, 66863); (66916, 66926);
   (66939, 66939); (66955, 66955); (66963, 66963); (66966, 66966); (66978,
   66978); (66994, 66994); (67002, 67002); (67005, 67071); (67383, 67391);
   (67414, 67423); (67432, 67455); (67462, 67462); (67505, 67505); (67515,
   67583); (67590, 67591); (67593, 67593); (67638, 67638); (67641, 67643);
   (67645, 67646); (67670, 67670); (67743, 67750); (67760, 67807); (67827,
   67827); (67830, 67834); (67868, 67870); (67898, 67902); (67904, 67967);
   (68024, 68027); (68048, 68049); (68100, 68100); (68103, 68107); (68116,
   68116); (68120, 68120); (68150, 68151); (68155, 68158); (68169, 68175);
   (68185, 68191); (68256, 68287); (68327, 68330); (68343, 68351); (68406,
   68408); (68438, 68439); (68467, 68471); (68498, 68504); (68509, 68520);
   (68528, 68607); (68681, 68735); (68787, 68799); (68851, 68857); (68904,
   68911); (68922, 69215); (69247, 69247); (69290, 69290); (69294, 69295);
   (69298, 69375); (69416, 69423); (69466, 69487); (69514, 69551); (69580,
   69599); (69623, 69631); (69710, 69713); (69750, 69758); (69821, 69821);
   (69827, 69839); (69865, 69871); (69882, 69887); (69941, 69941); (69960,
   69967); (70007, 70015); (70112, 70112); (70133, 70143); (70162, 70162);
   (70207, 70271); (70279, 70279); (70281, 70281); (70286, 70286); (70302,
   70302); (70314, 70319); (70379, 70383); (70394, 70399); (70404, 70404);
   (70413, 70414); (70417, 70418); (70441, 70441); (70449, 70449); (70452,
   70452); (70458, 70458); (70469, 70470); (70473, 70474); (70478, 70479);
   (70481, 70486); (70488, 70492); (70500, 70501); (70509, 70511); (70517,
   70655); (70748, 70748); (70754, 70783); (70856, 70863); (70874, 71039);
   (71094, 71095); (71134, 71167); (71237, 71247); (71258, 71263); (71277,
   71295); (71354, 71359); (71370, 71423); (71451, 71452); (71468, 71471);
   (71495, 71679); (71740, 71839); (71923, 71934); (71943, 71944); (71946,
   71947); (71956, 71956); (71959, 71959); (71990, 71990); (71993, 71994);
   (72007, 72015); (72026, 72095); (72104, 72105); (72152, 72153); (72165,
   72191); (72264, 72271); (72355, 72367); (72441, 72703); (72713, 72713);
   (72759, 72759); (72774, 72783); (72813, 72815); (72848, 72849); (72872,
   72872); (72887, 72959); (72967, 72967); (72970, 72970); (73015, 73017);
   (73019, 73019); (73022, 73022); (73032, 73039); (73050, 73055); (73062,
   73062); (73065, 73065); (73103, 73103); (73106, 73106); (73113, 73119);
   (73130, 73439); (73465, 73647); (73649, 73663); (73714, 73726); (74650,
   74751); (74863, 74863); (74869, 74879); (75076, 77711); (77811, 77823);
   (78895, 82943); (83527, 92159); (92729, 92735); (92767, 92767); (92778,
   92781); (92863, 92863); (92874, 92879); (92910, 92911); (92918, 92927);
   (92998, 93007); (93018, 93018); (93026, 93026); (93048, 93052); (93072,
   93759); (93851, 93951); (94027, 94030); (94088, 94094); (94112, 94175);
   (94181, 94191); (94194, 94207); (100344, 100351); (101590, 101631);
   (101641, 110575); (110580, 110580); (110588, 110588); (110591, 110591);
   (110883, 110927); (110931, 110947); (110952, 110959); (111356, 113663);
   (113771, 113775); (113789, 113791); (113801, 113807); (113818, 113819);
   (113824, 118527); (118574, 118575); (118599, 118607); (118724, 118783);
   (119030, 119039); (119079, 119080); (119155, 119162); (119275, 119295);
   (119366, 119519); (119540, 119551); (119639, 119647); (119673, 119807);
   (119893, 119893); (119965, 119965); (119968, 119969); (119971, 119972);
   (119975, 119976); (119981, 119981); (119994, 119994); (119996, 119996);
   (120004, 120004); (120070, 120070); (120075, 120076); (120085, 120085);
   (120093, 120093); (120122, 120122); (120127, 120127); (120133, 120133);
   (120135, 120137); (120145, 120145); (120486, 120487); (120780, 120781);
   (121484, 121498); (121504, 121504); (121520, 122623); (122655, 122879);
   (122887, 122887); (122905, 122906); (122914, 122914); (122917, 122917);
   (122923, 123135); (123181, 123183); (123198, 123199); (123210, 123213);
   (123216, 123535); (123567, 123583); (123642, 123646); (123648, 124895);
   (124903, 124903); (124908, 124908); (124911, 124911); (124927, 124927);
   (125125, 125126); (125143, 125183); (125260, 125263); (125274, 125277);
   (125280, 126064); (126133, 126208); (126270, 126463); (126468, 126468);
   (126496, 126496); (126499, 126499); (126501, 126502); (126504, 126504);
   (126515, 126515); (126520, 126520); (126522, 126522); (126524, 126529);
   (126531, 126534); (126536, 126536); (126538, 126538); (126540, 126540);
   (126544, 126544); (126547, 126547); (126549, 126550); (126552, 126552);
   (126554, 126554); (126556, 126556); (126558, 126558); (126560, 126560);
   (126563, 126563); (126565, 126566); (126571, 126571); (126579, 126579);
   (126584, 126584); (126589, 126589); (126591, 126591); (126602, 126602);
   (126620, 126624); (126628, 126628); (126634, 126634); (126652, 126703);
   (126706, 126975); (127020, 127023); (127124, 127135); (127151, 127152);
   (127168, 127168); (127184, 127184); (127222, 127231); (127406, 127461);
   (127491, 127503); (127548, 127551); (127561, 127567); (127570, 127583);
   (127590, 127743); (128728, 128732); (128749, 128751); (128765, 128767);
   (128884, 128895); (128985, 128991); (129004, 129007); (129009, 129023);
   (129036, 129039); (129096, 129103); (129114, 129119); (129160, 129167);
   (129198, 129199); (129202, 129279); (129620, 129631); (129646, 129647);
   (129653, 129655); (129661, 129663); (129671, 129679); (129709, 129711);
   (129723, 129727); (129734, 129743); (129754, 129759); (129768, 129775);
   (129783, 129791); (129939, 129939); (129995, 130031); (130042, 131071);
   (173792, 173823); (177977, 177983); (178206, 178207); (183970, 183983);
   (191457, 194559); (195102, 196607); (201547, 917759); (918000, 1114111)].
Definition is_printable (cp : Z) : bool :=
  negb (existsb (fun r => (fst r <=? cp) && (cp <=? snd r)) not_printable).

Definition hex_digit (n : Z) : ascii :=
  ascii_of_nat (Z.to_nat (if n <? 10 then 48 + n else 87 + n)).

Fixpoint hex (width : nat) (n : Z) : string :=
  match width with
  | O => ""
  | S w => (hex w (n / 16) ++ String (hex_digit (n mod 16)) "")%string
  end.

(** One character of [repr(str)] inside quotes [q]. *)
Definition repr_char (q : ascii) (cp : Z) : string :=
  if (cp =? code q) || (cp =? 92) then String "\" (String (char_of cp) "")
  else if cp =? 9 then "\t"
  else if cp =? 10 then "\n"
  else if cp =? 13 then "\r"
  else if (cp <? 32) || (cp =? 127) then ("\x" ++ hex 2 cp)%string
  else if cp <? 127 then String (char_of cp) ""
  else if is_printable cp then utf8 cp
  else if cp <=? 255 then ("\x" ++ hex 2 cp)%string
  else if cp <=? 65535 then ("\u" ++ hex 4 cp)%string
  else ("\U" ++ hex 8 cp)%string.

Fixpoint repr_body (q : ascii) (cps : list Z) : string :=
  match cps with
  | [] => ""
  | cp :: cps' => (repr_char q cp ++ repr_body q cps')%string
  end.

Definition double_quote : ascii := ascii_of_nat 34.

(** [repr(s)]: single quotes, unless the text has a single quote and no
    double quote. *)
Definition repr_str (s : string) : string :=
  let q := if contains_char "'" s && negb (contains_char double_quote s)
           then double_quote else "'"%char in
  String q (repr_body q (code_points (list_ascii_of_string s))
            ++ String q "")%string.

(** [str(l)] of a list of strings. *)
Definition repr_list (l : list string) : string :=
  ("[" ++ join ", " (map repr_str l) ++ "]")%string.

(** [str.isspace()] of an ASCII character, which [str.split()] splits
    at. *)
Definition is_space (c : ascii) : bool :=
  let n := code c in
  ((9 <=? n) && (n <=? 13)) || ((28 <=? n) && (n <=? 32)).

(** *** [float(str)]

    CPython first rewrites the text
    ([_PyUnicode_TransformDecimalAndSpaceToASCII]): a code point below 127
    stays, a Unicode white space becomes a blank, a Unicode decimal digit
    becomes its ASCII digit, and at any other code point the text is cut
    and ends in a question mark.  Of the result, leading and trailing
    white space of C ([Py_ISSPACE]: tab to carriage return, and blank) is
    dropped, an underscore may stand between two digits, and what is left
    is an optional sign followed by [inf], [infinity], [nan] (in any case)
    or by a decimal numeral with an optional exponent.  Anything else
    raises [ValueError]. *)

(** The white space of [str.isspace()] from 127 on. *)
Definition unicode_spaces : list Z :=
  [133; 160; 5760; 8192; 8193; 8194; 8195; 8196; 8197; 8198; 8199; 8200; 8201;
 8202; 8232; 8233; 8239; 8287; 12288].
Definition is_unicode_space (cp : Z) : bool :=
  existsb (Z.eqb cp) unicode_spaces.

(** The code points of decimal value 0; the nine that follow each have the
    values 1 to 9. *)
Definition decimal_zeros : list Z :=
  [1632; 1776; 1984; 2406; 2534; 2662; 2790; 2918; 3046; 3174; 3302; 3430;
   3558; 3664; 3792; 3872; 4160; 4240; 6112; 6160; 6470; 6608; 6784; 6800;
   6992; 7088; 7232; 7248; 42528; 43216; 43264; 43472; 43504; 43600; 44016;
   65296; 66720; 68912; 69734; 69872; 69942; 70096; 70384; 70736; 70864;
   71248; 71360; 71472; 71904; 72016; 72784; 73040; 73120; 92768; 92864;
   93008; 120782; 120792; 120802; 120812; 120822; 123200; 123632; 125264;
   130032].
Definition to_decimal (cp : Z) : option Z :=
  match find (fun z => (z <=? cp) && (cp <=? z + 9)) decimal_zeros with
  | Some z => Some (cp - z)
  | None => None
  end.

Fixpoint transform_decimal_and_space (cps : list Z) : list ascii :=
  match cps with
  | [] => []
  | cp :: cps' =>
      if cp <? 127 then char_of cp :: transform_decimal_and_space cps'
      else if is_unicode_space cp then
        " "%char :: transform_decimal_and_space cps'
      else
        match to_decimal cp with
        | Some d => char_of (48 + d) :: transform_decimal_and_space cps'
        | None => ["?"%char]
        end
  end.

Definition Py_ISSPACE (c : ascii) : bool :=
  let n := code c in
  ((9 <=? n) && (n <=? 13)) || (n =? 32).

Fixpoint lstrip (s : list ascii) : list ascii :=
  match s with
  | c :: s' => if Py_ISSPACE c then lstrip s' else s
  | [] => []
  end.

Definition strip (s : list ascii) : list ascii :=
  rev (lstrip (rev (lstrip s))).

(** The text that the numeral is read from. *)
Definition numeral_text (s : string) : list ascii :=
  strip (transform_decimal_and_space (code_points (list_ascii_of_string s))).

Fixpoint drop_underscores (prev : option ascii) (s : list ascii)
  : option (list ascii) :=
  match s with
  | [] => Some []
  | c :: s' =>
      if Ascii.eqb c "_" then
        match prev, s' with
        | Some p, n :: _ =>
            if is_digit p && is_digit n then drop_underscores (Some c) s'
            else None
        | _, _ => None
        end
      else option_map (cons c) (drop_underscores (Some c) s')
  end.

(** Reads a run of decimal digits: the number read after [acc], how many
    digits there were, and the rest of the text. *)
Fixpoint digits (s : list ascii) (acc : Z) (n : Z) : Z * Z * list ascii :=
  match s with
  | c :: s' =>
      if is_digit c then digits s' (10 * acc + (code c - 48)) (n + 1)
      else (acc, n, s)
  | [] => (acc, n, [])
  end.

Definition read_sign (s : list ascii) : bool * list ascii :=
  match s with
  | c :: s' =>
      if Ascii.eqb c "-" then (true, s')
      else if Ascii.eqb c "+" then (false, s')
      else (false, s)
  | [] => (false, [])
  end.

(** The exponent part: [e] or [E], an optional sign, one digit or more. *)
Definition read_exponent (s : list ascii) : option Z :=
  match s with
  | [] => Some 0
  | c :: s' =>
      if Ascii.eqb (lower_char c) "e" then
        let '(neg, s1) := read_sign s' in
        match digits s1 0 0 with
        | (v, n, []) => if 0 <? n then Some (if neg then - v else v) else None
        | _ => None
        end
      else None
  end.

Definition decimal_value (mant k : Z) : Q :=
  if 0 <=? k then inject_Z (mant * 10 ^ k)
  else Qmake mant (Z.to_pos (10 ^ (- k))).

Definition parse_float (s : string) : option float64 :=
  match drop_underscores None (numeral_text s) with
  | None => None
  | Some t =>
      let '(neg, body) := read_sign t in
      let word := string_of_list_ascii (map lower_char body) in
      if String.eqb word "inf" || String.eqb word "infinity"
      then Some (FInf neg)
      else if String.eqb word "nan" then Some FNaN
      else
        let '(ip, ni, r1) := digits body 0 0 in
        let '(mant, nf, r2) :=
          match r1 with
          | c :: r =>
              if Ascii.eqb c "." then digits r ip 0 else (ip, 0, r1)
          | [] => (ip, 0, [])
          end in
        if 0 <? ni + nf then
          match read_exponent r2 with
          | Some ex =>
              Some (b64 (decimal_value (if neg then - mant else mant)
                                       (ex - nf)))
          | None => None
          end
        else None
  end.

Definition float_of_str (s : string) : result float64 :=
  match parse_float s with
  | Some f => Ok f
  | None => Raise ("could not convert string to float: " ++ repr_str s)
  end.

(** [int(x)] of a float truncates towards zero. *)
Definition int_of_float (f : float64) : result Z :=
  match f with
  | FFin q => Ok (Qtrunc q)
  | FNaN => Raise "cannot convert float NaN to integer"
  | FInf _ => Raise "cannot convert float infinity to integer"
  end.

(** [int(str)]: an optional sign and decimal digits. *)
Definition int_of_str (s : string) : result Z :=
  let bad := Raise ("invalid literal for int() with base 10: " ++ repr_str s) in
  match drop_underscores None (numeral_text s) with
  | None => bad
  | Some t =>
      let '(neg, body) := read_sign t in
      match digits body 0 0 with
      | (v, n, []) => if 0 <? n then Ok (if neg then - v else v) else bad
      | _ => bad
      end
  end.

(** ** The DataFrame

    [pd.read_csv] hands the code a table of labelled columns.  A cell is a
    number (a column of numbers is float64 or int64), text (a column with
    any non-numeric field is an object column of [str]), or blank: an empty
    field is read as the missing value NaN in either kind of column.  A
    number is held as the float that [float] makes of it.  Column labels
    are an ordered list and may repeat. *)

Inductive cell : Type :=
| Blank
| Num (f : float64)
| Text (s : string).

Record DataFrame : Type := mkDataFrame {
  columns : list string;
  rows : list (list cell)
}.

(** Every row has one cell per column. *)
Definition well_formed (df : DataFrame) : bool :=
  forallb (fun r => Nat.eqb (List.length r) (List.length (columns df)))
          (rows df).

(** [col in df.columns] *)
Definition has_column (cols : list string) (col : string) : bool :=
  existsb (String.eqb col) cols.

(** The positions at which a label occurs, counted from [start]. *)
Fixpoint locs (label : string) (cols : list string) (start : nat)
  : list nat :=
  match cols with
  | [] => []
  | c :: cols' =>
      if String.eqb label c then start :: locs label cols' (S start)
      else locs label cols' (S start)
  end.

Definition column_at (j : nat) (df : DataFrame) : list cell :=
  map (fun r => nth j r Blank) (rows df).

(** [df[label]]: a Series when the label occurs once, a DataFrame of all
    the columns carrying it when it is repeated, [KeyError] when absent. *)
Inductive selection : Type :=
| Series (j : nat) (values : list cell)
| Frame (js : list nat)
| Missing.

Definition getitem (df : DataFrame) (label : string) : selection :=
  match locs label (columns df) 0 with
  | [] => Missing
  | [j] => Series j (column_at j df)
  | js => Frame js
  end.

Fixpoint replace_nth {A : Type} (j : nat) (a : A) (l : list A) : list A :=
  match l, j with
  | [], _ => []
  | _ :: l', O => a :: l'
  | b :: l', S j' => b :: replace_nth j' a l'
  end.

(** [df[label] = values] for a label at position [j]. *)
Fixpoint set_column (j : nat) (values : list cell) (rs : list (list cell))
  : list (list cell) :=
  match rs, values with
  | r :: rs', v :: values' => replace_nth j v r :: set_column j values' rs'
  | _, _ => rs
  end.

(** [take(indexer)]: row [i] of the result is row [indexer[i]]. *)
Definition take (indexer : list nat) (rs : list (list cell))
  : list (list cell) :=
  map (fun i => nth i rs []) indexer.

(** *** Scalars *)

(** [float(v)] for the value of a cell. *)
Definition py_float (c : cell) : result float64 :=
  match c with
  | Blank => Ok FNaN
  | Num f => Ok f
  | Text s => float_of_str s
  end.

(** [int(v)] for the value of a cell. *)
Definition py_int (c : cell) : result Z :=
  match c with
  | Blank => int_of_float FNaN
  | Num f => int_of_float f
  | Text s => int_of_str s
  end.

(** The float64 view of a numeric column, as the sort reads it.  The
    sort is only ever given the column line 133 has filled with floats,
    so text does not occur there. *)
Definition as_float64 (c : cell) : float64 :=
  match c with
  | Num f => f
  | Blank | Text _ => FNaN
  end.

(** [row[label]] inside [iterrows]: the row is a Series indexed by the
    column labels, so a repeated label selects a Series, which neither
    [float] nor [int] accepts. *)
Definition row_item (conv : string) {A : Type} (f : cell -> result A)
  (cols : list string) (row : list cell) (label : string) : result A :=
  match locs label cols 0 with
  | [] => Raise (repr_str label)
  | [j] => f (nth j row Blank)
  | _ => Raise ("cannot convert the series to <class '" ++ conv ++ "'>")
  end.

(** *** Timestamps *)

(** An element of a datetime64 column: a [Timestamp] holding a count of
    nanoseconds since 1970-01-01 00:00 of its own wall clock, or [NaT]. *)
Inductive timestamp : Type :=
| NaT
| Stamp (value : Z).

(** [Timestamp.timestamp()] is [round(value / 1e9, 6)], the value being
    converted to a float first; [NaT] has no such method. *)
Definition timestamp_seconds (t : timestamp) : result float64 :=
  match t with
  | NaT => Raise "NaTType does not support timestamp"
  | Stamp v => Ok (py_round6 (f64_div (f64_of_Z v) (f64_of_Z (10 ^ 9))))
  end.

(** [lambda x: x.timestamp() * 1000] *)
Definition to_millis (t : timestamp) : result float64 :=
  s <- timestamp_seconds t ;;
  Ok (f64_mul s (f64_of_Z 1000)).

(** ** The response *)

Record ChartRecord : Type := mkChartRecord {
  x : Z;
  y : list float64
}.

(** [jsonify(chart_data)], [jsonify({"error": ...}), 400] and
    [jsonify({"error": ...}), 500]. *)
Inductive response : Type :=
| Response200 (chart_data : list ChartRecord)
| Response400 (error : string)
| Response500 (error : string).

Definition column_mapping : list (string * string) :=
  [ ("datetime", "Datetime");
    ("open", "Open");
    ("high", "High");
    ("low", "Low");
    ("close", "Close");
    ("date", "Datetime") ].

Definition required_cols : list string :=
  ["Datetime"; "Open"; "High"; "Low"; "Close"].

(** [mapper.get(label, label)] for the dict [mapper]. *)
Fixpoint rename_label (mapper : list (string * string)) (label : string)
  : string :=
  match mapper with
  | [] => label
  | (k, v) :: mapper' =>
      if String.eqb k label then v else rename_label mapper' label
  end.

(** Lines 119 to 122: lower-case the labels, then rename those the mapping
    knows.  The cells are not touched. *)
Definition reconcile (df : DataFrame) : DataFrame :=
  let lowered := map lower (columns df) in
  let mapper :=
    filter (fun kv => has_column lowered (fst kv)) column_mapping in
  mkDataFrame (map (rename_label mapper) lowered) (rows df).

Definition missing_cols (cols : list string) : list string :=
  filter (fun col => negb (has_column cols col)) required_cols.

Definition schema_error (cols : list string) : string :=
  "CSV must contain '" ++ join ", " (missing_cols cols)
  ++ "' columns. Found: " ++ repr_list cols.

(** One pass of the loop over [iterrows]. *)
Definition chart_record (cols : list string) (row : list cell)
  : result ChartRecord :=
  xv <- row_item "int" py_int cols row "Datetime" ;;
  o <- row_item "float" py_float cols row "Open" ;;
  h <- row_item "float" py_float cols row "High" ;;
  l <- row_item "float" py_float cols row "Low" ;;
  c <- row_item "float" py_float cols row "Close" ;;
  Ok (mkChartRecord xv [o; h; l; c]).

Section Pandas.

(** [pd.to_datetime] on the cells of one column: the parsed column, or
    the text of the exception it raises. *)
Variable to_datetime : list cell -> result (list timestamp).

(** [numpy.argsort] of the float64 keys with the sort kind
    [sort_values] asks for: the permutation that sorts them. *)
Variable argsort : list float64 -> list nat.

(** Line 131.  Given a DataFrame, [to_datetime] assembles dates from
    columns named year, month and day, and first rejects repeated
    labels. *)
Definition parse_datetime_column (df : DataFrame)
  : result (nat * list timestamp) :=
  match getitem df "Datetime" with
  | Series j values => ts <- to_datetime values ;; Ok (j, ts)
  | Frame _ => Raise "cannot assemble with duplicate keys"
  | Missing => Raise (repr_str "Datetime")
  end.

(** Line 136: [df.sort_values(by='Datetime').reset_index(drop=True)]. *)
Definition sort_values (df : DataFrame) (j : nat) : DataFrame :=
  let keys := map as_float64 (column_at j df) in
  mkDataFrame (columns df) (take (argsort keys) (rows df)).

(** Lines 129 to 150: line 131 converts the [Datetime] column, line 133
    puts the milliseconds of each timestamp in its place, line 136 sorts
    the rows by them and the loop of lines 139 to 149 builds one record
    per row. *)
Definition build_chart_data (df : DataFrame) : result (list ChartRecord) :=
  '(j, stamps) <- parse_datetime_column df ;;
  millis <- mapM to_millis stamps ;;
  let df := mkDataFrame (columns df)
                        (set_column j (map Num millis) (rows df)) in
  let df := sort_values df j in
  mapM (chart_record (columns df)) (rows df).

(** Lines 104 to 152 of [get_data], from the DataFrame on. *)
Definition get_data (df : DataFrame) : response :=
  let df := reconcile df in
  if negb (forallb (has_column (columns df)) required_cols) then
    Response400 (schema_error (columns df))
  else
    match build_chart_data df with
    | Ok chart_data => Response200 chart_data
    | Raise e => Response500 ("Error processing CSV: " ++ e)
    end.

End Pandas.

(** ** Instances of the pandas services *)

(** *** A stable argsort

    What [kind='stable'] gives: indices in key order, equal keys in index
    order. *)

Definition key_of (v : list float64) (i : nat) : float64 := nth i v FNaN.

Fixpoint insert_index (v : list float64) (i : nat) (l : list nat)
  : list nat :=
  match l with
  | [] => [i]
  | j :: l' =>
      if f64_le (key_of v i) (key_of v j) then i :: l
      else j :: insert_index v i l'
  end.

Definition argsort_stable (v : list float64) : list nat :=
  fold_right (insert_index v) [] (seq 0 (List.length v)).

(** *** NumPy's quicksort

    [sort_values] is called without [kind], so pandas asks NumPy for
    [argsort(kind='quicksort')].  This is NumPy's portable routine
    [aquicksort]: an introsort over the index array [tosort] that
    partitions around the median of three while a range is longer than 17,
    finishes short ranges by insertion, and falls back on heapsort when the
    depth budget is used up.  The loops of the C code are bounded by the
    length of the array, which is the fuel given here. *)

Local Open Scope nat_scope.

Definition swap (i j : nat) (a : list nat) : list nat :=
  let ai := nth i a O in
  let aj := nth j a O in
  replace_nth j ai (replace_nth i aj a).

Section ArgQuicksort.

Variable v : list float64.

Definition less (i j : nat) : bool := f64_lt (key_of v i) (key_of v j).

(** [do ++pi; while (v[*pi] < vp)], entered with [pi] already advanced. *)
Fixpoint scan_up (fuel : nat) (a : list nat) (vp : float64) (pi : nat)
  : nat :=
  match fuel with
  | O => pi
  | S fuel' =>
      if f64_lt (key_of v (nth pi a O)) vp
      then scan_up fuel' a vp (S pi) else pi
  end.

(** [do --pj; while (vp < v[*pj])], entered with [pj] already moved. *)
Fixpoint scan_down (fuel : nat) (a : list nat) (vp : float64) (pj : nat)
  : nat :=
  match fuel with
  | O => pj
  | S fuel' =>
      if f64_lt vp (key_of v (nth pj a O))
      then scan_down fuel' a vp (pj - 1) else pj
  end.

Fixpoint partition_loop (fuel : nat) (a : list nat) (vp : float64)
  (pi pj : nat) : list nat * nat :=
  match fuel with
  | O => (a, pi)
  | S fuel' =>
      let pi := scan_up (List.length a) a vp (S pi) in
      let pj := scan_down (List.length a) a vp (pj - 1) in
      if (pj <=? pi)%nat then (a, pi)
      else partition_loop fuel' (swap pi pj a) vp pi pj
  end.

Definition swap_if_less (i j : nat) (a : list nat) : list nat :=
  if less (nth i a O) (nth j a O) then swap i j a else a.

(** One partition of [pl .. pr]; returns the array and the final place
    [pi] of the pivot. *)
Definition partition (a : list nat) (pl pr : nat) : list nat * nat :=
  let pm := (pl + Nat.div2 (pr - pl))%nat in
  let a := swap_if_less pm pl a in
  let a := swap_if_less pr pm a in
  let a := swap_if_less pm pl a in
  let vp := key_of v (nth pm a O) in
  let pj := (pr - 1)%nat in
  let a := swap pm pj a in
  let '(a, pi) := partition_loop (List.length a) a vp pl pj in
  (swap pi (pr - 1) a, pi).

(** The inner loop of the insertion sort: shift the entries above [vi]
    one place up, from [pj] down to [pl]. *)
Fixpoint insertion_shift (fuel : nat) (a : list nat) (vi pl pj : nat)
  : list nat :=
  match fuel with
  | O => replace_nth pj vi a
  | S fuel' =>
      if (pl <? pj)%nat && less vi (nth (pj - 1) a O)
      then insertion_shift fuel' (replace_nth pj (nth (pj - 1) a O) a)
                           vi pl (pj - 1)
      else replace_nth pj vi a
  end.

Fixpoint insertion_sort (fuel : nat) (a : list nat) (pl pi pr : nat)
  : list nat :=
  match fuel with
  | O => a
  | S fuel' =>
      if (pi <=? pr)%nat
      then insertion_sort fuel'
             (insertion_shift (List.length a) a (nth pi a O) pl pi)
             pl (S pi) pr
      else a
  end.

(** Heapsort of the [n] entries from [pl] on; entry [k] of the C code's
    one-based view is entry [pl + k - 1]. *)
Fixpoint sift_down (fuel : nat) (a : list nat) (pl tmp i j n : nat)
  : list nat :=
  match fuel with
  | O => replace_nth (pl + i - 1) tmp a
  | S fuel' =>
      if (j <=? n)%nat then
        let j :=
          if (j <? n)%nat
             && less (nth (pl + j - 1) a O) (nth (pl + j) a O)
          then S j else j in
        if less tmp (nth (pl + j - 1) a O)
        then sift_down fuel'
               (replace_nth (pl + i - 1) (nth (pl + j - 1) a O) a)
               pl tmp j (j + j) n
        else replace_nth (pl + i - 1) tmp a
      else replace_nth (pl + i - 1) tmp a
  end.

Fixpoint heapify (l : nat) (a : list nat) (pl n : nat) : list nat :=
  match l with
  | O => a
  | S l' =>
      heapify l'
        (sift_down (List.length a) a pl (nth (pl + l - 1) a O) l (l + l) n)
        pl n
  end.

Fixpoint heap_extract (n : nat) (a : list nat) (pl : nat) : list nat :=
  match n with
  | O => a
  | S n' =>
      if (1 <? n)%nat then
        let tmp := nth (pl + n - 1) a O in
        let a := replace_nth (pl + n - 1) (nth pl a O) a in
        heap_extract n'
          (sift_down (List.length a) a pl tmp 1 2 n') pl
      else a
  end.

Definition aheapsort (a : list nat) (pl n : nat) : list nat :=
  heap_extract n (heapify (Nat.div2 n) a pl n) pl.

(** [while ((pr - pl) > SMALL_QUICKSORT)]: partition, push the larger
    side with the decremented depth, go on with the smaller. *)
Fixpoint quick_loop (fuel : nat) (a : list nat) (pl pr : nat) (cdepth : Z)
  (stack : list (nat * nat * Z))
  : list nat * nat * nat * Z * list (nat * nat * Z) :=
  match fuel with
  | O => (a, pl, pr, cdepth, stack)
  | S fuel' =>
      if (16 <? pr - pl)%nat then
        let '(a, pi) := partition a pl pr in
        let cdepth := (cdepth - 1)%Z in
        if (pi - pl <? pr - pi)%nat
        then quick_loop fuel' a pl (pi - 1) cdepth
                        ((S pi, pr, cdepth) :: stack)
        else quick_loop fuel' a (S pi) pr cdepth
                        ((pl, pi - 1, cdepth) :: stack)
      else (a, pl, pr, cdepth, stack)
  end.

Fixpoint sort_loop (fuel : nat) (a : list nat) (pl pr : nat) (cdepth : Z)
  (stack : list (nat * nat * Z)) : list nat :=
  match fuel with
  | O => a
  | S fuel' =>
      let '(a, stack) :=
        if (cdepth <? 0)%Z then (aheapsort a pl (pr - pl + 1), stack)
        else
          let '(a, pl, pr, _, stack) :=
            quick_loop (List.length a) a pl pr cdepth stack in
          (insertion_sort (List.length a) a pl (S pl) pr, stack) in
      match stack with
      | [] => a
      | (pl, pr, cdepth) :: stack' => sort_loop fuel' a pl pr cdepth stack'
      end
  end.

Definition aquicksort (tosort : list nat) : list nat :=
  let num := List.length tosort in
  match num with
  | O => tosort
  | S _ =>
      sort_loop (S num) tosort 0 (num - 1)
                (2 * Z.of_nat (Nat.log2 num))%Z []
  end.

End ArgQuicksort.

Definition argsort_quicksort (v : list float64) : list nat :=
  aquicksort v (seq 0 (List.length v)).

Local Open Scope Z_scope.

(** *** [to_datetime] on ISO 8601 text

    A model of [pd.to_datetime] for columns written as
    [YYYY-MM-DD HH:MM:SS] with an optional fraction of one to nine digits:
    a blank gives [NaT], such text gives the nanoseconds its wall clock
    reading lies after 1970-01-01 00:00:00, no zone offset being applied,
    and a number is a count of nanoseconds.  Any other cell raises; the
    wording of the message is that of [dateutil]'s failure and differs
    between pandas versions. *)

Definition is_leap (yr : Z) : bool :=
  ((yr mod 4 =? 0) && negb (yr mod 100 =? 0)) || (yr mod 400 =? 0).

Definition days_in_month (yr m : Z) : Z :=
  if m =? 2 then (if is_leap yr then 29 else 28)
  else if (m =? 4) || (m =? 6) || (m =? 9) || (m =? 11) then 30
  else 31.

(** Days from 1970-01-01 to the given civil date. *)
Definition days_from_civil (yr m d : Z) : Z :=
  let yr := if m <=? 2 then yr - 1 else yr in
  let era := yr / 400 in
  let yoe := yr - era * 400 in
  let doy := (153 * (if 2 <? m then m - 3 else m + 9) + 2) / 5 + d - 1 in
  let doe := yoe * 365 + yoe / 4 - yoe / 100 + doy in
  era * 146097 + doe - 719468.

(** Exactly [n] digits. *)
Fixpoint number (n : nat) (s : list ascii) (acc : Z)
  : option (Z * list ascii) :=
  match n with
  | O => Some (acc, s)
  | S n' =>
      match s with
      | c :: s' =>
          if is_digit c then number n' s' (10 * acc + (code c - 48))
          else None
      | [] => None
      end
  end.

Definition field (n : nat) (sep : option ascii) (s : list ascii)
  : option (Z * list ascii) :=
  match number n s 0, sep with
  | Some (v, c :: s'), Some c' =>
      if Ascii.eqb c c' then Some (v, s') else None
  | Some (v, s'), None => Some (v, s')
  | _, _ => None
  end.

Definition fraction_nanos (s : list ascii) : option Z :=
  match s with
  | [] => Some 0
  | c :: s' =>
      if Ascii.eqb c "." then
        match digits s' 0 0 with
        | (v, n, []) =>
            if (1 <=? n) && (n <=? 9) then Some (v * 10 ^ (9 - n)) else None
        | _ => None
        end
      else None
  end.

Definition parse_iso (s : string) : option Z :=
  match field 4 (Some "-"%char) (list_ascii_of_string s) with
  | None => None
  | Some (yr, s1) =>
  match field 2 (Some "-"%char) s1 with
  | None => None
  | Some (mo, s2) =>
  match field 2 (Some " "%char) s2 with
  | None => None
  | Some (dd, s3) =>
  match field 2 (Some ":"%char) s3 with
  | None => None
  | Some (hh, s4) =>
  match field 2 (Some ":"%char) s4 with
  | None => None
  | Some (mi, s5) =>
  match field 2 None s5 with
  | None => None
  | Some (ss, s6) =>
  match fraction_nanos s6 with
  | None => None
  | Some ns =>
      let value :=
        (((days_from_civil yr mo dd * 24 + hh) * 60 + mi) * 60 + ss)
        * 10 ^ 9 + ns in
      if (1 <=? mo) && (mo <=? 12) && (1 <=? dd)
         && (dd <=? days_in_month yr mo)
         && (hh <=? 23) && (mi <=? 59) && (ss <=? 59)
         && (- 2 ^ 63 <? value) && (value <? 2 ^ 63)
      then Some value else None
  end end end end end end end.

Definition decimal (n : nat) : string :=
  NilEmpty.string_of_uint (Nat.to_uint n).

Definition datetime_of_cell (position : nat) (c : cell) : result timestamp :=
  let bad (s : string) :=
    Raise ("Unknown datetime string format, unable to parse: " ++ s
           ++ ", at position " ++ decimal position) in
  match c with
  | Blank => Ok NaT
  | Num FNaN => Ok NaT
  | Num (FFin q) =>
      if (Zpos (Qden q) =? 1) && (- 2 ^ 63 <? Qnum q) && (Qnum q <? 2 ^ 63)
      then Ok (Stamp (Qnum q))
      else Raise "cannot convert input with unit 'ns'"
  | Num (FInf _) => Raise "cannot convert input with unit 'ns'"
  | Text s =>
      match parse_iso s with
      | Some value => Ok (Stamp value)
      | None => bad s
      end
  end.

Fixpoint to_datetime_from (position : nat) (values : list cell)
  : result (list timestamp) :=
  match values with
  | [] => Ok []
  | c :: values' =>
      t <- datetime_of_cell position c ;;
      ts <- to_datetime_from (S position) values' ;;
      Ok (t :: ts)
  end.

Definition to_datetime_iso (values : list cell) : result (list timestamp) :=
  to_datetime_from 0 values.

(** ** What the claims speak of *)

(** The records the loop of lines 139 to 149 yields when it runs over the
    rows in their input order, that is [build_chart_data] without line
    136. *)
Definition chart_data_unsorted
  (to_datetime : list cell -> result (list timestamp)) (df : DataFrame)
  : result (list ChartRecord) :=
  '(j, stamps) <- parse_datetime_column to_datetime df ;;
  millis <- mapM to_millis stamps ;;
  mapM (chart_record (columns df)) (set_column j (map Num millis) (rows df)).

(** The order of two positions by their keys. *)
Definition key_le (v : list float64) (i j : nat) : Prop :=
  f64_le (key_of v i) (key_of v j) = true.

(** The value of a [Timestamp] is an int64. *)
Definition in_int64 (t : timestamp) : Prop :=
  match t with
  | Stamp value => - 2 ^ 63 <= value < 2 ^ 63
  | NaT => True
  end.

(** The cell of a row under a label, for a label that occurs once. *)
Definition cell_of (cols : list string) (row : list cell) (label : string)
  : cell :=
  nth (hd O (locs label cols 0)) row Blank.

Definition price_cols : list string := ["Open"; "High"; "Low"; "Close"].

(** [[float(row['Open']), float(row['High']), float(row['Low']),
    float(row['Close'])]] *)
Definition prices (cols : list string) (row : list cell)
  : result (list float64) :=
  mapM (row_item "float" py_float cols row) price_cols.

(** Text that [float] rejects. *)
Definition is_bad_text (c : cell) : bool :=
  match c with
  | Text s => match parse_float s with Some _ => false | None => true end
  | _ => false
  end.

(** The price cells holding such text, each as row index and label. *)
Definition bad_labels (cols : list string) (row : list cell) : list string :=
  filter (fun label => is_bad_text (cell_of cols row label)) price_cols.

Fixpoint bad_cells_from (cols : list string) (i : nat)
  (rs : list (list cell)) : list (nat * string) :=
  match rs with
  | [] => []
  | r :: rs' =>
      map (pair i) (bad_labels cols r) ++ bad_cells_from cols (S i) rs'
  end.

Definition bad_cells (df : DataFrame) : list (nat * string) :=
  bad_cells_from (columns (reconcile df)) 0 (rows df).

(** Each required label is the label of one column. *)
Definition required_once (cols : list string) : Prop :=
  forall label, In label required_cols ->
                count_occ string_dec cols label = 1%nat.

(** Epoch milliseconds of a timestamp, fractions of a millisecond cut
    off. *)
Definition epoch_millis (t : timestamp) : option Z :=
  match t with
  | Stamp value => Some (Z.quot value (10 ^ 6))
  | NaT => None
  end.

(** ** Sample tables *)

Definition num (z : Z) : cell := Num (f64_of_Z z).

Definition table_without_close : DataFrame :=
  mkDataFrame ["Date"; "Open"; "HIGH"; "low"; "Volume"]
    [ [Text "2005-04-25 09:15:00"; num 100; num 110; num 95; num 7] ].

Definition table_two_rows : DataFrame :=
  mkDataFrame ["Date"; "Open"; "HIGH"; "low"; "Close"; "Volume"]
    [ [Text "2005-04-25 09:16:00"; num 100; num 110; num 95; num 105; num 7];
      [Text "2005-04-25 09:15:00"; num 101; num 111; num 96; num 106; num 8] ].

Definition table_both_dates : DataFrame :=
  mkDataFrame ["date"; "datetime"; "open"; "high"; "low"; "close"]
    [ [Text "2005-04-25"; Text "2005-04-25 09:15:00";
       num 100; num 110; num 95; num 105] ].

Definition header_both_dates : DataFrame :=
  mkDataFrame ["date"; "datetime"; "open"; "high"; "low"; "close"] [].

Definition header_only : DataFrame :=
  mkDataFrame ["Datetime"; "Open"; "High"; "Low"; "Close"] [].

(** Eighteen rows of one and the same minute, opening at 0, 1, ..., 17. *)
Definition table_ties : DataFrame :=
  mkDataFrame ["datetime"; "open"; "high"; "low"; "close"]
    (map (fun i => [Text "2024-01-01 09:15:00"; num i; num 20; num 0; num 10])
         [0; 1; 2; 3; 4; 5; 6; 7; 8; 9; 10; 11; 12; 13; 14; 15; 16; 17]).

(** The text [abc] in the open cell of row 0, and in the close cell of
    row 1.  The other cells of such a column are text as well. *)
Definition table_abc_open : DataFrame :=
  mkDataFrame ["datetime"; "open"; "high"; "low"; "close"]
    [ [Text "2005-04-25 09:15:00"; Text "abc"; num 110; num 95; num 105];
      [Text "2005-04-25 09:16:00"; Text "101"; num 111; num 96; num 106] ].

Definition table_abc_close : DataFrame :=
  mkDataFrame ["datetime"; "open"; "high"; "low"; "close"]
    [ [Text "2005-04-25 09:15:00"; num 100; num 110; num 95; Text "105"];
      [Text "2005-04-25 09:16:00"; num 101; num 111; num 96; Text "abc"] ].

Definition table_fraction : DataFrame :=
  mkDataFrame ["datetime"; "open"; "high"; "low"; "close"]
    [ [Text "2004-01-11 15:38:38.883"; num 100; num 110; num 95; num 105];
      [Text "2024-01-02 09:15:00.9999995"; num 101; num 111; num 96;
       num 106] ].

Definition table_blank : DataFrame :=
  mkDataFrame ["datetime"; "open"; "high"; "low"; "close"]
    [ [Text "2005-04-25 09:15:00"; num 100; Blank; num 95; num 105];
      [Text "2005-04-25 09:16:00"; num 101; num 111; num 96; num 106] ].

(** An open that starts with the control character U+001C, which
    [str.split()] takes for white space and [float] does not, and a high
    that is no numeral at all. *)
Definition table_padded_open : DataFrame :=
  mkDataFrame ["datetime"; "open"; "high"; "low"; "close"]
    [ [Text "2005-04-25 09:15:00"; Text (String (char_of 28) "1.5");
       Text "abc"; num 95; num 105] ].

(** An open in Arabic-Indic digits (U+0661 U+0662 U+0663) after a
    no-break space (U+00A0). *)
Definition table_arabic_open : DataFrame :=
  mkDataFrame ["datetime"; "open"; "high"; "low"; "close"]
    [ [Text "2005-04-25 09:15:00";
       Text (utf8 160 ++ utf8 1633 ++ utf8 1634 ++ utf8 1635);
       num 110; num 95; num 105] ].

(** A high of [inf], which [read_csv] reads as the float infinity. *)
Definition table_inf : DataFrame :=
  mkDataFrame ["datetime"; "open"; "high"; "low"; "close"]
    [ [Text "2005-04-25 09:15:00"; num 100; Num (FInf false); num 95;
       num 105] ].

(** The chart records of a response, none for an error. *)
Definition records_of (r : response) : list ChartRecord :=
  match r with
  | Response200 chart_data => chart_data
  | _ => []
  end.

(** ** Uploading, listing and serving: lines 17 to 102

    The upload folder is a directory of plain files, each a name with its
    content; a name occurs once.  [secure_filename] is werkzeug's and
    [read_csv] is pandas'; the routes are given them as parameters.  What
    [secure_filename] returns is taken to be a plain file name or the
    empty string, which is what it is for, so that joining it to the
    folder names a file of the folder, or the folder itself. *)

Definition ALLOWED_EXTENSIONS : list string := ["csv"].

Definition DEFAULT_NIFTY_FILE : string := "NIFTY__1D__.csv".

(** [s.rsplit('.', 1)] when [s] has a dot: what stands before the last
    dot, and what follows it. *)
Fixpoint split_last_dot (s : string) : option (string * string) :=
  match s with
  | EmptyString => None
  | String c s' =>
      match split_last_dot s' with
      | Some (stem, ext) => Some (String c stem, ext)
      | None => if Ascii.eqb c "." then Some (EmptyString, s') else None
      end
  end.

Definition rsplit_dot (s : string) : list string :=
  match split_last_dot s with
  | Some (stem, ext) => [stem; ext]
  | None => [s]
  end.

(** Lines 22 to 25.  The index [[1]] is only evaluated when there is a
    dot. *)
Definition allowed_file (filename : string) : bool :=
  contains_char "." filename
  && match nth_error (rsplit_dot filename) 1 with
     | Some ext => existsb (String.eqb (lower ext)) ALLOWED_EXTENSIONS
     | None => false
     end.

Definition folder : Type := list (string * string).

Fixpoint lookup (name : string) (fs : folder) : option string :=
  match fs with
  | [] => None
  | (n, content) :: fs' =>
      if String.eqb n name then Some content else lookup name fs'
  end.

(** [file.save(path)]: the file is created, or written over. *)
Fixpoint save (name content : string) (fs : folder) : folder :=
  match fs with
  | [] => [(name, content)]
  | (n, c) :: fs' =>
      if String.eqb n name then (n, content) :: fs'
      else (n, c) :: save name content fs'
  end.

(** [os.listdir(UPLOAD_FOLDER)] *)
Definition listdir (fs : folder) : list string := map fst fs.

(** What [os.path.join(UPLOAD_FOLDER, name)] points at: the folder itself
    for the empty name, a file, or nothing. *)
Inductive entry : Type :=
| Folder
| File (content : string).

Definition stat (fs : folder) (name : string) : option entry :=
  if String.eqb name "" then Some Folder
  else option_map File (lookup name fs).

(** The part named [file] of a multipart request. *)
Record upload : Type := mkUpload {
  upload_filename : string;
  upload_content : string
}.

(** [jsonify({key: text}), status]; [Crash] is an exception that leaves
    the view. *)
Inductive reply : Type :=
| Reply (status : Z) (key text : string)
| Crash.

(** The answer of the route [/data/]: the 404 of line 102, or what the
    [try] block answers. *)
Inductive http_response : Type :=
| NotFound (error : string)
| Handled (r : response).

Section Routes.

Variable secure_filename : string -> string.
Variable read_csv : entry -> result DataFrame.
Variable to_datetime : list cell -> result (list timestamp).
Variable argsort : list float64 -> list nat.

(** Lines 66 to 80.  A [FileStorage] is true when its filename is not
    empty.  With an empty secured name the path is the folder itself and
    [file.save] raises. *)
Definition upload_file (fs : folder) (files : option upload)
  : reply * folder :=
  match files with
  | None => (Reply 400 "error" "No file part", fs)
  | Some file =>
      if String.eqb (upload_filename file) ""
      then (Reply 400 "error" "No selected file", fs)
      else if negb (String.eqb (upload_filename file) "")
              && allowed_file (upload_filename file)
      then
        let filename := secure_filename (upload_filename file) in
        if String.eqb filename "" then (Crash, fs)
        else (Reply 200 "message"
                    ("File " ++ filename ++ " uploaded successfully!"),
              save filename (upload_content file) fs)
      else (Reply 400 "error" "Allowed file types are CSV", fs)
  end.

(** Lines 82 to 86. *)
Definition list_files (fs : folder) : list string :=
  filter allowed_file (listdir fs).

(** Lines 90 to 152. *)
Definition get_data_route (fs : folder) (filename : option string)
  : http_response :=
  let filename :=
    match filename with
    | None => DEFAULT_NIFTY_FILE
    | Some f => f
    end in
  match stat fs (secure_filename filename) with
  | None =>
      NotFound ("File '" ++ filename
                ++ "' not found. Please upload it first.")
  | Some e =>
      Handled
        match read_csv e with
        | Ok df => get_data to_datetime argsort df
        | Raise msg => Response500 ("Error processing CSV: " ++ msg)
        end
  end.

End Routes.

(** *** [secure_filename] on ASCII names

    A model of werkzeug's function for names in ASCII on a system whose
    separator is the slash: separators become spaces, runs of white
    space become one underscore, every character other than letters,
    digits, underscore, dot and hyphen is dropped, and dots and
    underscores are stripped from both ends. *)

Definition is_filename_char (c : ascii) : bool :=
  let n := code c in
  ((48 <=? n) && (n <=? 57)) || ((65 <=? n) && (n <=? 90))
  || ((97 <=? n) && (n <=? 122))
  || (n =? 95) || (n =? 46) || (n =? 45).

(** [filename.split()] *)
Fixpoint words (s : list ascii) (cur : list ascii) : list (list ascii) :=
  match s with
  | [] => match cur with [] => [] | _ => [rev cur] end
  | c :: s' =>
      if is_space c then
        match cur with
        | [] => words s' []
        | _ => rev cur :: words s' []
        end
      else words s' (c :: cur)
  end.

Fixpoint join_chars (sep : ascii) (l : list (list ascii)) : list ascii :=
  match l with
  | [] => []
  | [w] => w
  | w :: l' => w ++ sep :: join_chars sep l'
  end.

Definition is_dot_or_underscore (c : ascii) : bool :=
  (code c =? 46) || (code c =? 95).

Fixpoint lstrip_chars (drop : ascii -> bool) (s : list ascii)
  : list ascii :=
  match s with
  | c :: s' => if drop c then lstrip_chars drop s' else s
  | [] => []
  end.

Definition secure_filename_ascii (filename : string) : string :=
  let ascii_only :=
    filter (fun c => code c <? 128) (list_ascii_of_string filename) in
  let spaced :=
    map (fun c => if Ascii.eqb c "/" then " "%char else c) ascii_only in
  let kept := filter is_filename_char (join_chars "_" (words spaced [])) in
  string_of_list_ascii
    (rev (lstrip_chars is_dot_or_underscore
            (rev (lstrip_chars is_dot_or_underscore kept)))).

(** Rows with one more cell each at the right end. *)
Definition widen (rs : list (list cell)) (cells : list cell)
  : list (list cell) :=
  map (fun rc => fst rc ++ [snd rc]) (combine rs cells).

(** The table with one more column at the right end. *)
Definition add_column (df : DataFrame) (label : string) (cells : list cell)
  : DataFrame :=
  mkDataFrame (columns df ++ [label]) (widen (rows df) cells).

(** The table with every label [date], in whatever case, written
    [datetime]. *)
Definition date_as_datetime (df : DataFrame) : DataFrame :=
  mkDataFrame
    (map (fun c => if String.eqb (lower c) "date" then "datetime" else c)
         (columns df))
    (rows df).

Definition sample_folder : folder :=
  [("notes.txt", "hello"); ("old.csv", "datetime,open,high,low,close")].

Definition sample_upload : upload :=
  mkUpload "My Data.CSV" "datetime,open,high,low,close".

Definition table_two_rows_shouted : DataFrame :=
  mkDataFrame ["DATE"; "OPEN"; "High"; "LOW"; "close"; "volume"]
              (rows table_two_rows).

Definition table_blank_date : DataFrame :=
  mkDataFrame ["datetime"; "open"; "high"; "low"; "close"]
    [ [Blank; num 100; num 110; num 95; num 105];
      [Text "2005-04-25 09:16:00"; num 101; num 111; num 96; num 106] ].

Definition table_two_opens : DataFrame :=
  mkDataFrame ["datetime"; "Open"; "open"; "high"; "low"; "close"]
    [ [Text "2005-04-25 09:15:00"; num 100; num 100; num 110; num 95;
       num 105] ].

(** A reader for the samples: every file holds [table_two_rows]. *)
Definition read_sample (e : entry) : result DataFrame :=
  match e with
  | File _ => Ok table_two_rows
  | Folder => Raise "[Errno 21] Is a directory: 'uploads/'"
  end.

(** * Properties *)

(** ** The models on sample values *)

Example b64_tenth :
  b64 (1 # 10) = FFin (3602879701896397 # 36028797018963968).
Proof. vm_compute. reflexivity. Qed.

Example b64_1001 :
  f64_mul (b64 (1001 # 1000)) (f64_of_Z 1000)
  = FFin (8804889115230207 # 8796093022208).
Proof. vm_compute. reflexivity. Qed.

Example float_of_str_abc :
  float_of_str "abc" = Raise "could not convert string to float: 'abc'".
Proof. reflexivity. Qed.

Example float_of_str_num :
  float_of_str " 1_0.50e1 " = Ok (FFin (105 # 1))
  /\ float_of_str "-Infinity" = Ok (FInf true)
  /\ float_of_str "1e" = Raise "could not convert string to float: '1e'"
  /\ float_of_str "." = Raise "could not convert string to float: '.'"
  /\ float_of_str "0.1" = Ok (FFin (3602879701896397 # 36028797018963968)).
Proof. vm_compute. repeat split. Qed.

Example float_of_str_white_space :
  float_of_str (String (char_of 28) "1.5")
  = Raise "could not convert string to float: '\x1c1.5'"
  /\ float_of_str (String (char_of 11) "1.5 ") = Ok (FFin (3 # 2))
  /\ float_of_str (utf8 160 ++ "1.5" ++ utf8 8195) = Ok (FFin (3 # 2))
  /\ float_of_str (utf8 160)
     = Raise "could not convert string to float: '\xa0'".
Proof. vm_compute. repeat split. Qed.

Example float_of_str_digits :
  float_of_str (utf8 1633 ++ utf8 1634 ++ utf8 1635) = Ok (FFin (123 # 1))
  /\ float_of_str ("1e" ++ utf8 1635) = Ok (FFin (1000 # 1))
  /\ float_of_str (utf8 65297 ++ utf8 65298 ++ "." ++ utf8 65301)
     = Ok (FFin (25 # 2))
  /\ float_of_str (utf8 8722 ++ "1")
     = Raise ("could not convert string to float: '" ++ utf8 8722 ++ "1'").
Proof. vm_compute. repeat split. Qed.

Example int_of_str_examples :
  int_of_str " +1_2 " = Ok 12
  /\ int_of_str (utf8 1633 ++ utf8 1634 ++ utf8 160) = Ok 12
  /\ int_of_str (String (char_of 28) "12")
     = Raise "invalid literal for int() with base 10: '\x1c12'"
  /\ int_of_str "12.0"
     = Raise "invalid literal for int() with base 10: '12.0'".
Proof. vm_compute. repeat split. Qed.

Example repr_str_examples :
  repr_str "it's" = String double_quote ("it's" ++ String double_quote "")
  /\ repr_str (String (char_of 127) "a\b") = "'\x7fa\\b'"
  /\ repr_str (utf8 233) = ("'" ++ utf8 233 ++ "'")%string
  /\ repr_str (utf8 173) = "'\xad'"
  /\ repr_str (utf8 8232) = "'\u2028'"
  /\ repr_str (utf8 128512) = ("'" ++ utf8 128512 ++ "'")%string
  /\ repr_str (utf8 917505) = "'\U000e0001'".
Proof. vm_compute. repeat split. Qed.

Example code_points_utf8 :
  map (fun cp => code_points (list_ascii_of_string (utf8 cp)))
      [65; 233; 1633; 8232; 65297; 128512; 1114111]
  = [[65]; [233]; [1633]; [8232]; [65297]; [128512]; [1114111]].
Proof. vm_compute. reflexivity. Qed.

Example argsort_quicksort_small :
  argsort_quicksort (map f64_of_Z [3; 1; 2; 1; 0]) = [4; 1; 3; 2; 0]%nat
  /\ argsort_stable (map f64_of_Z [3; 1; 2; 1; 0]) = [4; 1; 3; 2; 0]%nat.
Proof. vm_compute. split; reflexivity. Qed.

Example parse_iso_examples :
  parse_iso "2005-04-25 09:15:00" = Some 1114420500000000000
  /\ parse_iso "1970-01-01 00:00:01.001" = Some 1001000000
  /\ parse_iso "1969-12-31 23:59:59" = Some (-1000000000)
  /\ parse_iso "2024-02-30 00:00:00" = None
  /\ parse_iso "25/04/05 9:15" = None.
Proof. vm_compute. repeat split. Qed.

(** ** Column reconciliation and the required columns *)

Lemma has_column_In (cols : list string) (col : string) :
  has_column cols col = true <-> In col cols.
Proof.
  unfold has_column. rewrite existsb_exists. split.
  - intros (c & Hin & Heq). apply String.eqb_eq in Heq. now subst.
  - intros Hin. exists col. split; [exact Hin | apply String.eqb_refl].
Qed.

Lemma has_column_false (cols : list string) (col : string) :
  has_column cols col = false <-> ~ In col cols.
Proof.
  rewrite <- has_column_In. destruct (has_column cols col); split; intros H.
  - discriminate.
  - now contradiction H.
  - discriminate.
  - reflexivity.
Qed.

Lemma missing_cols_spec (cols : list string) (col : string) :
  In col (missing_cols cols) <-> In col required_cols /\ ~ In col cols.
Proof.
  unfold missing_cols. rewrite filter_In, negb_true_iff, has_column_false.
  reflexivity.
Qed.

Lemma required_present_iff (cols : list string) :
  forallb (has_column cols) required_cols = true
  <-> forall col, In col required_cols -> In col cols.
Proof.
  rewrite forallb_forall. split; intros H col Hin.
  - apply has_column_In, H, Hin.
  - apply has_column_In, H, Hin.
Qed.

Lemma locs_length (label : string) (cols : list string) (start : nat) :
  List.length (locs label cols start) = count_occ string_dec cols label.
Proof.
  revert start. induction cols as [|c cols IH]; intros start; simpl.
  - reflexivity.
  - destruct (String.eqb_spec label c) as [Heq | Hne];
      destruct (string_dec c label) as [Heq' | Hne']; simpl;
      try congruence; now rewrite IH.
Qed.

Lemma count_occ_map_two {A : Type} (f : A -> string) (l : list A)
  (a b : A) (label : string) :
  In a l -> In b l -> a <> b -> f a = label -> f b = label ->
  (2 <= count_occ string_dec (map f l) label)%nat.
Proof.
  intros Ha Hb Hab Hfa Hfb.
  assert (Hone : forall c l', In c l' -> f c = label ->
                   (1 <= count_occ string_dec (map f l') label)%nat).
  { intros c l' Hin Hfc. apply count_occ_In, in_map_iff. now exists c. }
  induction l as [|c l IH]; [contradiction Ha |].
  simpl. destruct Ha as [-> | Ha], Hb as [-> | Hb].
  - now contradiction Hab.
  - destruct (string_dec (f a) label); [| contradiction].
    specialize (Hone b l Hb Hfb). lia.
  - destruct (string_dec (f b) label); [| contradiction].
    specialize (Hone a l Ha Hfa). lia.
  - specialize (IH Ha Hb). destruct (string_dec (f c) label); lia.
Qed.

(** The mapping sends both spellings of the date column to [Datetime]
    whenever they are among the lower-cased labels. *)
Lemma rename_date (lowered : list string) :
  In "date" lowered ->
  rename_label
    (filter (fun kv => has_column lowered (fst kv)) column_mapping) "date"
  = "Datetime".
Proof.
  intros H. apply has_column_In in H. unfold column_mapping. simpl.
  rewrite H.
  destruct (has_column lowered "datetime"), (has_column lowered "open"),
    (has_column lowered "high"), (has_column lowered "low"),
    (has_column lowered "close"); reflexivity.
Qed.

Lemma rename_datetime (lowered : list string) :
  In "datetime" lowered ->
  rename_label
    (filter (fun kv => has_column lowered (fst kv)) column_mapping) "datetime"
  = "Datetime".
Proof.
  intros H. apply has_column_In in H. unfold column_mapping. simpl.
  rewrite H. reflexivity.
Qed.

Lemma getitem_repeated (df : DataFrame) (label : string) :
  (2 <= count_occ string_dec (columns df) label)%nat ->
  exists js, getitem df label = Frame js.
Proof.
  intros H. unfold getitem. rewrite <- (locs_length label _ 0%nat) in H.
  destruct (locs label (columns df) 0) as [|j [|j' js]]; simpl in H;
    try lia. now eexists.
Qed.

Lemma getitem_once (df : DataFrame) (label : string) :
  count_occ string_dec (columns df) label = 1%nat ->
  exists j, locs label (columns df) 0 = [j]
            /\ getitem df label = Series j (column_at j df).
Proof.
  intros H. unfold getitem. rewrite <- (locs_length label _ 0%nat) in H.
  destruct (locs label (columns df) 0) as [|j [|j' js]]; simpl in H;
    try lia. now exists j.
Qed.

(** ** Rounding to binary64 *)

Lemma round_half_even_bounds (n d : Z) :
  0 <= n -> 0 < d ->
  n / d <= round_half_even n d <= n / d + 1.
Proof.
  intros Hn Hd. unfold round_half_even.
  destruct (2 * (n mod d) ?= d); [destruct (Z.even (n / d)) | |]; lia.
Qed.

Lemma round_half_even_mul (n d : Z) :
  0 <= n -> 0 < d ->
  0 <= round_half_even n d /\ round_half_even n d * d <= n + d.
Proof.
  intros Hn Hd. pose proof (round_half_even_bounds n d Hn Hd) as [Hlo Hhi].
  pose proof (Z.div_pos n d Hn Hd).
  pose proof (Z.mul_div_le n d Hd). split; [lia | nia].
Qed.

Lemma Qlog2_le (n : Z) (d : positive) (B : Z) :
  0 < n -> 0 <= B -> n < 2 ^ B * Zpos d -> Qlog2 n d <= B.
Proof.
  intros Hn HB Hlt. unfold Qlog2.
  assert (Z.log2 n - Z.log2 (Zpos d) <= B).
  { assert (Z.log2 n <= Z.log2 (Zpos d * 2 ^ B))
      by (apply Z.log2_le_mono; lia).
    rewrite Z.log2_mul_pow2 in H by lia. lia. }
  repeat match goal with |- context [if ?b then _ else _] => destruct b end;
    lia.
Qed.

Lemma b64_bounded (q : Q) (B : Z) :
  0 <= B <= 1000 -> bounded B q ->
  exists q', b64 q = FFin q' /\ bounded (B + 1) q'.
Proof.
  intros HB Hq. unfold bounded in Hq. unfold b64.
  destruct (Z.eqb_spec (Z.abs (Qnum q)) 0) as [Hz | Hnz].
  - exists 0%Q. split; [reflexivity |]. unfold bounded. simpl.
    assert (0 < 2 ^ (B + 1)) by (apply Z.pow_pos_nonneg; lia). lia.
  - set (n := Z.abs (Qnum q)) in *. set (d := Qden q) in *.
    assert (Hn : 0 < n) by lia.
    pose proof (Qlog2_le n d B Hn (proj1 HB) Hq) as Hk.
    set (e := Z.max (Qlog2 n d - 52) (-1074)) in *.
    assert (HB1 : 2 ^ (B + 1) = 2 * 2 ^ B) by (rewrite Z.pow_add_r by lia; lia).
    assert (HBpos : 0 < 2 ^ B) by (apply Z.pow_pos_nonneg; lia).
    destruct (Z.leb_spec 0 e) as [He | He].
    + (* an integer multiple of 2^e *)
      set (m := round_half_even n (Zpos d * 2 ^ e)).
      assert (Hepos : 0 < 2 ^ e) by (apply Z.pow_pos_nonneg; lia).
      destruct (round_half_even_mul n (Zpos d * 2 ^ e)) as [Hm0 Hm];
        [lia | nia |]. fold m in Hm0, Hm.
      assert (Hele : 2 ^ e <= 2 ^ B) by (apply Z.pow_le_mono_r; lia).
      assert (Hval : m * 2 ^ e < 2 ^ (B + 1)).
      { apply (Z.mul_lt_mono_pos_r (Zpos d)); [lia |]. nia. }
      assert (Hbig : 2 ^ (B + 1) <= 2 ^ 1024)
        by (apply Z.pow_le_mono_r; lia).
      destruct (Z.leb_spec (2 ^ 1024) (m * 2 ^ e)) as [Hov | _]; [lia |].
      simpl. eexists. split; [reflexivity |].
      unfold bounded, dyadic.
      destruct (Z.leb_spec 0 e); [| lia]. simpl.
      destruct (Qnum q <? 0); lia.
    + simpl.
      set (P := 2 ^ (- e)).
      assert (HP : 0 < P) by (apply Z.pow_pos_nonneg; lia).
      set (m := round_half_even (n * P) (Zpos d)).
      destruct (round_half_even_mul (n * P) (Zpos d)) as [Hm0 Hm];
        [nia | lia |]. fold m in Hm0, Hm.
      eexists. split; [reflexivity |].
      unfold bounded, dyadic. destruct (Z.leb_spec 0 e); [lia |].
      fold P.
      set (x := Qmake (if Qnum q <? 0 then - m else m) (Z.to_pos P)).
      pose proof (Qred_correct x) as Hred. unfold Qeq in Hred.
      assert (Hx : Z.abs (Qnum x) = m)
        by (unfold x; simpl; destruct (Qnum q <? 0); lia).
      assert (HxP : Zpos (Qden x) = P) by (unfold x; simpl; lia).
      rewrite HxP in Hred.
      assert (Habs : Z.abs (Qnum (Qred x)) * P = m * Zpos (Qden (Qred x))).
      { pose proof (f_equal Z.abs Hred) as Ha. rewrite !Z.abs_mul in Ha.
        rewrite Hx, (Z.abs_eq P) in Ha by lia. exact Ha. }
      assert (Hmlt : m < 2 ^ (B + 1) * P).
      { apply (Z.mul_lt_mono_pos_r (Zpos d)); [lia |]. nia. }
      apply (Z.mul_lt_mono_pos_r P); [lia |]. rewrite Habs. nia.
Qed.

Lemma f64_of_Z_1e9 : f64_of_Z (10 ^ 9) = FFin (1000000000 # 1).
Proof. vm_compute. reflexivity. Qed.

Lemma f64_of_Z_1000 : f64_of_Z 1000 = FFin (1000 # 1).
Proof. vm_compute. reflexivity. Qed.

Lemma py_round6_bounded (q : Q) (B : Z) :
  0 <= B <= 990 -> bounded B q ->
  exists q', py_round6 (FFin q) = FFin q' /\ bounded (B + 2) q'.
Proof.
  intros HB Hq. unfold py_round6.
  set (r := round_half_even (Z.abs (Qnum q) * 10 ^ 6) (Zpos (Qden q))).
  destruct (b64_bounded
              (Qmake (if Qnum q <? 0 then - r else r) (Z.to_pos (10 ^ 6)))
              (B + 1)) as (q' & Hq' & Hb); [lia | | ].
  - unfold bounded in *. cbn [Qnum Qden].
    destruct (round_half_even_mul (Z.abs (Qnum q) * 10 ^ 6) (Zpos (Qden q)))
      as [Hr0 Hr]; [lia | lia |]. fold r in Hr0, Hr.
    assert (H6 : Zpos (Z.to_pos (10 ^ 6)) = 10 ^ 6) by reflexivity.
    rewrite H6.
    assert (HB1 : 2 ^ (B + 1) = 2 * 2 ^ B) by (rewrite Z.pow_add_r by lia; lia).
    assert (HBpos : 0 < 2 ^ B) by (apply Z.pow_pos_nonneg; lia).
    assert (Z.abs (if Qnum q <? 0 then - r else r) = r)
      by (destruct (Qnum q <? 0); lia).
    rewrite H. apply (Z.mul_lt_mono_pos_r (Zpos (Qden q))); [lia |].
    change (10 ^ 6) with 1000000 in *. nia.
  - exists q'. split; [exact Hq' |].
    replace (B + 2) with (B + 1 + 1) by lia. exact Hb.
Qed.

Lemma to_millis_finite (v : Z) :
  - 2 ^ 63 <= v < 2 ^ 63 ->
  exists q, to_millis (Stamp v) = Ok (FFin q).
Proof.
  intros Hv. unfold to_millis, timestamp_seconds, bind.
  rewrite f64_of_Z_1e9, f64_of_Z_1000. unfold f64_of_Z.
  destruct (b64_bounded (inject_Z v) 64) as (x1 & -> & H1); [lia | |].
  { unfold bounded. simpl. lia. }
  unfold f64_div. cbn [Qnum Z.eqb].
  destruct (b64_bounded (x1 / (1000000000 # 1)) 65) as (x2 & -> & H2);
    [lia | |].
  { unfold bounded in *. simpl. simpl in H1. lia. }
  destruct (py_round6_bounded x2 66) as (x3 & -> & H3); [lia | exact H2 |].
  unfold f64_mul.
  destruct (b64_bounded (x3 * (1000 # 1)) 78) as (x4 & -> & H4); [lia | |].
  { unfold bounded in *. simpl. simpl in H3.
    change (2 ^ 78) with (2 ^ 68 * 1024). lia. }
  now exists x4.
Qed.

Lemma round_half_even_exact (m d : Z) :
  0 < d -> round_half_even (m * d) d = m.
Proof.
  intros Hd. unfold round_half_even.
  rewrite Z.div_mul by lia. rewrite Z.mod_mul by lia.
  destruct d; try lia. reflexivity.
Qed.

Lemma Qlog2_integer (w : Z) (d : positive) :
  0 < w -> Qlog2 (w * Zpos d) d = Z.log2 w.
Proof.
  intros Hw. unfold Qlog2.
  pose proof (Z.log2_spec w Hw) as [Hw1 Hw2].
  pose proof (Z.log2_spec (Zpos d) eq_refl) as [Hd1 Hd2].
  pose proof (Z.log2_nonneg w) as HL. pose proof (Z.log2_nonneg (Zpos d)) as HD.
  set (L := Z.log2 w) in *. set (D := Z.log2 (Zpos d)) in *.
  assert (Hlo : L + D <= Z.log2 (w * Zpos d)).
  { apply Z.log2_le_pow2; [nia |]. rewrite Z.pow_add_r by lia. nia. }
  assert (Hhi : Z.log2 (w * Zpos d) < L + D + 2).
  { apply Z.log2_lt_pow2; [nia |].
    replace (L + D + 2) with (Z.succ L + Z.succ D) by lia.
    rewrite Z.pow_add_r by lia. nia. }
  set (k0 := Z.log2 (w * Zpos d) - D).
  assert (Hk0 : k0 = L \/ k0 = L + 1) by lia.
  destruct (Z.leb_spec 0 k0); [| lia].
  destruct Hk0 as [-> | ->].
  - destruct (Z.ltb_spec (w * Zpos d) (2 ^ L * Zpos d)); [nia | reflexivity].
  - replace (L + 1) with (Z.succ L) by lia.
    destruct (Z.ltb_spec (w * Zpos d) (2 ^ Z.succ L * Zpos d)); [lia | nia].
Qed.

Lemma b64_exact (q : Q) (z j : Z) :
  (q == inject_Z (z * 2 ^ j))%Q -> Z.abs z < 2 ^ 53 -> 0 <= j <= 900 ->
  b64 q = FFin (inject_Z (z * 2 ^ j)).
Proof.
  intros Hq Hz Hj. unfold Qeq in Hq. simpl in Hq. rewrite Z.mul_1_r in Hq.
  assert (Hjpos : 0 < 2 ^ j) by (apply Z.pow_pos_nonneg; lia).
  set (w := z * 2 ^ j) in *. unfold b64.
  set (d := Qden q) in *.
  assert (Hn : Z.abs (Qnum q) = Z.abs w * Zpos d)
    by (rewrite Hq, Z.abs_mul; lia).
  rewrite Hn.
  destruct (Z.eqb_spec (Z.abs w * Zpos d) 0) as [Hz0 | Hnz].
  - assert (w = 0) by nia. now rewrite H.
  - assert (HW : 0 < Z.abs w) by nia.
    rewrite (Qlog2_integer _ d HW).
    assert (HzW : Z.abs w = Z.abs z * 2 ^ j)
      by (unfold w; rewrite Z.abs_mul; lia).
    assert (Hz0 : 0 < Z.abs z) by nia.
    assert (HL : Z.log2 (Z.abs w) = j + Z.log2 (Z.abs z))
      by (rewrite HzW; apply Z.log2_mul_pow2; lia).
    assert (Hlz : Z.log2 (Z.abs z) < 53) by (apply Z.log2_lt_pow2; lia).
    pose proof (Z.log2_nonneg (Z.abs z)) as Hlz0.
    assert (Hneg : (Qnum q <? 0) = (w <? 0)).
    { destruct (Z.ltb_spec (Qnum q) 0), (Z.ltb_spec w 0); try reflexivity;
        nia. }
    rewrite Hneg.
    assert (Hsign : (if w <? 0 then - Z.abs w else Z.abs w) = w)
      by (destruct (Z.ltb_spec w 0); lia).
    set (e := Z.max (Z.log2 (Z.abs w) - 52) (-1074)).
    assert (He : e = j + Z.log2 (Z.abs z) - 52) by lia.
    destruct (Z.leb_spec 0 e) as [He0 | He0].
    + assert (Hsplit : 2 ^ j = 2 ^ (j - e) * 2 ^ e)
        by (rewrite <- Z.pow_add_r by lia; f_equal; lia).
      assert (Hepos : 0 < 2 ^ e) by (apply Z.pow_pos_nonneg; lia).
      replace (Z.abs w * Zpos d)
        with (Z.abs z * 2 ^ (j - e) * (Zpos d * 2 ^ e)) by (rewrite HzW; nia).
      rewrite round_half_even_exact by nia.
      assert (Hm : Z.abs z * 2 ^ (j - e) * 2 ^ e = Z.abs w)
        by (rewrite HzW; nia).
      rewrite Hm.
      assert (Hsmall : Z.abs w < 2 ^ 1024).
      { rewrite HzW. apply Z.lt_le_trans with (2 ^ 53 * 2 ^ j); [nia |].
        rewrite <- Z.pow_add_r by lia. apply Z.pow_le_mono_r; lia. }
      destruct (Z.leb_spec (2 ^ 1024) (Z.abs w)); [lia |]. simpl.
      f_equal. unfold dyadic. destruct (Z.leb_spec 0 e); [| lia].
      f_equal.
      destruct (w <? 0); [rewrite Z.mul_opp_l |]; rewrite Hm; exact Hsign.
    + simpl.
      set (P := 2 ^ (- e)).
      assert (HP : 0 < P) by (apply Z.pow_pos_nonneg; lia).
      replace (Z.abs w * Zpos d * P) with (Z.abs w * P * Zpos d) by ring.
      rewrite round_half_even_exact by lia.
      f_equal. unfold dyadic. destruct (Z.leb_spec 0 e); [lia |]. fold P.
      rewrite <- (Qred_identity (inject_Z w))
        by (simpl; apply Z.gcd_1_r).
      apply Qred_complete. unfold Qeq. simpl.
      rewrite Z2Pos.id by lia.
      destruct (Z.ltb_spec w 0); lia.
Qed.

(** A whole number [s] of seconds goes through line 133 without any
    rounding as long as the nanosecond count [s * 10^9 = (s * 5^9) * 2^9]
    is a binary64 value, that is, for [|s| <= 4611686018]. *)
Lemma to_millis_whole_seconds (s : Z) :
  Z.abs s * 5 ^ 9 < 2 ^ 53 ->
  to_millis (Stamp (s * 10 ^ 9)) = Ok (FFin (inject_Z (s * 1000))).
Proof.
  intros Hs. change (5 ^ 9) with 1953125 in Hs.
  change (2 ^ 53) with 9007199254740992 in Hs.
  unfold to_millis, timestamp_seconds, bind.
  rewrite f64_of_Z_1e9, f64_of_Z_1000. unfold f64_of_Z.
  rewrite (b64_exact (inject_Z (s * 10 ^ 9)) (s * 1953125) 9);
    [| apply Qeq_alt; unfold Qcompare; simpl; apply Z.compare_eq_iff;
       change (10 ^ 9) with 1000000000; change (2 ^ 9) with 512; lia
     | change (2 ^ 53) with 9007199254740992; lia | lia].
  unfold f64_div. cbn [Qnum Z.eqb].
  rewrite (b64_exact _ s 0);
    [| unfold Qeq; simpl; change (2 ^ 9) with 512; lia
     | change (2 ^ 53) with 9007199254740992; lia | lia].
  unfold py_round6. cbn [Qnum Qden inject_Z].
  rewrite <- (Z.mul_1_r (Z.abs (s * 2 ^ 0) * 10 ^ 6)).
  rewrite (round_half_even_exact (Z.abs (s * 2 ^ 0) * 10 ^ 6) 1) by lia.
  rewrite (b64_exact _ s 0);
    [| unfold Qeq; cbn [Qnum Qden inject_Z];
       change (Zpos (Z.to_pos (10 ^ 6))) with 1000000;
       change (10 ^ 6) with 1000000; change (2 ^ 0) with 1;
       destruct (Z.ltb_spec (s * 1) 0); lia
     | change (2 ^ 53) with 9007199254740992; lia | lia].
  unfold f64_mul.
  rewrite (b64_exact _ (s * 1000) 0);
    [| unfold Qeq; simpl; lia
     | change (2 ^ 53) with 9007199254740992; lia | lia].
  do 3 f_equal. change (2 ^ 0) with 1. lia.
Qed.

(** ** The order on keys *)

Lemma f64_lt_fin (p q : Q) : f64_lt (FFin p) (FFin q) = true <-> (p < q)%Q.
Proof. simpl. rewrite Z.ltb_lt. reflexivity. Qed.

Lemma f64_le_fin (p q : Q) : f64_le (FFin p) (FFin q) = true <-> (p <= q)%Q.
Proof.
  unfold f64_le. rewrite negb_true_iff, <- not_true_iff_false, f64_lt_fin.
  split; [apply Qnot_lt_le | apply Qle_not_lt].
Qed.

Lemma f64_le_total (a b : float64) :
  f64_le a b = false -> f64_le b a = true.
Proof.
  unfold f64_le. rewrite negb_false_iff, negb_true_iff.
  destruct a as [|[|]|p], b as [|[|]|q]; simpl; try congruence.
  rewrite Z.ltb_lt, Z.ltb_ge. lia.
Qed.

Lemma f64_le_trans (a b c : float64) :
  f64_le a b = true -> f64_le b c = true -> f64_le a c = true.
Proof.
  destruct a as [|[|]|p], b as [|[|]|q], c as [|[|]|r];
    try (unfold f64_le; simpl; congruence).
  rewrite !f64_le_fin. apply Qle_trans.
Qed.

Lemma Qtrunc_mono (p q : Q) : (p <= q)%Q -> Qtrunc p <= Qtrunc q.
Proof.
  unfold Qle, Qtrunc. intros H.
  rewrite <- (Z.quot_mul_cancel_r (Qnum p) (Zpos (Qden p)) (Zpos (Qden q)))
    by lia.
  rewrite <- (Z.quot_mul_cancel_r (Qnum q) (Zpos (Qden q)) (Zpos (Qden p)))
    by lia.
  rewrite (Z.mul_comm (Zpos (Qden q)) (Zpos (Qden p))).
  apply Z.quot_le_mono; lia.
Qed.

(** ** The stable argsort sorts *)

Lemma insert_index_perm (v : list float64) (i : nat) (l : list nat) :
  Permutation (insert_index v i l) (i :: l).
Proof.
  induction l as [|j l IH]; simpl.
  - apply Permutation_refl.
  - destruct (f64_le (key_of v i) (key_of v j)).
    + apply Permutation_refl.
    + eapply perm_trans; [apply perm_skip, IH | apply perm_swap].
Qed.

Lemma insert_index_sorted (v : list float64) (i : nat) (l : list nat) :
  Sorted (key_le v) l -> Sorted (key_le v) (insert_index v i l).
Proof.
  induction l as [|j l IH]; intros Hs; simpl.
  - repeat constructor.
  - destruct (f64_le (key_of v i) (key_of v j)) eqn:Hij.
    + constructor; [exact Hs | constructor; exact Hij].
    + inversion Hs as [|? ? Hs' Hhd]; subst.
      constructor; [apply IH, Hs' |].
      destruct l as [|k l]; simpl.
      * constructor. apply f64_le_total, Hij.
      * destruct (f64_le (key_of v i) (key_of v k)).
        -- constructor. apply f64_le_total, Hij.
        -- inversion Hhd; subst. now constructor.
Qed.

Lemma argsort_stable_perm (keys : list float64) :
  Permutation (argsort_stable keys) (seq 0 (List.length keys)).
Proof.
  unfold argsort_stable. induction (seq 0 (List.length keys)) as [|i l IH].
  - apply Permutation_refl.
  - simpl. eapply perm_trans; [apply insert_index_perm |].
    apply perm_skip, IH.
Qed.

Lemma argsort_stable_sorted (keys : list float64) :
  StronglySorted (key_le keys) (argsort_stable keys).
Proof.
  apply Sorted_StronglySorted.
  - intros a b c. apply f64_le_trans.
  - unfold argsort_stable.
    induction (seq 0 (List.length keys)) as [|i l IH]; simpl.
    + constructor.
    + apply insert_index_sorted, IH.
Qed.

(** ** The ISO instance of [to_datetime] *)

Lemma to_datetime_from_length (values : list cell) :
  forall position ts,
    to_datetime_from position values = Ok ts ->
    List.length ts = List.length values.
Proof.
  induction values as [|c values IH]; intros position ts; simpl.
  - intros [= <-]. reflexivity.
  - destruct (datetime_of_cell position c) as [t|]; simpl; [| discriminate].
    destruct (to_datetime_from (S position) values) as [ts'|] eqn:E;
      simpl; [| discriminate].
    intros [= <-]. simpl. f_equal. eapply IH, E.
Qed.

Lemma to_datetime_iso_length (values : list cell) (ts : list timestamp) :
  to_datetime_iso values = Ok ts -> List.length ts = List.length values.
Proof. apply to_datetime_from_length. Qed.

(** ** Loops that may raise *)

Lemma mapM_Forall2 {A B : Type} (f : A -> result B) (l : list A)
  (bs : list B) :
  mapM f l = Ok bs <-> Forall2 (fun a b => f a = Ok b) l bs.
Proof.
  revert bs. induction l as [|a l IH]; intros bs; simpl.
  - split.
    + intros [= <-]. constructor.
    + intros H. inversion H. reflexivity.
  - split.
    + destruct (f a) as [b|] eqn:Ea; simpl; [| discriminate].
      destruct (mapM f l) as [bs'|]; simpl; [| discriminate].
      intros [= <-]. constructor; [exact Ea | now apply IH].
    + intros H. inversion H as [|? b ? bs' Ea Hrest]; subst.
      rewrite Ea. simpl. apply IH in Hrest. rewrite Hrest. reflexivity.
Qed.

Lemma mapM_length {A B : Type} (f : A -> result B) (l : list A)
  (bs : list B) :
  mapM f l = Ok bs -> List.length bs = List.length l.
Proof.
  intros H. apply mapM_Forall2 in H. symmetry.
  eapply Forall2_length, H.
Qed.

Lemma mapM_perm {A B : Type} (f : A -> result B) (l l' : list A) :
  Permutation l l' ->
  forall bs, mapM f l = Ok bs ->
  exists bs', mapM f l' = Ok bs' /\ Permutation bs bs'.
Proof.
  induction 1 as [|a l l' _ IH|a a' l|l l' l'' _ IH1 _ IH2]; intros bs; simpl.
  - intros [= <-]. exists []. split; [reflexivity | constructor].
  - destruct (f a) as [b|]; simpl; [| discriminate].
    destruct (mapM f l) as [bs0|]; simpl; [| discriminate].
    intros [= <-]. destruct (IH bs0 eq_refl) as (bs' & -> & Hp).
    exists (b :: bs'). split; [reflexivity | now constructor].
  - destruct (f a') as [b'|]; simpl; [| discriminate].
    destruct (f a) as [b|]; simpl; [| discriminate].
    destruct (mapM f l) as [bs0|]; simpl; [| discriminate].
    intros [= <-]. exists (b :: b' :: bs0).
    split; [reflexivity | apply perm_swap].
  - intros H. destruct (IH1 bs H) as (bs1 & H1 & Hp1).
    destruct (IH2 bs1 H1) as (bs2 & H2 & Hp2).
    exists bs2. split; [exact H2 | eapply perm_trans; eassumption].
Qed.

Lemma StronglySorted_Forall2 {A B : Type} (R : A -> A -> Prop)
  (S : B -> B -> Prop) (P : A -> B -> Prop) (l : list A) (l' : list B) :
  Forall2 P l l' ->
  (forall a a' b b', P a b -> P a' b' -> R a a' -> S b b') ->
  StronglySorted R l -> StronglySorted S l'.
Proof.
  intros HP Himp. induction HP as [|a b l l' Hab HP IH]; intros Hs.
  - constructor.
  - inversion Hs as [|? ? Hs' Hall]; subst. constructor; [now apply IH |].
    clear IH Hs Hs'. induction HP as [|a' b' l l' Hab' HP IH].
    + constructor.
    + inversion Hall; subst. constructor; [| now apply IH].
      eapply Himp; eassumption.
Qed.

Lemma StronglySorted_consecutive {B : Type} (S : B -> B -> Prop)
  (l : list B) (d : B) :
  StronglySorted S l ->
  forall i, (Datatypes.S i < List.length l)%nat ->
            S (nth i l d) (nth (Datatypes.S i) l d).
Proof.
  induction 1 as [|b l Hs IH Hall]; intros i Hi; simpl in Hi.
  - lia.
  - destruct i as [|i].
    + destruct l as [|b' l]; simpl in *; [lia |].
      now inversion Hall.
    + apply (IH i). lia.
Qed.

(** ** Cells of a frame *)

Lemma nth_replace_nth_same {A : Type} (j : nat) (a d : A) (l : list A) :
  nth j (replace_nth j a l) d = if (j <? List.length l)%nat then a else d.
Proof.
  revert j. induction l as [|b l IH]; intros j; simpl.
  - now destruct j.
  - destruct j as [|j]; simpl; [reflexivity | apply IH].
Qed.

Lemma nth_replace_nth_other {A : Type} (j k : nat) (a d : A) (l : list A) :
  j <> k -> nth k (replace_nth j a l) d = nth k l d.
Proof.
  revert j k. induction l as [|b l IH]; intros j k Hjk; simpl.
  - now destruct j.
  - destruct j as [|j], k as [|k]; simpl; try reflexivity; try lia.
    apply IH. lia.
Qed.

Lemma map_nth_seq {A : Type} (l : list A) (d : A) :
  map (fun i => nth i l d) (seq 0 (List.length l)) = l.
Proof.
  induction l as [|a l IH]; simpl; [reflexivity |].
  f_equal. rewrite <- seq_shift, map_map. exact IH.
Qed.

Lemma set_column_length (j : nat) (values : list cell)
  (rs : list (list cell)) :
  List.length (set_column j values rs) = List.length rs.
Proof.
  revert values. induction rs as [|r rs IH]; intros [|v values]; simpl;
    try reflexivity. now rewrite IH.
Qed.

Lemma set_column_num_cells (j : nat) (millis : list float64)
  (rs : list (list cell)) :
  List.length millis = List.length rs ->
  Forall (fun r' => (exists f, nth j r' Blank = Num f)
                    \/ nth j r' Blank = Blank)
         (set_column j (map Num millis) rs).
Proof.
  revert millis. induction rs as [|r rs IH]; intros [|m millis]; simpl;
    intros Hlen; try discriminate.
  - constructor.
  - constructor; [| apply IH; lia].
    rewrite nth_replace_nth_same.
    destruct (j <? List.length r)%nat; [left; now exists m | now right].
Qed.

Lemma mapM_map {A B C : Type} (f : B -> result C) (g : A -> B)
  (l : list A) :
  mapM f (map g l) = mapM (fun a => f (g a)) l.
Proof.
  induction l as [|a l IH]; simpl; [reflexivity | now rewrite IH].
Qed.

(** ** One record *)

Lemma chart_record_inv (cols : list string) (row : list cell)
  (rec : ChartRecord) :
  chart_record cols row = Ok rec ->
  exists o h l c,
    row_item "int" py_int cols row "Datetime" = Ok (x rec)
    /\ row_item "float" py_float cols row "Open" = Ok o
    /\ row_item "float" py_float cols row "High" = Ok h
    /\ row_item "float" py_float cols row "Low" = Ok l
    /\ row_item "float" py_float cols row "Close" = Ok c
    /\ y rec = [o; h; l; c].
Proof.
  unfold chart_record.
  destruct (row_item "int" py_int cols row "Datetime") as [xv|];
    simpl; [| discriminate].
  destruct (row_item "float" py_float cols row "Open") as [o|];
    simpl; [| discriminate].
  destruct (row_item "float" py_float cols row "High") as [h|];
    simpl; [| discriminate].
  destruct (row_item "float" py_float cols row "Low") as [l|];
    simpl; [| discriminate].
  destruct (row_item "float" py_float cols row "Close") as [c|];
    simpl; [| discriminate].
  intros [= <-]. exists o, h, l, c. simpl. repeat split; reflexivity.
Qed.

Lemma row_item_at {A : Type} (conv : string) (f : cell -> result A)
  (cols : list string) (row : list cell) (label : string) (j : nat) :
  locs label cols 0 = [j] ->
  row_item conv f cols row label = f (nth j row Blank).
Proof. unfold row_item. now intros ->. Qed.

(** [int] accepts the key of a row only when it is a finite number, and
    then truncates it. *)
Lemma py_int_key (c : cell) (xv : Z) :
  (exists f, c = Num f) \/ c = Blank ->
  py_int c = Ok xv ->
  exists q, as_float64 c = FFin q /\ xv = Qtrunc q.
Proof.
  intros [(f & ->) | ->]; simpl; [| discriminate].
  destruct f as [| |q]; simpl; try discriminate.
  intros [= <-]. now exists q.
Qed.

Lemma mapM_raise {A B : Type} (f : A -> result B) (l : list A)
  (msg : string) :
  mapM f l = Raise msg -> exists a, In a l /\ f a = Raise msg.
Proof.
  induction l as [|a l IH]; simpl; [discriminate |].
  destruct (f a) as [b|e] eqn:Ea; simpl.
  - destruct (mapM f l) as [bs|e]; simpl; [discriminate |].
    intros [= <-]. destruct (IH eq_refl) as (a' & Hin & Ha').
    exists a'. split; [now right | exact Ha'].
  - intros [= <-]. exists a. split; [now left | exact Ea].
Qed.

Lemma mapM_all_ok {A B : Type} (f : A -> result B) (l : list A) :
  (forall a, In a l -> exists b, f a = Ok b) ->
  exists bs, mapM f l = Ok bs.
Proof.
  induction l as [|a l IH]; intros H; simpl.
  - now exists [].
  - destruct (H a (or_introl eq_refl)) as (b & ->).
    destruct IH as (bs & ->); [intros a' Ha'; apply H; now right |].
    now exists (b :: bs).
Qed.

Lemma Forall2_In_left {A B : Type} (P : A -> B -> Prop) (l : list A)
  (l' : list B) (a : A) :
  Forall2 P l l' -> In a l -> exists b, In b l' /\ P a b.
Proof.
  induction 1 as [|a0 b0 l l' Hab _ IH]; intros Hin; [contradiction Hin |].
  destruct Hin as [<- | Hin].
  - exists b0. split; [now left | exact Hab].
  - destruct (IH Hin) as (b & Hb & HP). exists b. split; [now right | exact HP].
Qed.

Lemma Forall2_In_right {A B : Type} (P : A -> B -> Prop) (l : list A)
  (l' : list B) (b : B) :
  Forall2 P l l' -> In b l' -> exists a, In a l /\ P a b.
Proof.
  induction 1 as [|a0 b0 l l' Hab _ IH]; intros Hin; [contradiction Hin |].
  destruct Hin as [<- | Hin].
  - exists a0. split; [now left | exact Hab].
  - destruct (IH Hin) as (a & Ha & HP). exists a. split; [now right | exact HP].
Qed.

Lemma mapM_some_raise {A B : Type} (f : A -> result B) (l : list A)
  (a : A) (e : string) :
  In a l -> f a = Raise e -> exists msg, mapM f l = Raise msg.
Proof.
  intros Hin Ha. destruct (mapM f l) as [bs|msg] eqn:E; [| now exists msg].
  apply mapM_Forall2 in E.
  destruct (Forall2_In_left _ _ _ _ E Hin) as (b & _ & Hb). congruence.
Qed.

(** ** Labels and positions *)

Lemma locs_In (label : string) (cols : list string) (start k : nat) :
  In k (locs label cols start) ->
  (start <= k)%nat /\ nth_error cols (k - start) = Some label.
Proof.
  revert start. induction cols as [|c cols IH]; intros start; simpl.
  - contradiction.
  - destruct (String.eqb_spec label c) as [-> | Hne].
    + intros [<- | Hin].
      * split; [lia |]. now rewrite Nat.sub_diag.
      * destruct (IH _ Hin) as [Hle Hnth]. split; [lia |].
        replace (k - start)%nat with (S (k - S start)) by lia. exact Hnth.
    + intros Hin. destruct (IH _ Hin) as [Hle Hnth]. split; [lia |].
      replace (k - start)%nat with (S (k - S start)) by lia. exact Hnth.
Qed.

Lemma locs_apart (l1 l2 : string) (cols : list string) (j k : nat) :
  In j (locs l1 cols 0) -> In k (locs l2 cols 0) -> l1 <> l2 -> j <> k.
Proof.
  intros Hj Hk Hne ->. apply locs_In in Hj, Hk.
  destruct Hj as [_ Hj], Hk as [_ Hk]. congruence.
Qed.

Lemma required_once_locs (cols : list string) (label : string) :
  required_once cols -> In label required_cols ->
  exists k, locs label cols 0 = [k].
Proof.
  intros Honce Hin. specialize (Honce label Hin).
  rewrite <- (locs_length label cols 0) in Honce.
  destruct (locs label cols 0) as [|k [|k' ks]]; simpl in Honce; try lia.
  now exists k.
Qed.

Lemma required_once_present (cols : list string) :
  required_once cols ->
  forallb (has_column cols) required_cols = true.
Proof.
  intros Honce. apply required_present_iff. intros col Hin.
  apply (count_occ_In string_dec). rewrite (Honce col Hin). lia.
Qed.

Lemma price_cols_required (label : string) :
  In label price_cols -> In label required_cols /\ label <> "Datetime".
Proof.
  intros H. repeat (destruct H as [<- | H]; [split; [simpl; tauto | discriminate] |]).
  contradiction H.
Qed.

(** Assigning the [Datetime] column leaves what the loop reads under the
    other labels. *)
Lemma row_item_replace {A : Type} (conv : string) (f : cell -> result A)
  (cols : list string) (j : nat) (v : cell) (r : list cell)
  (label : string) :
  locs "Datetime" cols 0 = [j] -> label <> "Datetime" ->
  row_item conv f cols (replace_nth j v r) label
  = row_item conv f cols r label.
Proof.
  intros Hj Hne. unfold row_item.
  destruct (locs label cols 0) as [|k [|k' ks]] eqn:Hk; try reflexivity.
  rewrite nth_replace_nth_other; [reflexivity |].
  apply (locs_apart "Datetime" label cols).
  - rewrite Hj. now left.
  - rewrite Hk. now left.
  - congruence.
Qed.

Lemma prices_replace (cols : list string) (j : nat) (v : cell)
  (r : list cell) :
  locs "Datetime" cols 0 = [j] ->
  prices cols (replace_nth j v r) = prices cols r.
Proof.
  intros Hj. unfold prices, price_cols. simpl.
  rewrite !(row_item_replace _ _ _ _ _ _ _ Hj) by discriminate.
  reflexivity.
Qed.

Lemma chart_record_prices (cols : list string) (row : list cell) :
  chart_record cols row
  = (xv <- row_item "int" py_int cols row "Datetime" ;;
     ys <- prices cols row ;;
     Ok (mkChartRecord xv ys)).
Proof.
  unfold chart_record, prices, price_cols. simpl.
  destruct (row_item "int" py_int cols row "Datetime"); simpl;
    [| reflexivity].
  destruct (row_item "float" py_float cols row "Open"); simpl;
    [| reflexivity].
  destruct (row_item "float" py_float cols row "High"); simpl;
    [| reflexivity].
  destruct (row_item "float" py_float cols row "Low"); simpl;
    [| reflexivity].
  destruct (row_item "float" py_float cols row "Close"); reflexivity.
Qed.

Lemma prices_cells (cols : list string) (row : list cell) :
  required_once cols ->
  prices cols row = mapM py_float (map (cell_of cols row) price_cols).
Proof.
  intros Honce. unfold prices. rewrite mapM_map.
  assert (H : forall label, In label price_cols ->
            row_item "float" py_float cols row label
            = py_float (cell_of cols row label)).
  { intros label Hin. apply price_cols_required in Hin.
    destruct (required_once_locs _ _ Honce (proj1 Hin)) as (k & Hk).
    unfold row_item, cell_of. now rewrite Hk. }
  induction price_cols as [|label labels IH]; simpl; [reflexivity |].
  rewrite H by now left. rewrite IH; [reflexivity |].
  intros l Hl. apply H. now right.
Qed.

Lemma py_float_outcome (c : cell) :
  (is_bad_text c = false /\ exists f, py_float c = Ok f)
  \/ (exists s, c = Text s /\ parse_float s = None
                /\ py_float c
                   = Raise ("could not convert string to float: "
                            ++ repr_str s)).
Proof.
  destruct c as [|f|s]; simpl.
  - left. split; [reflexivity | now exists FNaN].
  - left. split; [reflexivity | now exists f].
  - unfold float_of_str. destruct (parse_float s) as [f|] eqn:E.
    + left. split; [reflexivity | now exists f].
    + right. now exists s.
Qed.

Lemma Forall2_compose {A B C : Type} (P : A -> B -> Prop)
  (Q : B -> C -> Prop) (l1 : list A) (l2 : list B) (l3 : list C) :
  Forall2 P l1 l2 -> Forall2 Q l2 l3 ->
  Forall2 (fun a c => exists b, P a b /\ Q b c) l1 l3.
Proof.
  intros H. revert l3. induction H as [|a b l1 l2 Hab _ IH]; intros l3 HQ;
    inversion HQ; subst; constructor.
  - now exists b.
  - now apply IH.
Qed.

Lemma Forall2_weaken {A B : Type} (R : A -> Prop) (P Q : A -> B -> Prop)
  (l : list A) (l' : list B) :
  (forall a b, R a -> P a b -> Q a b) ->
  Forall R l -> Forall2 P l l' -> Forall2 Q l l'.
Proof.
  intros Himp HR HP. induction HP as [|a b l l' Hab _ IH].
  - constructor.
  - inversion HR; subst. constructor; [now apply Himp | now apply IH].
Qed.

Lemma Forall2_nth_error {A B : Type} (P : A -> B -> Prop) (l : list A)
  (l' : list B) (k : nat) (a : A) :
  Forall2 P l l' -> nth_error l k = Some a ->
  exists b, nth_error l' k = Some b /\ P a b.
Proof.
  intros H. revert k. induction H as [|a0 b0 l l' Hab _ IH]; intros k.
  - now destruct k.
  - destruct k as [|k]; simpl.
    + intros [= <-]. now exists b0.
    + apply IH.
Qed.

(** ** Rows after the assignment of line 133 *)

Lemma chart_record_replace (cols : list string) (j : nat) (q : Q)
  (r : list cell) :
  locs "Datetime" cols 0 = [j] -> (j < List.length r)%nat ->
  chart_record cols (replace_nth j (Num (FFin q)) r)
  = (ys <- prices cols r ;; Ok (mkChartRecord (Qtrunc q) ys)).
Proof.
  intros Hj Hlen. rewrite chart_record_prices.
  rewrite (row_item_at _ _ _ _ _ _ Hj), nth_replace_nth_same.
  apply Nat.ltb_lt in Hlen. rewrite Hlen. simpl.
  now rewrite (prices_replace _ _ _ _ Hj).
Qed.

(** The records of the rows in input order: [x] is the truncated key of
    the row, [y] its prices. *)
Lemma unsorted_records (cols : list string) (j : nat) :
  locs "Datetime" cols 0 = [j] ->
  forall rs millis unsorted,
    List.length millis = List.length rs ->
    mapM (chart_record cols) (set_column j (map Num millis) rs)
    = Ok unsorted ->
    Forall2 (fun m rec => int_of_float m = Ok (x rec)) millis unsorted
    /\ Forall2 (fun r rec => prices cols r = Ok (y rec)) rs unsorted.
Proof.
  intros Hj. induction rs as [|r rs IH]; intros [|m millis] unsorted Hlen;
    simpl in *; try discriminate.
  - intros [= <-]. split; constructor.
  - rewrite chart_record_prices, (row_item_at _ _ _ _ _ _ Hj),
      nth_replace_nth_same, (prices_replace _ _ _ _ Hj).
    destruct (j <? List.length r)%nat; simpl.
    + destruct (int_of_float m) as [xv|] eqn:Ex; simpl; [| discriminate].
      destruct (prices cols r) as [ys|] eqn:Ey; simpl; [| discriminate].
      destruct (mapM (chart_record cols)
                  (set_column j (map Num millis) rs)) as [recs|] eqn:Er;
        simpl; [| discriminate].
      intros [= <-]. destruct (IH millis recs) as [IH1 IH2]; [lia | exact Er |].
      split; constructor; auto.
    + discriminate.
Qed.

(** What [row['Open']] and the like read is the cell under the label, and
    a blank one is turned into NaN. *)
Lemma prices_blank (cols : list string) (row : list cell)
  (ys : list float64) (k : nat) (label : string) :
  prices cols row = Ok ys ->
  nth_error price_cols k = Some label ->
  cell_of cols row label = Blank ->
  nth_error ys k = Some FNaN.
Proof.
  intros Hp Hk Hblank. unfold prices in Hp. apply mapM_Forall2 in Hp.
  destruct (Forall2_nth_error _ _ _ _ _ Hp Hk) as (f & Hf & Hitem).
  rewrite Hf. f_equal. unfold row_item in Hitem. unfold cell_of in Hblank.
  destruct (locs label cols 0) as [|k0 [|k1 ks]]; try discriminate.
  simpl in Hblank. rewrite Hblank in Hitem. simpl in Hitem. congruence.
Qed.

Lemma prices_length (cols : list string) (row : list cell)
  (ys : list float64) :
  prices cols row = Ok ys -> List.length ys = 4%nat.
Proof. intros H. apply mapM_length in H. exact H. Qed.

(** A row whose price cells hold no rejected text has prices; one that
    holds some raises the complaint of [float] about one of them. *)
Lemma prices_outcome (cols : list string) (row : list cell) :
  required_once cols ->
  (bad_labels cols row = [] /\ exists ys, prices cols row = Ok ys)
  \/ (bad_labels cols row <> []
      /\ exists label s,
           In label price_cols /\ cell_of cols row label = Text s
           /\ parse_float s = None
           /\ prices cols row
              = Raise ("could not convert string to float: "
                       ++ repr_str s)).
Proof.
  intros Honce. rewrite (prices_cells _ _ Honce).
  destruct (mapM py_float (map (cell_of cols row) price_cols))
    as [ys|msg] eqn:E.
  - left. split; [| now exists ys].
    apply mapM_Forall2 in E. unfold bad_labels.
    destruct (filter _ price_cols) as [|label rest] eqn:Ef; [reflexivity |].
    assert (Hin : In label (filter
              (fun label => is_bad_text (cell_of cols row label)) price_cols))
      by (rewrite Ef; now left).
    apply filter_In in Hin. destruct Hin as [Hin Hbad].
    destruct (Forall2_In_left _ _ _ _ E (in_map _ _ _ Hin)) as (f & _ & Hf).
    destruct (py_float_outcome (cell_of cols row label))
      as [[Hok _] | (s & _ & _ & Hr)]; congruence.
  - right. destruct (mapM_raise _ _ _ E) as (c & Hin & Hc).
    apply in_map_iff in Hin. destruct Hin as (label & <- & Hin).
    destruct (py_float_outcome (cell_of cols row label))
      as [[_ (f & Hf)] | (s & Hs & Hnone & Hr)]; [congruence |].
    split.
    + unfold bad_labels. intros Hnil.
      assert (Hbad : In label (filter
                (fun label => is_bad_text (cell_of cols row label))
                price_cols)).
      { apply filter_In. split; [exact Hin |]. rewrite Hs. simpl.
        now rewrite Hnone. }
      rewrite Hnil in Hbad. exact Hbad.
    + exists label, s. repeat split; try assumption. congruence.
Qed.

Lemma bad_cells_from_nil (cols : list string) (rs : list (list cell))
  (i : nat) :
  bad_cells_from cols i rs = [] <->
  forall r, In r rs -> bad_labels cols r = [].
Proof.
  revert i. induction rs as [|r rs IH]; intros i; simpl.
  - split; [intros _ r [] | reflexivity].
  - split.
    + intros H. apply app_eq_nil in H. destruct H as [H1 H2].
      apply map_eq_nil in H1. intros r' [<- | Hin]; [exact H1 |].
      now apply (IH (S i)).
    + intros H. rewrite (H r (or_introl eq_refl)). simpl.
      apply IH. intros r' Hin. apply H. now right.
Qed.

(** ** The loop on assigned rows *)

Lemma millis_of_stamps (stamps : list timestamp) :
  Forall in_int64 stamps -> Forall (fun t => t <> NaT) stamps ->
  exists millis,
    mapM to_millis stamps = Ok millis
    /\ Forall (fun m => exists q, m = FFin q) millis.
Proof.
  induction stamps as [|t stamps IH]; intros Hr Hn.
  - exists []. split; [reflexivity | constructor].
  - inversion Hr as [|? ? Ht Hr']; inversion Hn as [|? ? Hnt Hn']; subst.
    destruct (IH Hr' Hn') as (millis & Hm & Hfin).
    destruct t as [|v]; [now contradiction Hnt |].
    destruct (to_millis_finite v Ht) as (q & Hq).
    exists (FFin q :: millis). split.
    + cbn [mapM]. rewrite Hq, Hm. reflexivity.
    + constructor; [now exists q | exact Hfin].
Qed.

Lemma rows_after (cols : list string) (j : nat) :
  locs "Datetime" cols 0 = [j] ->
  forall rs millis,
    Forall (fun m => exists q, m = FFin q) millis ->
    List.length millis = List.length rs ->
    Forall (fun r => (j < List.length r)%nat) rs ->
    Forall2 (fun r r' =>
               exists q, chart_record cols r'
                         = (ys <- prices cols r ;;
                            Ok (mkChartRecord (Qtrunc q) ys)))
            rs (set_column j (map Num millis) rs).
Proof.
  intros Hj. induction rs as [|r rs IH]; intros [|m millis] Hfin Hlen Hwf;
    simpl in *; try discriminate.
  - constructor.
  - inversion Hfin as [|? ? (q & ->) Hfin']; inversion Hwf; subst.
    constructor; [| apply IH; [assumption | lia | assumption]].
    exists q. now apply chart_record_replace.
Qed.

Lemma well_formed_rows (df : DataFrame) (j : nat) :
  well_formed df = true ->
  In j (locs "Datetime" (columns (reconcile df)) 0) ->
  Forall (fun r => (j < List.length r)%nat) (rows df).
Proof.
  intros Hwf Hj. apply locs_In in Hj. destruct Hj as [_ Hj].
  rewrite Nat.sub_0_r in Hj.
  assert (Hlt : (j < List.length (columns (reconcile df)))%nat)
    by (apply nth_error_Some; congruence).
  unfold reconcile in Hlt. simpl in Hlt. rewrite !length_map in Hlt.
  unfold well_formed in Hwf. rewrite forallb_forall in Hwf.
  apply Forall_forall. intros r Hr. specialize (Hwf r Hr).
  apply Nat.eqb_eq in Hwf. lia.
Qed.

(** ** Lower-casing twice *)

Lemma lower_char_idem (c : ascii) : lower_char (lower_char c) = lower_char c.
Proof.
  destruct c as [[|] [|] [|] [|] [|] [|] [|] [|]]; reflexivity.
Qed.

Lemma lower_idem (s : string) : lower (lower s) = lower s.
Proof.
  induction s as [|c s IH]; simpl; [reflexivity |].
  now rewrite lower_char_idem, IH.
Qed.

Section Properties.

Variable to_datetime : list cell -> result (list timestamp).
Variable argsort : list float64 -> list nat.

(** C2.  A table that lacks a required column after the labels were
    lower-cased and renamed is answered with status 400; the message
    lists the missing required labels, which are exactly the required
    labels not among the columns, and then the columns found.  No chart
    record is returned. *)
Theorem missing_columns_rejected (df : DataFrame) :
  (exists col, In col required_cols /\ ~ In col (columns (reconcile df))) ->
  let found := columns (reconcile df) in
  get_data to_datetime argsort df
  = Response400 ("CSV must contain '" ++ join ", " (missing_cols found)
                 ++ "' columns. Found: " ++ repr_list found)
  /\ (forall col, In col (missing_cols found)
                  <-> In col required_cols /\ ~ In col found)
  /\ missing_cols found <> []
  /\ forall chart_data,
       get_data to_datetime argsort df <> Response200 chart_data.
Proof.
  intros (col & Hreq & Hmiss) found.
  assert (Hcheck : forallb (has_column found) required_cols = false).
  { apply not_true_is_false. rewrite required_present_iff.
    intros H. apply Hmiss, H, Hreq. }
  assert (Hget : get_data to_datetime argsort df
                 = Response400 (schema_error found)).
  { unfold get_data. fold found. now rewrite Hcheck. }
  split; [exact Hget | split; [apply missing_cols_spec | split]].
  - intros Hnil. assert (Hin : In col (missing_cols found))
      by (apply missing_cols_spec; split; assumption).
    rewrite Hnil in Hin. exact Hin.
  - intros chart_data. rewrite Hget. discriminate.
Qed.

(** C7, as the code has it.  When the lower-cased labels include both
    [date] and [datetime], both columns are relabelled [Datetime] where
    they stand and keep their own cells: the table then has two columns
    of that label, nothing is overwritten.  The check of the required
    columns counts [Datetime] as present, and once the other four are
    present too the conversion of the dates rejects the repeated label,
    so the answer is a server error; chart records are never returned. *)
Theorem date_and_datetime_both_kept (df : DataFrame) :
  In "date" (map lower (columns df)) ->
  In "datetime" (map lower (columns df)) ->
  (forall j c, nth_error (columns df) j = Some c ->
     lower c = "date" \/ lower c = "datetime" ->
     nth_error (columns (reconcile df)) j = Some "Datetime")
  /\ (2 <= count_occ string_dec (columns (reconcile df)) "Datetime")%nat
  /\ rows (reconcile df) = rows df
  /\ ((forall col, In col required_cols -> In col (columns (reconcile df))) ->
      get_data to_datetime argsort df
      = Response500 "Error processing CSV: cannot assemble with duplicate keys")
  /\ forall chart_data,
       get_data to_datetime argsort df <> Response200 chart_data.
Proof.
  intros Hdate Hdatetime.
  pose proof (rename_date _ Hdate) as Rd.
  pose proof (rename_datetime _ Hdatetime) as Rdt.
  assert (Hcount :
    (2 <= count_occ string_dec (columns (reconcile df)) "Datetime")%nat).
  { unfold reconcile; simpl.
    apply (count_occ_map_two _ _ "date" "datetime");
      try assumption. discriminate. }
  assert (Hfail :
    forallb (has_column (columns (reconcile df))) required_cols = true ->
    get_data to_datetime argsort df
    = Response500 "Error processing CSV: cannot assemble with duplicate keys").
  { intros Hreq. unfold get_data. rewrite Hreq. simpl.
    unfold build_chart_data, parse_datetime_column.
    destruct (getitem_repeated _ _ Hcount) as (js & ->). reflexivity. }
  split; [| split; [exact Hcount | split; [reflexivity | split]]].
  - intros j c Hj Hc. unfold reconcile; simpl.
    rewrite nth_error_map, nth_error_map, Hj.
    cbn [option_map]. f_equal.
    destruct Hc as [-> | ->]; assumption.
  - intros Hreq. apply Hfail, required_present_iff, Hreq.
  - intros chart_data.
    destruct (forallb (has_column (columns (reconcile df))) required_cols)
      eqn:Hreq.
    + rewrite (Hfail eq_refl). discriminate.
    + unfold get_data. rewrite Hreq. discriminate.
Qed.

(** What a successful request went through. *)
Lemma get_data_ok_inv (df : DataFrame) (chart_data : list ChartRecord) :
  get_data to_datetime argsort df = Response200 chart_data ->
  let rf := reconcile df in
  forallb (has_column (columns rf)) required_cols = true
  /\ exists j stamps millis,
      locs "Datetime" (columns rf) 0 = [j]
      /\ to_datetime (column_at j rf) = Ok stamps
      /\ mapM to_millis stamps = Ok millis
      /\ let rs := set_column j (map Num millis) (rows rf) in
         mapM (chart_record (columns rf))
              (take (argsort (map as_float64
                                  (map (fun r => nth j r Blank) rs))) rs)
         = Ok chart_data.
Proof.
  intros H rf. unfold get_data in H. fold rf in H.
  destruct (forallb (has_column (columns rf)) required_cols);
    simpl in H; [| discriminate].
  split; [reflexivity |].
  destruct (build_chart_data to_datetime argsort rf) as [cd|] eqn:E;
    [| discriminate].
  injection H as ->.
  unfold build_chart_data, parse_datetime_column, getitem in E.
  destruct (locs "Datetime" (columns rf) 0) as [|j [|j' js]] eqn:Hlocs;
    simpl in E; try discriminate.
  destruct (to_datetime (column_at j rf)) as [stamps|] eqn:Et;
    simpl in E; [| discriminate].
  destruct (mapM to_millis stamps) as [millis|] eqn:Em;
    simpl in E; [| discriminate].
  exists j, stamps, millis. repeat split; assumption.
Qed.

Hypothesis to_datetime_length :
  forall values stamps,
    to_datetime values = Ok stamps ->
    List.length stamps = List.length values.

Hypothesis argsort_sorted :
  forall keys, StronglySorted (key_le keys) (argsort keys).

Lemma ok_sorted (df : DataFrame) (chart_data : list ChartRecord) :
  get_data to_datetime argsort df = Response200 chart_data ->
  StronglySorted (fun a b => x a <= x b) chart_data.
Proof.
  intros H.
  apply get_data_ok_inv in H. destruct H as (_ & j & stamps & millis & H).
  destruct H as (Hj & Ht & Hm & Hloop). cbv zeta in Hloop.
  set (rf := reconcile df) in *.
  set (rs := set_column j (map Num millis) (rows rf)) in *.
  set (keys := map as_float64 (map (fun r => nth j r Blank) rs)) in *.
  unfold take in Hloop. rewrite mapM_map in Hloop.
  apply mapM_Forall2 in Hloop.
  assert (Hcells : forall i, (exists f, nth j (nth i rs []) Blank = Num f)
                             \/ nth j (nth i rs []) Blank = Blank).
  { intros i. destruct (nth_in_or_default i rs []) as [Hin | ->];
      [| right; now destruct j].
    assert (Hlen : List.length millis = List.length (rows rf)).
    { rewrite (mapM_length _ _ _ Hm), (to_datetime_length _ _ Ht).
      unfold column_at. apply length_map. }
    pose proof (set_column_num_cells j _ _ Hlen) as Hall. fold rs in Hall.
    rewrite Forall_forall in Hall. apply Hall, Hin. }
  assert (Hkey : forall i,
            key_of keys i = as_float64 (nth j (nth i rs []) Blank)).
  { intros i. unfold key_of, keys. rewrite map_map.
    assert (Hd : as_float64 (nth j [] Blank) = FNaN) by now destruct j.
    rewrite <- Hd.
    apply (map_nth (fun r => as_float64 (nth j r Blank))). }
  eapply StronglySorted_Forall2;
    [exact Hloop | | apply (argsort_sorted keys)].
  intros i i' rec rec' Hrec Hrec' Hle. cbv beta in Hrec, Hrec'.
  apply chart_record_inv in Hrec, Hrec'.
  destruct Hrec as (? & ? & ? & ? & Hx & _).
  destruct Hrec' as (? & ? & ? & ? & Hx' & _).
  rewrite (row_item_at _ _ _ _ _ _ Hj) in Hx.
  rewrite (row_item_at _ _ _ _ _ _ Hj) in Hx'.
  destruct (py_int_key _ _ (Hcells i) Hx) as (q & Hq & ->).
  destruct (py_int_key _ _ (Hcells i') Hx') as (q' & Hq' & ->).
  unfold key_le in Hle. rewrite !Hkey, Hq, Hq' in Hle.
  apply Qtrunc_mono, f64_le_fin, Hle.
Qed.

(** C5.  The chart records of a successful request are in ascending order
    of [x]: every record is at most any later one, in particular
    [x[i] <= x[i+1]] for consecutive records. *)
Theorem chart_data_sorted (df : DataFrame) (chart_data : list ChartRecord) :
  get_data to_datetime argsort df = Response200 chart_data ->
  StronglySorted (fun a b => x a <= x b) chart_data
  /\ forall i d, (S i < List.length chart_data)%nat ->
                 x (nth i chart_data d) <= x (nth (S i) chart_data d).
Proof.
  intros H. pose proof (ok_sorted _ _ H) as Hs.
  split; [exact Hs |].
  intros i d Hi. apply (StronglySorted_consecutive _ _ d Hs i Hi).
Qed.

Hypothesis argsort_perm :
  forall keys, Permutation (argsort keys) (seq 0 (List.length keys)).

Lemma take_argsort_perm (keys : list float64) (rs : list (list cell)) :
  List.length keys = List.length rs ->
  Permutation (take (argsort keys) rs) rs.
Proof.
  intros Hlen. unfold take.
  eapply perm_trans; [apply Permutation_map, argsort_perm |].
  rewrite Hlen, map_nth_seq. apply Permutation_refl.
Qed.

(** A successful request, row by row: the loop succeeds on the rows in
    input order as well, and the answer is a rearrangement of what it
    yields there. *)
Lemma get_data_ok_rows (df : DataFrame) (chart_data : list ChartRecord) :
  get_data to_datetime argsort df = Response200 chart_data ->
  let rf := reconcile df in
  exists j stamps millis unsorted,
    locs "Datetime" (columns rf) 0 = [j]
    /\ to_datetime (column_at j rf) = Ok stamps
    /\ mapM to_millis stamps = Ok millis
    /\ List.length millis = List.length (rows rf)
    /\ mapM (chart_record (columns rf))
            (set_column j (map Num millis) (rows rf)) = Ok unsorted
    /\ Permutation unsorted chart_data.
Proof.
  intros H rf. apply get_data_ok_inv in H. fold rf in H.
  destruct H as (_ & j & stamps & millis & Hj & Ht & Hm & Hloop).
  cbv zeta in Hloop.
  assert (Hlen : List.length millis = List.length (rows rf)).
  { rewrite (mapM_length _ _ _ Hm), (to_datetime_length _ _ Ht).
    unfold column_at. apply length_map. }
  eapply mapM_perm in Hloop;
    [| apply take_argsort_perm; rewrite !length_map; reflexivity].
  destruct Hloop as (unsorted & Hun & Hperm).
  exists j, stamps, millis, unsorted.
  repeat split; try assumption. now apply Permutation_sym.
Qed.

(** C1, as the code has it.  The answer holds one record for every row,
    the records the loop yields on the rows in input order, rearranged
    into ascending order of [x].  Nothing is said of the order of
    records with equal [x]. *)
Theorem sort_orders_all_rows (df : DataFrame)
  (chart_data : list ChartRecord) :
  get_data to_datetime argsort df = Response200 chart_data ->
  exists unsorted,
    chart_data_unsorted to_datetime (reconcile df) = Ok unsorted
    /\ Permutation unsorted chart_data
    /\ List.length chart_data = List.length (rows df)
    /\ StronglySorted (fun a b => x a <= x b) chart_data.
Proof.
  intros H. pose proof (ok_sorted _ _ H) as Hs.
  destruct (get_data_ok_rows _ _ H)
    as (j & stamps & millis & unsorted & Hj & Ht & Hm & Hlen & Hun & Hp).
  exists unsorted. repeat split; try assumption.
  - unfold chart_data_unsorted, parse_datetime_column, getitem.
    rewrite Hj, Ht. simpl. rewrite Hm. simpl. exact Hun.
  - rewrite <- (Permutation_length Hp), (mapM_length _ _ _ Hun),
      set_column_length. reflexivity.
Qed.

(** C8, as the code has it.  Every record of a successful request has a
    [y] of exactly four floats, the prices [float] reads from the open,
    high, low and close cells of one input row, in that order.  They
    need not be finite. *)
Theorem chart_records_have_four_prices (df : DataFrame)
  (chart_data : list ChartRecord) :
  get_data to_datetime argsort df = Response200 chart_data ->
  Forall (fun rec =>
            List.length (y rec) = 4%nat
            /\ exists row, In row (rows df)
                 /\ prices (columns (reconcile df)) row = Ok (y rec))
         chart_data.
Proof.
  intros H.
  destruct (get_data_ok_rows _ _ H)
    as (j & stamps & millis & unsorted & Hj & Ht & Hm & Hlen & Hun & Hp).
  eapply Permutation_Forall; [exact Hp |].
  destruct (unsorted_records _ _ Hj _ _ _ Hlen Hun) as [_ Hy].
  apply Forall_forall. intros rec Hin.
  destruct (Forall2_In_right _ _ _ _ Hy Hin) as (row & Hrow & Hprices).
  split; [eapply prices_length, Hprices |].
  exists row. split; assumption.
Qed.

(** C4, as the code has it.  In a successful request the [x] of the
    record of each row is computed from the nanosecond count [value] of
    the row's timestamp as [int(round(value / 1e9, 6) * 1000)], every
    step in binary64: no row has a missing timestamp, the float is
    finite, and [x] is that float with its fraction cut off.  No time
    zone enters.  For a row whose timestamp is a whole number [s] of
    seconds with [|s| * 5^9 < 2^53], this is exactly the epoch
    milliseconds of the timestamp. *)
Theorem x_is_float_millis (df : DataFrame) (chart_data : list ChartRecord)
  (j : nat) (stamps : list timestamp) :
  get_data to_datetime argsort df = Response200 chart_data ->
  parse_datetime_column to_datetime (reconcile df) = Ok (j, stamps) ->
  exists unsorted,
    chart_data_unsorted to_datetime (reconcile df) = Ok unsorted
    /\ Permutation unsorted chart_data
    /\ Forall2
         (fun t rec =>
            exists value q,
              t = Stamp value
              /\ f64_mul (py_round6 (f64_div (f64_of_Z value)
                                             (f64_of_Z (10 ^ 9))))
                         (f64_of_Z 1000)
                 = FFin q
              /\ x rec = Qtrunc q
              /\ (forall s,
                    value = s * 10 ^ 9 -> Z.abs s * 5 ^ 9 < 2 ^ 53 ->
                    epoch_millis t = Some (x rec)))
         stamps unsorted.
Proof.
  intros H Hparse.
  destruct (get_data_ok_rows _ _ H)
    as (j' & stamps' & millis & unsorted & Hj & Ht & Hm & Hlen & Hun & Hp).
  unfold parse_datetime_column, getitem in Hparse.
  rewrite Hj, Ht in Hparse. simpl in Hparse. injection Hparse as <- <-.
  exists unsorted. split; [| split; [exact Hp |]].
  - unfold chart_data_unsorted, parse_datetime_column, getitem.
    rewrite Hj, Ht. simpl. rewrite Hm. simpl. exact Hun.
  - destruct (unsorted_records _ _ Hj _ _ _ Hlen Hun) as [Hx _].
    apply mapM_Forall2 in Hm.
    pose proof (Forall2_compose _ _ _ _ _ Hm Hx) as Hc.
    eapply Forall2_weaken with (R := fun _ => True);
      [| apply Forall_forall; now intros | exact Hc].
    intros t rec _ (m & Hmt & Hint).
    destruct t as [|value]; [discriminate Hmt |].
    destruct m as [| neg | q]; try discriminate Hint.
    injection Hint as Hq. exists value, q.
    repeat split.
    + unfold to_millis, timestamp_seconds, bind in Hmt. congruence.
    + now symmetry.
    + intros s -> Hs. cbn [epoch_millis].
      rewrite (to_millis_whole_seconds s Hs) in Hmt.
      assert (Hqs : q = inject_Z (s * 1000)) by congruence.
      rewrite <- Hq, Hqs. f_equal.
      unfold Qtrunc. cbn [Qnum Qden inject_Z]. rewrite Z.quot_1_r.
      change (10 ^ 9) with (1000 * 10 ^ 6). rewrite Z.mul_assoc.
      now rewrite Z.quot_mul by discriminate.
Qed.

Hypothesis to_datetime_nil : to_datetime [] = Ok [].

(** C6, as the code has it.  A table without data rows whose labels,
    once reconciled, include the five required ones, [Datetime] being
    the label of one column only, is answered with the empty list of
    chart records. *)
Theorem header_only_gives_empty (df : DataFrame) :
  rows df = [] ->
  (forall col, In col required_cols -> In col (columns (reconcile df))) ->
  count_occ string_dec (columns (reconcile df)) "Datetime" = 1%nat ->
  get_data to_datetime argsort df = Response200 [].
Proof.
  intros Hrows Hreq Hone. apply required_present_iff in Hreq.
  unfold get_data. rewrite Hreq. simpl.
  unfold build_chart_data, parse_datetime_column.
  destruct (getitem_once _ _ Hone) as (j & _ & ->).
  unfold column_at, sort_values, column_at. simpl. rewrite Hrows. simpl.
  rewrite to_datetime_nil. simpl.
  rewrite (Permutation_nil (Permutation_sym (argsort_perm []))).
  reflexivity.
Qed.

Hypothesis to_datetime_int64 :
  forall values stamps,
    to_datetime values = Ok stamps -> Forall in_int64 stamps.

(** When the dates are converted and none is missing, the request comes
    down to the loop over the sorted rows, and on each row the loop
    yields the truncated key and the prices of the row it came from. *)
Lemma build_forward (df : DataFrame) (j : nat) (stamps : list timestamp) :
  well_formed df = true ->
  parse_datetime_column to_datetime (reconcile df) = Ok (j, stamps) ->
  Forall (fun t => t <> NaT) stamps ->
  let cols := columns (reconcile df) in
  exists sorted,
    build_chart_data to_datetime argsort (reconcile df)
    = mapM (chart_record cols) sorted
    /\ (forall r', In r' sorted ->
          exists r q, In r (rows df)
            /\ chart_record cols r'
               = (ys <- prices cols r ;; Ok (mkChartRecord (Qtrunc q) ys)))
    /\ (forall r, In r (rows df) ->
          exists r' q, In r' sorted
            /\ chart_record cols r'
               = (ys <- prices cols r ;; Ok (mkChartRecord (Qtrunc q) ys))).
Proof.
  intros Hwf Hparse Hnat cols.
  unfold parse_datetime_column, getitem in Hparse.
  destruct (locs "Datetime" (columns (reconcile df)) 0) as [|j' [|j'' js]]
    eqn:Hj; try discriminate.
  destruct (to_datetime (column_at j' (reconcile df))) as [ts|] eqn:Ht;
    simpl in Hparse; [| discriminate].
  injection Hparse as -> ->.
  destruct (millis_of_stamps stamps (to_datetime_int64 _ _ Ht) Hnat)
    as (millis & Hm & Hfin).
  assert (Hlen : List.length millis = List.length (rows df)).
  { rewrite (mapM_length _ _ _ Hm), (to_datetime_length _ _ Ht).
    unfold column_at. apply length_map. }
  set (rs := set_column j (map Num millis) (rows df)).
  set (keys := map as_float64 (map (fun r => nth j r Blank) rs)).
  exists (take (argsort keys) rs).
  assert (Hrows : Forall (fun r => (j < List.length r)%nat) (rows df)).
  { apply well_formed_rows; [exact Hwf | rewrite Hj; now left]. }
  pose proof (rows_after cols j Hj (rows df) millis Hfin Hlen Hrows) as Hafter.
  fold rs in Hafter.
  assert (Hperm : Permutation (take (argsort keys) rs) rs)
    by (apply take_argsort_perm; unfold keys; now rewrite !length_map).
  split; [| split].
  - unfold build_chart_data, parse_datetime_column, getitem.
    rewrite Hj, Ht. simpl. rewrite Hm. reflexivity.
  - intros r' Hin. apply (Permutation_in _ Hperm) in Hin.
    destruct (Forall2_In_right _ _ _ _ Hafter Hin) as (r & Hr & q & Hq).
    now exists r, q.
  - intros r Hin.
    destruct (Forall2_In_left _ _ _ _ Hafter Hin) as (r' & Hr' & q & Hq).
    exists r', q. split; [| exact Hq].
    apply (Permutation_in _ (Permutation_sym Hperm)), Hr'.
Qed.

(** C10.  A blank price cell does not fail the request and comes out as
    NaN.  First: in a successful request, the record of every row has
    NaN at the place of each price that is blank in the row.  Second: a
    table whose dates are all converted and whose price cells hold no
    text that [float] rejects, blank cells included, is answered with
    chart records. *)
Theorem blank_price_is_nan (df : DataFrame) :
  (forall chart_data,
     get_data to_datetime argsort df = Response200 chart_data ->
     exists unsorted,
       Permutation unsorted chart_data
       /\ Forall2 (fun row rec =>
                     forall k label,
                       nth_error price_cols k = Some label ->
                       cell_of (columns (reconcile df)) row label = Blank ->
                       nth_error (y rec) k = Some FNaN)
                  (rows df) unsorted)
  /\ (forall j stamps,
        well_formed df = true ->
        required_once (columns (reconcile df)) ->
        parse_datetime_column to_datetime (reconcile df) = Ok (j, stamps) ->
        Forall (fun t => t <> NaT) stamps ->
        bad_cells df = [] ->
        exists chart_data,
          get_data to_datetime argsort df = Response200 chart_data).
Proof.
  split.
  - intros chart_data H.
    destruct (get_data_ok_rows _ _ H)
      as (j & stamps & millis & unsorted & Hj & Ht & Hm & Hlen & Hun & Hp).
    exists unsorted. split; [exact Hp |].
    destruct (unsorted_records _ _ Hj _ _ _ Hlen Hun) as [_ Hy].
    eapply Forall2_weaken with (R := fun _ => True);
      [| apply Forall_forall; now intros | exact Hy].
    intros row rec _ Hprices k label Hk Hblank. cbv beta in Hprices.
    exact (prices_blank _ _ _ _ _ Hprices Hk Hblank).
  - intros j stamps Hwf Honce Hparse Hnat Hbad.
    destruct (build_forward df j stamps Hwf Hparse Hnat)
      as (sorted & Hbuild & Hsorted & _).
    unfold get_data. rewrite (required_once_present _ Honce). simpl.
    rewrite Hbuild.
    destruct (mapM_all_ok (chart_record (columns (reconcile df))) sorted)
      as (chart_data & ->); [| now exists chart_data].
    intros r' Hin. destruct (Hsorted r' Hin) as (r & q & Hr & ->).
    unfold bad_cells in Hbad.
    pose proof (proj1 (bad_cells_from_nil _ _ _) Hbad r Hr) as Hgood.
    destruct (prices_outcome _ r Honce) as [(_ & ys & ->) | (Hne & _)];
      [| contradiction].
    simpl. now eexists.
Qed.

(** C3, as the code has it.  A failure inside the transform is answered
    with status 500 and the text of the exception, and no records.
    First: when [to_datetime] rejects the date column, the text is its
    message.  Second: when the dates are converted and some price cell
    holds text that [float] rejects, the text is the complaint of
    [float] about one such cell, which quotes the cell and names neither
    its row nor its column. *)
Theorem bad_value_is_server_error (df : DataFrame) :
  (forall msg,
     (forall col, In col required_cols -> In col (columns (reconcile df))) ->
     parse_datetime_column to_datetime (reconcile df) = Raise msg ->
     get_data to_datetime argsort df
     = Response500 ("Error processing CSV: " ++ msg))
  /\ (forall j stamps,
        well_formed df = true ->
        required_once (columns (reconcile df)) ->
        parse_datetime_column to_datetime (reconcile df) = Ok (j, stamps) ->
        Forall (fun t => t <> NaT) stamps ->
        bad_cells df <> [] ->
        exists row label s,
          In row (rows df) /\ In label price_cols
          /\ cell_of (columns (reconcile df)) row label = Text s
          /\ parse_float s = None
          /\ get_data to_datetime argsort df
             = Response500
                 ("Error processing CSV: could not convert string to float: "
                  ++ repr_str s)).
Proof.
  split.
  - intros msg Hreq Hparse. apply required_present_iff in Hreq.
    unfold get_data. rewrite Hreq. simpl.
    unfold build_chart_data. rewrite Hparse. reflexivity.
  - intros j stamps Hwf Honce Hparse Hnat Hbad.
    destruct (build_forward df j stamps Hwf Hparse Hnat)
      as (sorted & Hbuild & Hsorted & Hrows).
    set (cols := columns (reconcile df)) in *.
    assert (Hsome : exists r, In r (rows df) /\ bad_labels cols r <> []).
    { unfold bad_cells in Hbad. fold cols in Hbad.
      destruct (Forall_Exists_dec (fun r => bad_labels cols r = [])
                  (fun r => list_eq_dec string_dec (bad_labels cols r) [])
                  (rows df)) as [Hall | Hex].
      - contradiction Hbad. apply bad_cells_from_nil.
        now apply Forall_forall.
      - apply Exists_exists in Hex. exact Hex. }
    destruct Hsome as (r & Hr & Hrbad).
    destruct (Hrows r Hr) as (r' & q & Hr' & Hrec).
    assert (Hraise : exists e, chart_record cols r' = Raise e).
    { rewrite Hrec.
      destruct (prices_outcome _ r Honce)
        as [(Hnil & _) | (_ & label & s & _ & _ & _ & ->)];
        [contradiction |]. now eexists. }
    destruct Hraise as (e & He).
    destruct (mapM_some_raise _ _ _ _ Hr' He) as (msg & Hmsg).
    destruct (mapM_raise _ _ _ Hmsg) as (r1' & Hin1 & Hr1).
    destruct (Hsorted r1' Hin1) as (r1 & q1 & Hr1in & Hrec1).
    rewrite Hrec1 in Hr1.
    destruct (prices_outcome _ r1 Honce)
      as [(_ & ys & Hys) | (_ & label & s & Hl & Hc & Hs & Hp)].
    + fold cols in Hys. rewrite Hys in Hr1. discriminate.
    + fold cols in Hp. rewrite Hp in Hr1. injection Hr1 as <-.
      exists r1, label, s. repeat split; try assumption.
      unfold get_data. fold cols.
      rewrite (required_once_present _ Honce). simpl.
      rewrite Hbuild, Hmsg. reflexivity.
Qed.

End Properties.

Lemma missing_columns_rejected_witness :
  get_data to_datetime_iso argsort_quicksort table_without_close
  = Response400 "CSV must contain 'Close' columns. Found: ['Datetime', 'Open', 'High', 'Low', 'volume']".
Proof.
  refine (proj1 (missing_columns_rejected to_datetime_iso argsort_quicksort
                   table_without_close _)).
  exists "Close". split.
  - vm_compute. tauto.
  - vm_compute. intros H.
    repeat (destruct H as [H | H]; [discriminate H |]). exact H.
Defined.

(** The claim C7 fails on a table with both columns: two columns are
    labelled [Datetime] after reconciliation and the request fails. *)
Lemma both_dates_not_merged :
  count_occ string_dec (columns (reconcile table_both_dates)) "Datetime"
  = 2%nat
  /\ rows (reconcile table_both_dates) = rows table_both_dates
  /\ get_data to_datetime_iso argsort_quicksort table_both_dates
     = Response500 "Error processing CSV: cannot assemble with duplicate keys".
Proof. vm_compute. repeat split. Qed.

Lemma date_and_datetime_both_kept_witness :
  get_data to_datetime_iso argsort_quicksort table_both_dates
  = Response500 "Error processing CSV: cannot assemble with duplicate keys".
Proof.
  refine (proj1 (proj2 (proj2 (proj2
            (date_and_datetime_both_kept to_datetime_iso argsort_quicksort
               table_both_dates _ _)))) _).
  - simpl. tauto.
  - simpl. tauto.
  - vm_compute. intros col H.
    repeat (destruct H as [<- | H]; [tauto |]). contradiction H.
Defined.

(** The claim C6 fails on a header that has both [date] and [datetime]:
    all five required labels are there, there is no data row, and the
    answer is an error. *)
Lemma header_both_dates_is_error :
  rows header_both_dates = []
  /\ forallb (has_column (columns (reconcile header_both_dates)))
             required_cols = true
  /\ get_data to_datetime_iso argsort_quicksort header_both_dates
     = Response500 "Error processing CSV: cannot assemble with duplicate keys".
Proof. vm_compute. repeat split. Qed.

Lemma header_only_gives_empty_witness :
  get_data to_datetime_iso argsort_stable header_only = Response200 [].
Proof.
  apply (header_only_gives_empty to_datetime_iso argsort_stable
           argsort_stable_perm eq_refl header_only).
  - reflexivity.
  - vm_compute. tauto.
  - reflexivity.
Defined.

(** ** The laws hold of the instances, and the claims on sample tables *)

Lemma datetime_of_cell_int64 (position : nat) (c : cell) (t : timestamp) :
  datetime_of_cell position c = Ok t -> in_int64 t.
Proof.
  destruct c as [|[| |q]|s]; unfold datetime_of_cell.
  - intros [= <-]. exact I.
  - intros [= <-]. exact I.
  - discriminate.
  - destruct ((Zpos (Qden q) =? 1) && (- 2 ^ 63 <? Qnum q)
              && (Qnum q <? 2 ^ 63)) eqn:E; [| discriminate].
    intros [= <-]. apply andb_prop in E. destruct E as [E E2].
    apply andb_prop in E. destruct E as [_ E1].
    apply Z.ltb_lt in E1, E2. unfold in_int64. lia.
  - destruct (parse_iso s) as [value|] eqn:E; [| discriminate].
    intros [= <-]. unfold parse_iso in E.
    repeat match type of E with
           | context [match ?u with _ => _ end] =>
               destruct u eqn:?; try discriminate
           end.
    injection E as <-.
    repeat match goal with
           | H : (_ && _) = true |- _ =>
               apply andb_prop in H; destruct H
           end.
    repeat match goal with
           | H : (_ <? _) = true |- _ => apply Z.ltb_lt in H
           end.
    unfold in_int64. lia.
Qed.

Lemma to_datetime_iso_int64 (values : list cell) (stamps : list timestamp) :
  to_datetime_iso values = Ok stamps -> Forall in_int64 stamps.
Proof.
  unfold to_datetime_iso. generalize 0%nat. revert stamps.
  induction values as [|c values IH]; intros stamps position; simpl.
  - intros [= <-]. constructor.
  - destruct (datetime_of_cell position c) as [t|] eqn:Et; simpl;
      [| discriminate].
    destruct (to_datetime_from (S position) values) as [ts|] eqn:E;
      simpl; [| discriminate].
    intros [= <-]. constructor.
    + eapply datetime_of_cell_int64, Et.
    + eapply IH, E.
Qed.

(** The claim C1 fails under the sort that [sort_values] uses by default:
    eighteen rows of the same minute come out with the rows that opened
    at 1 to 15 in reverse order. *)
Lemma ties_reordered :
  exists chart_data,
    get_data to_datetime_iso argsort_quicksort table_ties
    = Response200 chart_data
    /\ map x chart_data = repeat 1704100500000 18
    /\ map (fun row => nth 1 row Blank) (rows table_ties)
       = map num [0; 1; 2; 3; 4; 5; 6; 7; 8; 9; 10; 11; 12; 13; 14; 15;
                  16; 17]
    /\ map (fun rec => Num (hd FNaN (y rec))) chart_data
       = map num [0; 15; 14; 13; 12; 11; 10; 9; 8; 7; 6; 5; 4; 3; 2; 1;
                  16; 17].
Proof. eexists. vm_compute. repeat split. Qed.

Lemma sort_orders_all_rows_witness :
  exists unsorted,
    chart_data_unsorted to_datetime_iso (reconcile table_two_rows)
    = Ok unsorted
    /\ Permutation unsorted
         (records_of (get_data to_datetime_iso argsort_stable
                        table_two_rows))
    /\ List.length (records_of (get_data to_datetime_iso argsort_stable
                                  table_two_rows))
       = List.length (rows table_two_rows)
    /\ StronglySorted (fun a b => x a <= x b)
         (records_of (get_data to_datetime_iso argsort_stable
                        table_two_rows)).
Proof.
  apply (sort_orders_all_rows to_datetime_iso argsort_stable
           to_datetime_iso_length argsort_stable_sorted
           argsort_stable_perm table_two_rows).
  vm_compute. reflexivity.
Defined.

(** The claim C3 fails: the text [abc] in the open cell of row 0 and in
    the close cell of row 1 are answered with the very same error, which
    therefore tells neither the row nor the column. *)
Lemma error_does_not_locate :
  get_data to_datetime_iso argsort_quicksort table_abc_open
  = Response500
      "Error processing CSV: could not convert string to float: 'abc'"
  /\ get_data to_datetime_iso argsort_quicksort table_abc_close
     = get_data to_datetime_iso argsort_quicksort table_abc_open
  /\ bad_cells table_abc_open = [(0%nat, "Open")]
  /\ bad_cells table_abc_close = [(1%nat, "Close")].
Proof. vm_compute. repeat split. Qed.

Lemma required_once_sample :
  required_once ["Datetime"; "Open"; "High"; "Low"; "Close"].
Proof.
  intros label H.
  repeat (destruct H as [<- | H]; [reflexivity |]). contradiction H.
Qed.

Lemma bad_value_is_server_error_witness :
  exists row label s,
    In row (rows table_abc_open) /\ In label price_cols
    /\ cell_of (columns (reconcile table_abc_open)) row label = Text s
    /\ parse_float s = None
    /\ get_data to_datetime_iso argsort_stable table_abc_open
       = Response500
           ("Error processing CSV: could not convert string to float: "
            ++ repr_str s).
Proof.
  apply (proj2 (bad_value_is_server_error to_datetime_iso argsort_stable
                  to_datetime_iso_length argsort_stable_perm
                  to_datetime_iso_int64 table_abc_open)
           0%nat [Stamp 1114420500000000000; Stamp 1114420560000000000]).
  - reflexivity.
  - exact required_once_sample.
  - vm_compute. reflexivity.
  - repeat constructor; discriminate.
  - vm_compute. discriminate.
Defined.

(** [float] rejects the open of [table_padded_open] before it comes to
    the high, and reads the open of [table_arabic_open] as 123. *)
Example padded_open_is_rejected :
  get_data to_datetime_iso argsort_stable table_padded_open
  = Response500
      "Error processing CSV: could not convert string to float: '\x1c1.5'"
  /\ bad_cells table_padded_open = [(0%nat, "Open"); (0%nat, "High")].
Proof. vm_compute. split; reflexivity. Qed.

Example arabic_open_is_read :
  map y (records_of (get_data to_datetime_iso argsort_stable
                       table_arabic_open))
  = [map f64_of_Z [123; 110; 95; 105]]
  /\ bad_cells table_arabic_open = [].
Proof. vm_compute. split; reflexivity. Qed.

(** The claim C4 fails on timestamps with a fraction of a second: the
    milliseconds of 15:38:38.883 come out as ...882, and a time half a
    microsecond before the full second comes out as the full second. *)
Lemma millis_off_by_one :
  parse_datetime_column to_datetime_iso (reconcile table_fraction)
  = Ok (0%nat, [Stamp 1073835518883000000; Stamp 1704186900999999500])
  /\ map epoch_millis [Stamp 1073835518883000000; Stamp 1704186900999999500]
     = [Some 1073835518883; Some 1704186900999]
  /\ map x (records_of (get_data to_datetime_iso argsort_quicksort
                          table_fraction))
     = [1073835518882; 1704186901000].
Proof. vm_compute. repeat split. Qed.

(** The bound is [|s| <= 4611686018], from 1823-11-12 to 2116-02-20.
    Three seconds past it a whole second comes out one millisecond
    short: the nanosecond count is no binary64 value any more. *)
Example whole_second_past_bound :
  4611686018 * 5 ^ 9 < 2 ^ 53 <= 4611686019 * 5 ^ 9
  /\ epoch_millis (Stamp (4611686021 * 10 ^ 9)) = Some 4611686021000
  /\ (m <- to_millis (Stamp (4611686021 * 10 ^ 9)) ;; int_of_float m)
     = Ok 4611686020999
  /\ (m <- to_millis (Stamp (4775534341 * 10 ^ 9)) ;; int_of_float m)
     = Ok 4775534340999.
Proof. vm_compute. repeat split; discriminate. Qed.

Lemma x_is_float_millis_witness :
  exists unsorted,
    chart_data_unsorted to_datetime_iso (reconcile table_two_rows)
    = Ok unsorted
    /\ Permutation unsorted
         (records_of (get_data to_datetime_iso argsort_stable
                        table_two_rows))
    /\ Forall2
         (fun t rec =>
            exists value q,
              t = Stamp value
              /\ f64_mul (py_round6 (f64_div (f64_of_Z value)
                                             (f64_of_Z (10 ^ 9))))
                         (f64_of_Z 1000)
                 = FFin q
              /\ x rec = Qtrunc q
              /\ (forall s,
                    value = s * 10 ^ 9 -> Z.abs s * 5 ^ 9 < 2 ^ 53 ->
                    epoch_millis t = Some (x rec)))
         [Stamp 1114420560000000000; Stamp 1114420500000000000] unsorted.
Proof.
  apply (x_is_float_millis to_datetime_iso argsort_stable
           to_datetime_iso_length argsort_stable_perm table_two_rows
           _ 0%nat).
  - vm_compute. reflexivity.
  - vm_compute. reflexivity.
Defined.

Lemma chart_data_sorted_witness :
  StronglySorted (fun a b => x a <= x b)
    (records_of (get_data to_datetime_iso argsort_stable table_two_rows)).
Proof.
  apply (chart_data_sorted to_datetime_iso argsort_stable
           to_datetime_iso_length argsort_stable_sorted table_two_rows).
  vm_compute. reflexivity.
Defined.

(** The claim C8 fails on a table with a blank price, and on one with an
    infinite price: the request succeeds and the record of that row holds
    NaN, or infinity, neither of which is finite. *)
Lemma blank_gives_nan_record :
  (exists rec rest,
     get_data to_datetime_iso argsort_quicksort table_blank
     = Response200 (rec :: rest)
     /\ nth_error (y rec) 1 = Some FNaN
     /\ forallb f64_is_finite (y rec) = false)
  /\ exists rec,
       get_data to_datetime_iso argsort_quicksort table_inf
       = Response200 [rec]
       /\ nth_error (y rec) 1 = Some (FInf false)
       /\ forallb f64_is_finite (y rec) = false.
Proof.
  split.
  - do 2 eexists. vm_compute. repeat split.
  - eexists. vm_compute. repeat split.
Qed.

Lemma chart_records_have_four_prices_witness :
  Forall (fun rec =>
            List.length (y rec) = 4%nat
            /\ exists row, In row (rows table_two_rows)
                 /\ prices (columns (reconcile table_two_rows)) row
                    = Ok (y rec))
    (records_of (get_data to_datetime_iso argsort_stable table_two_rows)).
Proof.
  apply (chart_records_have_four_prices to_datetime_iso argsort_stable
           to_datetime_iso_length argsort_stable_perm table_two_rows).
  vm_compute. reflexivity.
Defined.

Lemma blank_price_is_nan_witness :
  (exists chart_data,
     get_data to_datetime_iso argsort_stable table_blank
     = Response200 chart_data)
  /\ exists unsorted,
       Permutation unsorted
         (records_of (get_data to_datetime_iso argsort_stable table_blank))
       /\ Forall2 (fun row rec =>
                     forall k label,
                       nth_error price_cols k = Some label ->
                       cell_of (columns (reconcile table_blank)) row label
                       = Blank ->
                       nth_error (y rec) k = Some FNaN)
                  (rows table_blank) unsorted.
Proof.
  pose proof (blank_price_is_nan to_datetime_iso argsort_stable
                to_datetime_iso_length argsort_stable_perm
                to_datetime_iso_int64 table_blank) as [Hnan Hok].
  split.
  - apply (Hok 0%nat [Stamp 1114420500000000000; Stamp 1114420560000000000]).
    + reflexivity.
    + exact required_once_sample.
    + vm_compute. reflexivity.
    + repeat constructor; discriminate.
    + vm_compute. reflexivity.
  - apply Hnan. vm_compute. reflexivity.
Defined.

(** * The other routes *)

(** ** [allowed_file] *)

Lemma split_last_dot_none (s : string) :
  split_last_dot s = None <-> contains_char "." s = false.
Proof.
  induction s as [|c s IH]; cbn [split_last_dot contains_char]; [tauto |].
  rewrite (Ascii.eqb_sym "." c).
  destruct (split_last_dot s) as [[stem ext]|].
  - split; intros H; [discriminate H |].
    apply orb_false_elim in H. destruct H as [_ H].
    apply IH in H. discriminate H.
  - destruct (Ascii.eqb c ".").
    + split; intros H; discriminate H.
    + rewrite orb_false_l. split; [intros _; now apply IH | reflexivity].
Qed.

Lemma split_last_dot_spec (s stem ext : string) :
  split_last_dot s = Some (stem, ext)
  <-> s = (stem ++ "." ++ ext)%string /\ contains_char "." ext = false.
Proof.
  split.
  - revert stem. induction s as [|c s IH]; intros stem;
      cbn [split_last_dot]; [discriminate |].
    destruct (split_last_dot s) as [[st e]|] eqn:E.
    + intros [= <- <-]. destruct (IH st eq_refl) as [-> Hext].
      split; [reflexivity | exact Hext].
    + destruct (Ascii.eqb_spec c ".") as [-> | Hne]; [| discriminate].
      intros [= <- <-]. split; [reflexivity |].
      now apply split_last_dot_none.
  - intros [-> Hext]. induction stem as [|c stem IH].
    + cbn [append split_last_dot]. apply split_last_dot_none in Hext.
      rewrite Hext. reflexivity.
    + cbn [append split_last_dot]. cbn [append] in IH. now rewrite IH.
Qed.

Lemma contains_dot_append (stem ext : string) :
  contains_char "." (stem ++ "." ++ ext) = true.
Proof.
  induction stem as [|c stem IH]; cbn [append contains_char].
  - reflexivity.
  - cbn [append] in IH. rewrite IH. apply orb_true_r.
Qed.

(** X1.  A file name is allowed exactly when it is some stem, a dot, and
    an extension without a dot that reads [csv] once lower-cased. *)
Theorem allowed_file_iff (filename : string) :
  allowed_file filename = true
  <-> exists stem ext,
        filename = (stem ++ "." ++ ext)%string
        /\ contains_char "." ext = false
        /\ lower ext = "csv".
Proof.
  unfold allowed_file, rsplit_dot. split.
  - intros H. apply andb_prop in H. destruct H as [_ H].
    destruct (split_last_dot filename) as [[stem ext]|] eqn:E;
      [| discriminate].
    apply split_last_dot_spec in E. destruct E as [-> Hext].
    cbn [nth_error ALLOWED_EXTENSIONS existsb] in H.
    rewrite orb_false_r in H. apply String.eqb_eq in H.
    now exists stem, ext.
  - intros (stem & ext & -> & Hext & Hcsv).
    rewrite contains_dot_append.
    rewrite (proj2 (split_last_dot_spec _ stem ext) (conj eq_refl Hext)).
    cbn [nth_error ALLOWED_EXTENSIONS existsb]. now rewrite Hcsv.
Qed.

Lemma lower_char_dot (c : ascii) :
  Ascii.eqb "." (lower_char c) = Ascii.eqb "." c
  /\ Ascii.eqb (lower_char c) "." = Ascii.eqb c ".".
Proof.
  destruct c as [[|] [|] [|] [|] [|] [|] [|] [|]]; split; reflexivity.
Qed.

Lemma contains_dot_lower (s : string) :
  contains_char "." (lower s) = contains_char "." s.
Proof.
  induction s as [|c s IH]; cbn [lower contains_char]; [reflexivity |].
  now rewrite (proj1 (lower_char_dot c)), IH.
Qed.

Lemma split_last_dot_lower (s : string) :
  split_last_dot (lower s)
  = match split_last_dot s with
    | Some (stem, ext) => Some (lower stem, lower ext)
    | None => None
    end.
Proof.
  induction s as [|c s IH]; cbn [lower split_last_dot]; [reflexivity |].
  rewrite IH. destruct (split_last_dot s) as [[stem ext]|];
    [reflexivity |].
  rewrite (proj2 (lower_char_dot c)). now destruct (Ascii.eqb c ".").
Qed.

(** X2.  The case of the letters of a file name does not matter to
    [allowed_file]. *)
Theorem allowed_file_lower (filename : string) :
  allowed_file (lower filename) = allowed_file filename.
Proof.
  unfold allowed_file, rsplit_dot.
  rewrite contains_dot_lower, split_last_dot_lower.
  destruct (split_last_dot filename) as [[stem ext]|]; [| reflexivity].
  cbn [nth_error]. now rewrite lower_idem.
Qed.

(** ** The folder *)

Lemma lookup_save_same (name content : string) (fs : folder) :
  lookup name (save name content fs) = Some content.
Proof.
  induction fs as [|[n c] fs IH]; simpl.
  - now rewrite String.eqb_refl.
  - destruct (String.eqb n name) eqn:E; simpl; rewrite E;
      [reflexivity | exact IH].
Qed.

Lemma lookup_save_other (name other content : string) (fs : folder) :
  other <> name ->
  lookup other (save name content fs) = lookup other fs.
Proof.
  intros Hne. induction fs as [|[n c] fs IH]; simpl.
  - destruct (String.eqb_spec name other); [congruence | reflexivity].
  - destruct (String.eqb_spec n name) as [-> | Hn]; simpl.
    + destruct (String.eqb_spec name other); [congruence | reflexivity].
    + now rewrite IH.
Qed.

Lemma lookup_listdir (name : string) (fs : folder) :
  In name (listdir fs) <-> exists content, lookup name fs = Some content.
Proof.
  induction fs as [|[n c] fs IH]; simpl.
  - split; [contradiction | intros (content & H); discriminate].
  - destruct (String.eqb_spec n name) as [-> | Hn].
    + split; [intros _; now exists c | now left].
    + rewrite <- IH. split; [intros [H | H]; [congruence | exact H] |
                              now right].
Qed.

Lemma listdir_save (name content : string) (fs : folder) :
  listdir (save name content fs)
  = if existsb (String.eqb name) (listdir fs) then listdir fs
    else listdir fs ++ [name].
Proof.
  induction fs as [|[n c] fs IH]; simpl; [reflexivity |].
  rewrite (String.eqb_sym name n).
  destruct (String.eqb n name) eqn:E; simpl; [reflexivity |].
  fold (listdir fs). unfold listdir in IH |- *. rewrite IH.
  now destruct (existsb (String.eqb name) (map fst fs)).
Qed.

Lemma existsb_eqb_In (name : string) (l : list string) :
  existsb (String.eqb name) l = true <-> In name l.
Proof. apply (has_column_In l name). Qed.

Lemma listdir_save_In (name content other : string) (fs : folder) :
  In other (listdir (save name content fs))
  <-> other = name \/ In other (listdir fs).
Proof.
  rewrite listdir_save.
  destruct (existsb (String.eqb name) (listdir fs)) eqn:E.
  - apply existsb_eqb_In in E. split; [now right |].
    intros [-> | H]; assumption.
  - rewrite in_app_iff. simpl. split.
    + intros [H | [H | []]]; [now right | now left].
    + intros [-> | H]; [right; now left | now left].
Qed.

Lemma listdir_save_NoDup (name content : string) (fs : folder) :
  NoDup (listdir fs) -> NoDup (listdir (save name content fs)).
Proof.
  intros H. rewrite listdir_save.
  destruct (existsb (String.eqb name) (listdir fs)) eqn:E; [exact H |].
  apply NoDup_app; [exact H | repeat constructor; intros [] | ].
  intros a Ha [<- | []].
  apply existsb_eqb_In in Ha. congruence.
Qed.

Lemma allowed_file_nonempty (filename : string) :
  allowed_file filename = true -> filename <> "".
Proof. intros H ->. discriminate H. Qed.

(** ** Upload, listing and serving together *)

Section RouteProperties.

Variable secure_filename : string -> string.
Variable read_csv : entry -> result DataFrame.
Variable to_datetime : list cell -> result (list timestamp).
Variable argsort : list float64 -> list nat.

Lemma upload_accepted (fs : folder) (file : upload) :
  allowed_file (upload_filename file) = true ->
  secure_filename (upload_filename file) <> "" ->
  upload_file secure_filename fs (Some file)
  = (Reply 200 "message"
           ("File " ++ secure_filename (upload_filename file)
            ++ " uploaded successfully!"),
     save (secure_filename (upload_filename file)) (upload_content file) fs).
Proof.
  intros Hallowed Hname. unfold upload_file.
  pose proof (allowed_file_nonempty _ Hallowed) as Hne.
  apply String.eqb_neq in Hne, Hname.
  now rewrite Hne, Hallowed, Hname.
Qed.

Lemma upload_folder_outcome (fs fs' : folder)
  (files : option upload) (r : reply) :
  upload_file secure_filename fs files = (r, fs') ->
  (exists content name, fs' = save name content fs) \/ fs' = fs.
Proof.
  unfold upload_file. destruct files as [file|].
  - destruct (String.eqb (upload_filename file) "");
      [intros [= <- <-]; now right |].
    destruct (negb false && allowed_file (upload_filename file));
      [| intros [= <- <-]; now right].
    destruct (String.eqb (secure_filename (upload_filename file)) "");
      intros [= <- <-]; [now right | left; now do 2 eexists].
  - intros [= <- <-]. now right.
Qed.

(** X3.  An upload changes the folder only when it is answered with
    status 200, which takes a part named file whose name is allowed; then
    the folder gains, or has written over, the file of the secured name.
    Every other upload is answered with status 400, or fails, and leaves
    the folder as it was. *)
Theorem upload_changes_folder_only_on_200 (fs fs' : folder)
  (files : option upload) (r : reply) :
  upload_file secure_filename fs files = (r, fs') ->
  (exists file,
     files = Some file
     /\ allowed_file (upload_filename file) = true
     /\ r = Reply 200 "message"
              ("File " ++ secure_filename (upload_filename file)
               ++ " uploaded successfully!")
     /\ fs' = save (secure_filename (upload_filename file))
                   (upload_content file) fs)
  \/ (fs' = fs /\ (r = Crash \/ exists text, r = Reply 400 "error" text)).
Proof.
  unfold upload_file. destruct files as [file|].
  - destruct (String.eqb (upload_filename file) "").
    + intros [= <- <-]. right. split; [reflexivity |]. right. now eexists.
    + cbn [negb andb].
      destruct (allowed_file (upload_filename file)) eqn:Hallowed.
      * destruct (String.eqb (secure_filename (upload_filename file)) "").
        -- intros [= <- <-]. right. split; [reflexivity | now left].
        -- intros [= <- <-]. left. exists file.
           repeat split; try reflexivity. exact Hallowed.
      * intros [= <- <-]. right. split; [reflexivity |]. right. now eexists.
  - intros [= <- <-]. right. split; [reflexivity |]. right. now eexists.
Qed.

(** X4.  After an accepted upload the folder holds the uploaded content
    under the secured name, and every other file as before. *)
Theorem accepted_upload_is_stored (fs : folder) (file : upload) :
  allowed_file (upload_filename file) = true ->
  secure_filename (upload_filename file) <> "" ->
  let name := secure_filename (upload_filename file) in
  let fs' := snd (upload_file secure_filename fs (Some file)) in
  lookup name fs' = Some (upload_content file)
  /\ forall other, other <> name -> lookup other fs' = lookup other fs.
Proof.
  intros Hallowed Hname name fs'. unfold fs'.
  rewrite (upload_accepted fs file Hallowed Hname). cbn [snd]. split.
  - apply lookup_save_same.
  - intros other Hother. now apply lookup_save_other.
Qed.

(** X5.  After an accepted upload the list of files is the list of
    before, together with the secured name when [allowed_file] accepts
    that name too; a file stored under a name that it rejects is not
    listed. *)
Theorem listing_after_upload (fs : folder) (file : upload) :
  allowed_file (upload_filename file) = true ->
  secure_filename (upload_filename file) <> "" ->
  let name := secure_filename (upload_filename file) in
  forall shown,
    In shown (list_files (snd (upload_file secure_filename fs (Some file))))
    <-> In shown (list_files fs)
        \/ (shown = name /\ allowed_file name = true).
Proof.
  intros Hallowed Hname name shown.
  rewrite (upload_accepted fs file Hallowed Hname). cbn [snd].
  unfold list_files. rewrite !filter_In, listdir_save_In. fold name.
  split.
  - intros [[-> | Hin] Hshown]; [right | left]; now split.
  - intros [[Hin Hshown] | [-> Hshown]]; split; auto.
Qed.

(** No upload makes a name occur twice in the folder. *)
Theorem upload_keeps_names_distinct (fs : folder) (files : option upload) :
  NoDup (listdir fs) ->
  NoDup (listdir (snd (upload_file secure_filename fs files))).
Proof.
  intros Hnodup.
  destruct (upload_file secure_filename fs files) as [r fs'] eqn:E.
  apply upload_folder_outcome in E.
  destruct E as [(content & name & ->) | ->]; cbn [snd].
  - now apply listdir_save_NoDup.
  - exact Hnodup.
Qed.

(** X6.  Uploading again under the same secured name writes the file
    over: the names in the folder stay as they were after the first
    upload, and the content is that of the second. *)
Theorem reupload_overwrites (fs : folder) (file1 file2 : upload) :
  allowed_file (upload_filename file1) = true ->
  allowed_file (upload_filename file2) = true ->
  secure_filename (upload_filename file1) <> "" ->
  secure_filename (upload_filename file2)
  = secure_filename (upload_filename file1) ->
  let fs1 := snd (upload_file secure_filename fs (Some file1)) in
  let fs2 := snd (upload_file secure_filename fs1 (Some file2)) in
  listdir fs2 = listdir fs1
  /\ lookup (secure_filename (upload_filename file1)) fs2
     = Some (upload_content file2).
Proof.
  intros H1 H2 Hname Hsame fs1 fs2. unfold fs2, fs1.
  assert (Hname2 : secure_filename (upload_filename file2) <> "")
    by now rewrite Hsame.
  rewrite (upload_accepted fs file1 H1 Hname). cbn [snd].
  rewrite (upload_accepted _ file2 H2 Hname2). cbn [snd].
  rewrite Hsame. split; [| apply lookup_save_same].
  rewrite (listdir_save _ (upload_content file2)).
  assert (Hin : In (secure_filename (upload_filename file1))
                   (listdir (save (secure_filename (upload_filename file1))
                                  (upload_content file1) fs)))
    by (apply listdir_save_In; now left).
  apply existsb_eqb_In in Hin. now rewrite Hin.
Qed.

(** X7.  A file that was just uploaded is served when asked for by the
    name it was uploaded with: the answer is never the 404, it is what
    the transform makes of the uploaded content. *)
Theorem uploaded_file_is_served (fs : folder) (file : upload) :
  allowed_file (upload_filename file) = true ->
  secure_filename (upload_filename file) <> "" ->
  get_data_route secure_filename read_csv to_datetime argsort
    (snd (upload_file secure_filename fs (Some file)))
    (Some (upload_filename file))
  = Handled
      match read_csv (File (upload_content file)) with
      | Ok df => get_data to_datetime argsort df
      | Raise msg => Response500 ("Error processing CSV: " ++ msg)
      end.
Proof.
  intros Hallowed Hname.
  rewrite (upload_accepted fs file Hallowed Hname). cbn [snd].
  unfold get_data_route, stat. apply String.eqb_neq in Hname.
  now rewrite Hname, lookup_save_same.
Qed.

(** X8.  An upload does not change what is served under another secured
    name. *)
Theorem upload_leaves_other_files (fs : folder) (files : option upload)
  (requested : string) :
  (forall file, files = Some file ->
     secure_filename (upload_filename file) <> secure_filename requested) ->
  get_data_route secure_filename read_csv to_datetime argsort
    (snd (upload_file secure_filename fs files)) (Some requested)
  = get_data_route secure_filename read_csv to_datetime argsort
      fs (Some requested).
Proof.
  intros Hother.
  destruct (upload_file secure_filename fs files) as [r fs'] eqn:E.
  cbn [snd]. unfold upload_file in E. destruct files as [file|];
    [| now injection E as <- <-].
  specialize (Hother file eq_refl).
  destruct (String.eqb (upload_filename file) "");
    [now injection E as <- <- |].
  destruct (negb false && allowed_file (upload_filename file));
    [| now injection E as <- <-].
  destruct (String.eqb (secure_filename (upload_filename file)) "");
    injection E as <- <-; [reflexivity |].
  unfold get_data_route, stat.
  rewrite lookup_save_other by congruence. reflexivity.
Qed.

(** X9.  A file is served exactly when the folder holds it: asking for
    a name that [secure_filename] leaves as it is gives the transform of
    that file when the name is in the list of files, and the 404 that
    quotes the name when the folder has no such file. *)
Theorem served_iff_stored (fs : folder) (requested : string) :
  secure_filename requested = requested ->
  requested <> "" ->
  (In requested (list_files fs) ->
   exists content,
     lookup requested fs = Some content
     /\ get_data_route secure_filename read_csv to_datetime argsort
          fs (Some requested)
        = Handled
            match read_csv (File content) with
            | Ok df => get_data to_datetime argsort df
            | Raise msg => Response500 ("Error processing CSV: " ++ msg)
            end)
  /\ (~ In requested (listdir fs) ->
      get_data_route secure_filename read_csv to_datetime argsort
        fs (Some requested)
      = NotFound ("File '" ++ requested
                  ++ "' not found. Please upload it first.")).
Proof.
  intros Hsecure Hne. apply String.eqb_neq in Hne.
  unfold get_data_route, stat. rewrite Hsecure, Hne. split.
  - intros Hin. unfold list_files in Hin. apply filter_In in Hin.
    destruct Hin as [Hin _]. apply lookup_listdir in Hin.
    destruct Hin as (content & Hcontent). exists content.
    now rewrite Hcontent.
  - intros Hout. destruct (lookup requested fs) as [content|] eqn:E;
      [| reflexivity].
    contradiction Hout. apply lookup_listdir. now exists content.
Qed.

End RouteProperties.

Lemma upload_changes_folder_only_on_200_witness :
  snd (upload_file secure_filename_ascii sample_folder
         (Some (mkUpload "notes.txt" "hello again")))
  = sample_folder.
Proof.
  destruct (upload_changes_folder_only_on_200 secure_filename_ascii
              sample_folder
              (snd (upload_file secure_filename_ascii sample_folder
                      (Some (mkUpload "notes.txt" "hello again"))))
              (Some (mkUpload "notes.txt" "hello again"))
              (Reply 400 "error" "Allowed file types are CSV") eq_refl)
    as [(file & _ & _ & Hr & _) | [Hfs _]].
  - discriminate Hr.
  - exact Hfs.
Defined.

Lemma accepted_upload_is_stored_witness :
  lookup "My_Data.CSV"
    (snd (upload_file secure_filename_ascii sample_folder
            (Some sample_upload)))
  = Some "datetime,open,high,low,close"
  /\ forall other, other <> "My_Data.CSV" ->
       lookup other (snd (upload_file secure_filename_ascii sample_folder
                            (Some sample_upload)))
       = lookup other sample_folder.
Proof.
  apply (accepted_upload_is_stored secure_filename_ascii sample_folder
           sample_upload).
  - reflexivity.
  - vm_compute. discriminate.
Defined.

Lemma listing_after_upload_witness :
  In "My_Data.CSV"
     (list_files (snd (upload_file secure_filename_ascii sample_folder
                         (Some sample_upload))))
  <-> In "My_Data.CSV" (list_files sample_folder)
      \/ ("My_Data.CSV"
          = secure_filename_ascii (upload_filename sample_upload)
          /\ allowed_file
               (secure_filename_ascii (upload_filename sample_upload))
             = true).
Proof.
  apply (listing_after_upload secure_filename_ascii sample_folder
           sample_upload).
  - reflexivity.
  - vm_compute. discriminate.
Defined.

Lemma upload_keeps_names_distinct_witness :
  NoDup (listdir (snd (upload_file secure_filename_ascii sample_folder
                         (Some sample_upload)))).
Proof.
  apply (upload_keeps_names_distinct secure_filename_ascii sample_folder
           (Some sample_upload)).
  repeat constructor; simpl; intros H;
    repeat (destruct H as [H | H]; [discriminate H |]); exact H.
Defined.

Lemma reupload_overwrites_witness :
  let fs1 := snd (upload_file secure_filename_ascii sample_folder
                    (Some sample_upload)) in
  let fs2 := snd (upload_file secure_filename_ascii fs1
                    (Some (mkUpload "My  Data.CSV" "date,open"))) in
  listdir fs2 = listdir fs1
  /\ lookup (secure_filename_ascii (upload_filename sample_upload)) fs2
     = Some "date,open".
Proof.
  apply (reupload_overwrites secure_filename_ascii sample_folder
           sample_upload (mkUpload "My  Data.CSV" "date,open")).
  - reflexivity.
  - reflexivity.
  - vm_compute. discriminate.
  - reflexivity.
Defined.

(** ** More on the transform *)

Lemma rename_filtered (L : list string) (M : list (string * string)) (x : string) :
  In x L ->
  rename_label (filter (fun kv => has_column L (fst kv)) M) x
  = rename_label M x.
Proof.
  intros Hx. induction M as [|[k v] M IH]; [reflexivity |].
  cbn [filter fst rename_label].
  destruct (has_column L k) eqn:Hk.
  - cbn [rename_label]. now rewrite IH.
  - destruct (String.eqb_spec k x) as [-> | Hne]; [| exact IH].
    apply has_column_In in Hx. congruence.
Qed.

Lemma reconcile_eq (df : DataFrame) :
  reconcile df
  = mkDataFrame
      (map (fun c => rename_label column_mapping (lower c)) (columns df))
      (rows df).
Proof.
  unfold reconcile. f_equal. rewrite map_map. apply map_ext_in.
  intros c Hc. apply rename_filtered. now apply in_map.
Qed.

Section TransformProperties.
Variable to_datetime : list cell -> result (list timestamp).
Variable argsort : list float64 -> list nat.

(** X10.  The case of the column labels does not matter: two tables with
    the same rows whose labels agree once lower-cased get the same
    response. *)
Theorem headers_case_insensitive (df1 df2 : DataFrame) :
  map lower (columns df1) = map lower (columns df2) ->
  rows df1 = rows df2 ->
  get_data to_datetime argsort df1 = get_data to_datetime argsort df2.
Proof.
  intros Hcols Hrows.
  assert (H : reconcile df1 = reconcile df2)
    by (unfold reconcile; now rewrite Hcols, Hrows).
  unfold get_data. now rewrite H.
Qed.

(** X11.  Writing [datetime] for a column labelled [date] changes
    nothing in the response. *)
Theorem date_is_datetime (df : DataFrame) :
  get_data to_datetime argsort (date_as_datetime df)
  = get_data to_datetime argsort df.
Proof.
  assert (H : reconcile (date_as_datetime df) = reconcile df).
  { rewrite !reconcile_eq. unfold date_as_datetime. cbn [columns rows].
    f_equal. rewrite map_map. apply map_ext. intros c.
    destruct (String.eqb_spec (lower c) "date") as [-> | _]; reflexivity. }
  unfold get_data. now rewrite H.
Qed.

Lemma mapM_to_millis_nat (stamps : list timestamp) :
  In NaT stamps ->
  mapM to_millis stamps = Raise "NaTType does not support timestamp".
Proof.
  induction stamps as [|t stamps IH]; [contradiction |].
  intros Hin. destruct t as [|v]; [reflexivity |].
  destruct Hin as [H | Hin]; [discriminate H |].
  cbn [mapM]. unfold to_millis at 1. cbn [timestamp_seconds bind].
  now rewrite (IH Hin).
Qed.

(** X12.  A missing date fails the whole request: when the converted
    column has a [NaT], the answer is the 500 with the complaint of
    [NaT], whatever the other rows hold. *)
Theorem missing_date_fails (df : DataFrame) (j : nat) (stamps : list timestamp) :
  (forall col, In col required_cols -> In col (columns (reconcile df))) ->
  parse_datetime_column to_datetime (reconcile df) = Ok (j, stamps) ->
  In NaT stamps ->
  get_data to_datetime argsort df
  = Response500 "Error processing CSV: NaTType does not support timestamp".
Proof.
  intros Hreq Hparse Hnat. apply required_present_iff in Hreq.
  unfold get_data. rewrite Hreq. cbn [negb].
  unfold build_chart_data. rewrite Hparse. cbn [bind].
  now rewrite (mapM_to_millis_nat _ Hnat).
Qed.

Hypothesis to_datetime_length :
  forall values stamps,
    to_datetime values = Ok stamps ->
    List.length stamps = List.length values.

Hypothesis argsort_perm :
  forall keys, Permutation (argsort keys) (seq 0 (List.length keys)).

(** X13.  A table with at least one row in which a price label occurs
    on more than one column after reconciliation is never answered with
    chart records. *)
Theorem repeated_price_label_fails (df : DataFrame) (label : string)
  (chart_data : list ChartRecord) :
  In label price_cols ->
  (2 <= count_occ string_dec (columns (reconcile df)) label)%nat ->
  rows df <> [] ->
  get_data to_datetime argsort df <> Response200 chart_data.
Proof.
  intros Hlabel Hcount Hrows H.
  destruct (get_data_ok_rows to_datetime argsort to_datetime_length
              argsort_perm _ _ H)
    as (j & stamps & millis & unsorted & Hj & _ & _ & Hlen & Hun & _).
  cbn [rows reconcile] in Hlen, Hun.
  destruct (rows df) as [|r rs]; [now contradiction Hrows |].
  destruct millis as [|m millis]; [discriminate Hlen |].
  cbn [map set_column mapM] in Hun.
  destruct (chart_record (columns (reconcile df)) (replace_nth j (Num m) r))
    as [rec|] eqn:Erec; [| discriminate Hun].
  rewrite chart_record_prices in Erec.
  destruct (row_item "int" py_int (columns (reconcile df))
              (replace_nth j (Num m) r) "Datetime"); [| discriminate Erec].
  cbn [bind] in Erec.
  destruct (prices (columns (reconcile df)) (replace_nth j (Num m) r))
    as [ys|] eqn:Ey; [| discriminate Erec].
  unfold prices in Ey. apply mapM_Forall2 in Ey.
  destruct (Forall2_In_left _ _ _ _ Ey Hlabel) as (f & _ & Hf).
  unfold row_item in Hf. rewrite <- (locs_length label _ 0%nat) in Hcount.
  destruct (locs label (columns (reconcile df)) 0) as [|k [|k' ks]];
    try discriminate Hf. simpl in Hcount. lia.
Qed.

(** *** One more column *)

Lemma locs_app_last (label other : string) (cols : list string)
  (start : nat) :
  label <> other ->
  locs label (cols ++ [other]) start = locs label cols start.
Proof.
  intros Hne. revert start. induction cols as [|c cols IH]; intros start.
  - cbn [app locs]. destruct (String.eqb_spec label other);
      [congruence | reflexivity].
  - cbn [app locs]. now rewrite IH.
Qed.

Lemma replace_nth_app {A : Type} (j : nat) (a x : A) (l : list A) :
  (j < List.length l)%nat ->
  replace_nth j a (l ++ [x]) = replace_nth j a l ++ [x].
Proof.
  revert j. induction l as [|b l IH]; intros j Hj; simpl in Hj; [lia |].
  destruct j as [|j]; cbn [app replace_nth]; [reflexivity |].
  f_equal. apply IH. lia.
Qed.

Lemma replace_nth_length {A : Type} (j : nat) (a : A) (l : list A) :
  List.length (replace_nth j a l) = List.length l.
Proof.
  revert j. induction l as [|b l IH]; intros [|j]; simpl; auto.
Qed.

Lemma column_widen (j : nat) (rs : list (list cell)) (cells : list cell) :
  Forall (fun r => (j < List.length r)%nat) rs ->
  List.length cells = List.length rs ->
  map (fun r => nth j r Blank) (widen rs cells)
  = map (fun r => nth j r Blank) rs.
Proof.
  intros Hall. revert cells.
  induction Hall as [|r rs Hr _ IH]; intros [|x cells] Hlen;
    try discriminate Hlen; [reflexivity |].
  unfold widen. cbn [combine map fst snd]. f_equal.
  - now apply app_nth1.
  - apply IH. simpl in Hlen. lia.
Qed.

Lemma set_column_widen (j : nat) (values : list cell)
  (rs : list (list cell)) (cells : list cell) :
  Forall (fun r => (j < List.length r)%nat) rs ->
  List.length cells = List.length rs ->
  set_column j values (widen rs cells)
  = widen (set_column j values rs) cells.
Proof.
  intros Hall. revert cells values.
  induction Hall as [|r rs Hr _ IH]; intros [|x cells] [|v values] Hlen;
    try discriminate Hlen; try reflexivity.
  unfold widen. cbn [combine map fst snd set_column]. f_equal.
  - now apply replace_nth_app.
  - apply IH. simpl in Hlen. lia.
Qed.

Lemma set_column_widths (j n : nat) (values : list cell)
  (rs : list (list cell)) :
  Forall (fun r => List.length r = n) rs ->
  Forall (fun r => List.length r = n) (set_column j values rs).
Proof.
  intros Hall. revert values.
  induction Hall as [|r rs Hr Hall IH]; intros [|v values];
    cbn [set_column]; try (now constructor).
  constructor; [now rewrite replace_nth_length | apply IH].
Qed.

(** A row of the wider table is a row of the table with one cell added,
    and past the end both tables give the empty row. *)
Lemma nth_widen (i : nat) (rs : list (list cell)) (cells : list cell) :
  List.length cells = List.length rs ->
  (nth i (widen rs cells) [] = [] /\ nth i rs [] = [])
  \/ (In (nth i rs []) rs
      /\ exists x, nth i (widen rs cells) [] = nth i rs [] ++ [x]).
Proof.
  revert i cells. induction rs as [|r rs IH]; intros i [|x cells] Hlen;
    try discriminate Hlen.
  - left. now destruct i.
  - destruct i as [|i].
    + right. split; [now left | now exists x].
    + unfold widen. cbn [combine map nth]. simpl in Hlen.
      destruct (IH i cells) as [H | [Hin H]]; [lia | now left |].
      right. split; [now right | exact H].
Qed.

Lemma row_item_widen {A : Type} (conv : string) (f : cell -> result A)
  (cols : list string) (row : list cell) (label other : string) (x : cell) :
  label <> other -> List.length row = List.length cols ->
  row_item conv f (cols ++ [other]) (row ++ [x]) label
  = row_item conv f cols row label.
Proof.
  intros Hne Hlen. unfold row_item. rewrite (locs_app_last _ _ _ _ Hne).
  destruct (locs label cols 0) as [|k [|k' ks]] eqn:Hk; try reflexivity.
  rewrite app_nth1; [reflexivity |].
  assert (Hin : In k (locs label cols 0)) by (rewrite Hk; now left).
  apply locs_In in Hin. destruct Hin as [_ Hin].
  rewrite Nat.sub_0_r in Hin. rewrite Hlen. apply nth_error_Some. congruence.
Qed.

Lemma row_item_widen_nil {A : Type} (conv : string) (f : cell -> result A)
  (cols : list string) (label other : string) :
  label <> other ->
  row_item conv f (cols ++ [other]) [] label = row_item conv f cols [] label.
Proof.
  intros Hne. unfold row_item. now rewrite (locs_app_last _ _ _ _ Hne).
Qed.

Lemma chart_record_widen (cols : list string) (row : list cell)
  (other : string) (x : cell) :
  ~ In other required_cols -> List.length row = List.length cols ->
  chart_record (cols ++ [other]) (row ++ [x]) = chart_record cols row.
Proof.
  intros Hother Hlen. unfold chart_record.
  rewrite !row_item_widen; try assumption; try reflexivity;
    intros <-; apply Hother; simpl; tauto.
Qed.

Lemma chart_record_widen_nil (cols : list string) (other : string) :
  ~ In other required_cols ->
  chart_record (cols ++ [other]) [] = chart_record cols [].
Proof.
  intros Hother. unfold chart_record.
  rewrite !row_item_widen_nil; try reflexivity;
    intros <-; apply Hother; simpl; tauto.
Qed.

Lemma mapM_ext {A B : Type} (f g : A -> result B) (l : list A) :
  (forall a, f a = g a) -> mapM f l = mapM g l.
Proof.
  intros H. induction l as [|a l IH]; [reflexivity |].
  cbn [mapM]. now rewrite H, IH.
Qed.

(** X14.  A column the mapping does not know is ignored: adding one at
    the right end of a table that has the required columns does not
    change the response. *)
Theorem unknown_column_is_ignored (df : DataFrame) (label : string)
  (cells : list cell) :
  well_formed df = true ->
  List.length cells = List.length (rows df) ->
  ~ In (rename_label column_mapping (lower label)) required_cols ->
  (forall col, In col required_cols -> In col (columns (reconcile df))) ->
  get_data to_datetime argsort (add_column df label cells)
  = get_data to_datetime argsort df.
Proof.
  intros Hwf Hcells Hother Hreq.
  set (other := rename_label column_mapping (lower label)) in *.
  set (cols := columns (reconcile df)).
  assert (Hrec : reconcile (add_column df label cells)
                 = mkDataFrame (cols ++ [other]) (widen (rows df) cells)).
  { rewrite reconcile_eq. unfold add_column. cbn [columns rows].
    rewrite map_app. unfold cols. rewrite reconcile_eq. reflexivity. }
  assert (Hwidth : Forall (fun r => List.length r = List.length cols)
                     (rows df)).
  { unfold cols. rewrite reconcile_eq. cbn [columns]. rewrite length_map.
    unfold well_formed in Hwf. rewrite forallb_forall in Hwf.
    apply Forall_forall. intros r Hr. now apply Nat.eqb_eq, Hwf. }
  assert (Hdt : "Datetime" <> other)
    by (intros <-; apply Hother; simpl; tauto).
  unfold get_data. rewrite Hrec. cbn [columns].
  fold cols.
  assert (Hcheck : forallb (has_column (cols ++ [other])) required_cols
                   = true).
  { apply required_present_iff. intros col Hcol. apply in_or_app.
    left. now apply Hreq. }
  apply required_present_iff in Hreq. fold cols in Hreq.
  rewrite Hcheck, Hreq. cbn [negb].
  change (reconcile df) with (mkDataFrame cols (rows df)).
  assert (Hbuild :
    build_chart_data to_datetime argsort
      (mkDataFrame (cols ++ [other]) (widen (rows df) cells))
    = build_chart_data to_datetime argsort (mkDataFrame cols (rows df)));
    [| now rewrite Hbuild].
  unfold build_chart_data, parse_datetime_column, getitem.
  cbn [columns rows]. rewrite (locs_app_last _ _ _ _ Hdt). fold cols.
  destruct (locs "Datetime" cols 0) as [|j [|j' js]] eqn:Hj;
    try reflexivity.
  assert (Hjlt : (j < List.length cols)%nat).
  { assert (Hin : In j (locs "Datetime" cols 0)) by (rewrite Hj; now left).
    apply locs_In in Hin. destruct Hin as [_ Hin].
    rewrite Nat.sub_0_r in Hin. apply nth_error_Some. congruence. }
  assert (Hrows : Forall (fun r => (j < List.length r)%nat) (rows df)).
  { eapply Forall_impl; [| exact Hwidth]. intros r Hr. cbv beta in Hr.
    lia. }
  unfold column_at. cbn [rows].
  rewrite (column_widen j _ _ Hrows Hcells).
  destruct (to_datetime (map (fun r => nth j r Blank) (rows df)))
    as [stamps|]; [| reflexivity].
  cbn [bind]. destruct (mapM to_millis stamps) as [millis|];
    [| reflexivity].
  cbn [bind]. unfold sort_values, column_at. cbn [columns rows].
  rewrite (set_column_widen j _ _ _ Hrows Hcells).
  set (rs := set_column j (map Num millis) (rows df)).
  assert (Hwidth' : Forall (fun r => List.length r = List.length cols) rs)
    by (apply set_column_widths, Hwidth).
  assert (Hrows' : Forall (fun r => (j < List.length r)%nat) rs).
  { eapply Forall_impl; [| exact Hwidth']. intros r Hr. cbv beta in Hr.
    lia. }
  assert (Hcells' : List.length cells = List.length rs)
    by (unfold rs; now rewrite set_column_length).
  rewrite (column_widen j _ _ Hrows' Hcells').
  unfold take. rewrite !mapM_map. apply mapM_ext. intros i.
  destruct (nth_widen i rs cells Hcells') as [[-> ->] | [Hin (x & ->)]].
  - now apply chart_record_widen_nil.
  - apply chart_record_widen; [exact Hother |].
    rewrite Forall_forall in Hwidth'. now apply Hwidth'.
Qed.
End TransformProperties.

(** ** The routes and the transform on samples *)

Lemma uploaded_file_is_served_witness :
  get_data_route secure_filename_ascii read_sample to_datetime_iso
    argsort_stable
    (snd (upload_file secure_filename_ascii sample_folder
            (Some sample_upload)))
    (Some "My Data.CSV")
  = Handled (get_data to_datetime_iso argsort_stable table_two_rows).
Proof.
  apply (uploaded_file_is_served secure_filename_ascii read_sample
           to_datetime_iso argsort_stable sample_folder sample_upload).
  - reflexivity.
  - vm_compute. discriminate.
Defined.

Lemma upload_leaves_other_files_witness :
  get_data_route secure_filename_ascii read_sample to_datetime_iso
    argsort_stable
    (snd (upload_file secure_filename_ascii sample_folder
            (Some sample_upload)))
    (Some "old.csv")
  = get_data_route secure_filename_ascii read_sample to_datetime_iso
      argsort_stable sample_folder (Some "old.csv").
Proof.
  apply (upload_leaves_other_files secure_filename_ascii read_sample
           to_datetime_iso argsort_stable sample_folder
           (Some sample_upload) "old.csv").
  intros file [= <-]. vm_compute. discriminate.
Defined.

Lemma served_iff_stored_witness :
  (exists content,
     lookup "old.csv" sample_folder = Some content
     /\ get_data_route secure_filename_ascii read_sample to_datetime_iso
          argsort_stable sample_folder (Some "old.csv")
        = Handled
            match read_sample (File content) with
            | Ok df => get_data to_datetime_iso argsort_stable df
            | Raise msg => Response500 ("Error processing CSV: " ++ msg)
            end)
  /\ get_data_route secure_filename_ascii read_sample to_datetime_iso
       argsort_stable sample_folder (Some "new.csv")
     = NotFound "File 'new.csv' not found. Please upload it first.".
Proof.
  split.
  - apply (proj1 (served_iff_stored secure_filename_ascii read_sample
                    to_datetime_iso argsort_stable sample_folder "old.csv"
                    eq_refl ltac:(discriminate))).
    vm_compute. tauto.
  - apply (proj2 (served_iff_stored secure_filename_ascii read_sample
                    to_datetime_iso argsort_stable sample_folder "new.csv"
                    eq_refl ltac:(discriminate))).
    vm_compute. intros H.
    repeat (destruct H as [H | H]; [discriminate H |]). exact H.
Defined.

Lemma headers_case_insensitive_witness :
  get_data to_datetime_iso argsort_stable table_two_rows
  = get_data to_datetime_iso argsort_stable table_two_rows_shouted.
Proof.
  apply (headers_case_insensitive to_datetime_iso argsort_stable
           table_two_rows table_two_rows_shouted); reflexivity.
Defined.

Lemma missing_date_fails_witness :
  get_data to_datetime_iso argsort_stable table_blank_date
  = Response500 "Error processing CSV: NaTType does not support timestamp".
Proof.
  apply (missing_date_fails to_datetime_iso argsort_stable table_blank_date
           0%nat [NaT; Stamp 1114420560000000000]).
  - vm_compute. intros col H.
    repeat (destruct H as [<- | H]; [tauto |]). contradiction H.
  - vm_compute. reflexivity.
  - now left.
Defined.

Lemma repeated_price_label_fails_witness :
  get_data to_datetime_iso argsort_stable table_two_opens
  <> Response200 [].
Proof.
  apply (repeated_price_label_fails to_datetime_iso argsort_stable
           to_datetime_iso_length argsort_stable_perm table_two_opens
           "Open" []).
  - simpl. tauto.
  - vm_compute. lia.
  - discriminate.
Defined.

Lemma unknown_column_is_ignored_witness :
  get_data to_datetime_iso argsort_stable
    (add_column table_blank "Volume" [num 7; num 8])
  = get_data to_datetime_iso argsort_stable table_blank.
Proof.
  apply (unknown_column_is_ignored to_datetime_iso argsort_stable
           table_blank "Volume" [num 7; num 8]).
  - reflexivity.
  - reflexivity.
  - vm_compute. intros H.
    repeat (destruct H as [H | H]; [discriminate H |]). exact H.
  - vm_compute. intros col H.
    repeat (destruct H as [<- | H]; [tauto |]). contradiction H.
Defined.
